(** * SecureAttend: a shallow embedding of the attendance core

    Part I embeds the Python sources, module by module:
    - [Py]: the built-ins the sources rely on (slices, [round], [min], [max],
      [deque], clock readings);
    - [SHA256] and [Json]: the two library functions the ledger calls
      ([hashlib.sha256(..).hexdigest()] and [json.dumps(.., sort_keys=True)]);
    - [Ledger]: [src/blockchain.py] ([Block], [Blockchain], with saving,
      loading and the queries);
    - [Liveness]: [src/liveness_detector.py] ([LivenessDetector.detect_liveness]
      and the blink counters);
    - [Emotion]: [src/emotion_detector.py] (the classifier, the window, the
      engagement score and the statistics of the window);
    - [Tracker]: [class AttendanceTracker] of [src/gui_application.py];
    - [Database]: [src/database_manager.py] (tables [users] and [attendance]
      and the methods that read and write them);
    - [App]: the marking path of [SecureAttendApp.start_attendance].
    Part II states and proves the properties the specification claims;
    Part III proves further properties that the code has.

    Modelling conventions.  A Python [str] is a Rocq [string] whose characters
    are the code points U+0000..U+00FF; Python [int]s are [Z].  In the
    liveness scorer a Python [float] is an IEEE 754 binary64 number, one of
    Rocq's primitive floats, and the arithmetic, the comparisons and
    [round] are those of the interpreter ([Num]).  In the other modules
    floats are stored, compared, counted with and averaged; there a float
    is the rational it denotes ([Q]) and the arithmetic on it is exact.
    The image operators of OpenCV and NumPy are not modelled: the five
    signal extractors are functions of the face region taken as given.
    The database is the list of rows of each table, with no I/O failure;
    the ledger is the in-memory chain.  Loops that search (proof of work)
    carry a budget of turns and return [None] when it runs out. *)

From Stdlib Require Import PrimFloat FloatOps SpecFloat.
From Stdlib Require Uint63.
From Stdlib Require Import ZArith QArith Qround Lia Lqa Bool List Ascii String DecimalString.
From Stdlib Require Import OrderedTypeEx.
From stdpp Require Import gmap strings list fin_maps.

Local Open Scope string_scope.
Local Open Scope Z_scope.
Local Open Scope list_scope.

Set Warnings "-register-all,-clear-no-such-hyp,-inexact-float".

(* ===================================================================== *)
(** ** Python built-ins on strings and integers                          *)
(* ===================================================================== *)

Module Py.

(** [str(n)] for an [int]. *)
Definition str_of_int (n : Z) : string := NilZero.string_of_int (Z.to_int n).

(** [s[:n]] for [n >= 0]: the first [n] characters, or all of [s] when it is
    shorter. *)
Fixpoint take (n : nat) (s : string) : string :=
  match n, s with
  | S k, String c r => String c (take k r)
  | _, _ => EmptyString
  end.

(** ["0" * n]. *)
Fixpoint zeros (n : nat) : string :=
  match n with
  | O => EmptyString
  | S k => String "0" (zeros k)
  end.

(** [s.encode()]: UTF-8, for code points below U+0100. *)
Definition utf8_char (c : ascii) : list Z :=
  let n := Z.of_N (N_of_ascii c) in
  if n <? 128 then [n]
  else [Z.lor 192 (Z.shiftr n 6); Z.lor 128 (Z.land n 63)].

Fixpoint encode (s : string) : list Z :=
  match s with
  | EmptyString => []
  | String c r => utf8_char c ++ encode r
  end.


Definition hex_digit (n : Z) : ascii :=
  ascii_of_N (Z.to_N (if n <? 10 then 48 + n else 87 + n)).

(** Comparisons of floats, as booleans. *)
Definition Qleb (a b : Q) : bool := Qle_bool a b.
Definition Qltb (a b : Q) : bool := negb (Qle_bool b a).

(** [min(a, b)] and [max(a, b)]. *)
Definition min (a b : Q) : Q := if Qltb b a then b else a.
Definition max (a b : Q) : Q := if Qltb a b then b else a.

(** Rounding to the nearest integer, ties to the even one. *)
Definition round_half_even (q : Q) : Z :=
  let f := Qfloor q in
  match Qcompare (q - inject_Z f) (1 # 2) with
  | Lt => f
  | Gt => f + 1
  | Eq => if Z.even f then f else f + 1
  end.

(** [round(q, ndigits)]. *)
Definition round (q : Q) (ndigits : nat) : Q :=
  let scale := inject_Z (10 ^ Z.of_nat ndigits) in
  (inject_Z (round_half_even (q * scale)) / scale)%Q.

(** [collections.deque(maxlen=n).append(x)]: the oldest entries leave once
    the window is full. *)
Definition deque_append {A} (maxlen : nat) (d : list A) (x : A) : list A :=
  let d' := d ++ [x] in
  skipn (List.length d' - maxlen) d'.

(** Truthiness of an optional string: [None] and [""] are false. *)
Definition truthy (o : option string) : bool :=
  match o with
  | Some s => negb (String.eqb s EmptyString)
  | None => false
  end.

(** One reading of [datetime.datetime.now()]: the date as [%Y-%m-%d], the
    time as [%H:%M:%S], and the fractional seconds as they print (a dot
    and six digits, or nothing when they are zero). *)
Record Clock : Type := mkClock {
  date : string;
  time : string;
  micro : string
}.

(** [now.strftime('%Y-%m-%d %H:%M:%S')]. *)
Definition strftime_seconds (now : Clock) : string :=
  (date now ++ " " ++ time now)%string.
(** [now.isoformat()]. *)
Definition isoformat (now : Clock) : string :=
  (date now ++ "T" ++ time now ++ micro now)%string.
(** [str(now)]. *)
Definition str_of_datetime (now : Clock) : string :=
  (date now ++ " " ++ time now ++ micro now)%string.

(** [x in l] for a list of strings. *)
Definition str_in (x : string) (l : list string) : bool :=
  existsb (String.eqb x) l.

End Py.

(* ===================================================================== *)
(** ** Python floats and NumPy scalars                                    *)
(* ===================================================================== *)

Module Num.

(** The float of an integer from 0 to 2^53 (exact). *)
Definition float_of_Z (n : Z) : float := PrimFloat.of_uint63 (Uint63.of_Z n).

Definition two_power (e : Z) : Q := Qpower 2 e.

(** The float nearest to a rational that is not negative, ties to the
    even significand: what [float(s)] yields for a decimal literal [s]. *)
Definition nearest_float (q : Q) : float :=
  let n := Qnum q in
  let d := Z.pos (Qden q) in
  if n <=? 0 then 0%float
  else
    let e := Z.log2 n - Z.log2 d - 53 in
    let e := if Qle_bool (two_power (e + 53)) q then e + 1 else e in
    let e := Z.max e (-1074) in
    Z.ldexp (float_of_Z (Py.round_half_even (q / two_power e))) e.

(** [round(x, ndigits)] for a [float] ([float.__round__] with
    [ndigits >= 0]): the decimal with [ndigits] places that is nearest to
    the exact value of [x], ties to the even digit, and then the float
    nearest to that decimal.  Zeros, infinities and NaN come back as they
    are. *)
Definition round_float (x : float) (ndigits : nat) : float :=
  match Prim2SF x with
  | S754_finite s m e =>
      let scale := 10 ^ Z.of_nat ndigits in
      let n := Py.round_half_even (inject_Z (Z.pos m) * two_power e * inject_Z scale) in
      let r := nearest_float (Qmake n (Z.to_pos scale)) in
      if s then (- r)%float else r
  | _ => x
  end.

(** [numpy.rint]: the nearest integer, ties to the even one; an integer,
    a zero, an infinity or NaN comes back as it is. *)
Definition rint (x : float) : float :=
  match Prim2SF x with
  | S754_finite s m e =>
      if 0 <=? e then x
      else
        let r := float_of_Z (Py.round_half_even (inject_Z (Z.pos m) * two_power e)) in
        if s then (- r)%float else r
  | _ => x
  end.

(** [round(x, decimals)] for a NumPy [float64] scalar
    ([numpy.float64.__round__], which is [numpy.round]), as NumPy
    documents it for [0 <= decimals <= 15]: scale by the power of ten,
    round to an integer, scale back, each step in floating point. *)
Definition numpy_round (x : float) (decimals : nat) : float :=
  let f := float_of_Z (10 ^ Z.of_nat decimals) in
  (rint (x * f) / f)%float.

(** A number as the interpreter holds it: a built-in [float], or a NumPy
    [float64] scalar, which is what NumPy's reductions return.  Both are
    binary64 numbers with the same arithmetic; they differ in [round]. *)
Inductive number : Type :=
| PyFloat (x : float)
| NpFloat (x : float).

Definition val (a : number) : float :=
  match a with
  | PyFloat x => x
  | NpFloat x => x
  end.

(** A result of arithmetic is a NumPy scalar as soon as an operand is. *)
Definition arith (op : float -> float -> float) (a b : number) : number :=
  match a, b with
  | PyFloat x, PyFloat y => PyFloat (op x y)
  | _, _ => NpFloat (op (val a) (val b))
  end.

Definition add : number -> number -> number := arith PrimFloat.add.
Definition mul : number -> number -> number := arith PrimFloat.mul.
Definition div : number -> number -> number := arith PrimFloat.div.

Definition ltb (a b : number) : bool := PrimFloat.ltb (val a) (val b).
Definition leb (a b : number) : bool := PrimFloat.leb (val a) (val b).

(** [min(a, b)]: [b] when [b < a], otherwise [a]. *)
Definition min (a b : number) : number := if ltb b a then b else a.

(** [round(a, ndigits)], by the type of [a]; [np_round] is NumPy's. *)
Definition round (np_round : float -> nat -> float) (a : number) (ndigits : nat)
  : number :=
  match a with
  | PyFloat x => PyFloat (round_float x ndigits)
  | NpFloat x => NpFloat (np_round x ndigits)
  end.

Declare Scope num_scope.
Delimit Scope num_scope with num.
Bind Scope num_scope with number.
Notation "a + b" := (add a b) : num_scope.
Notation "a * b" := (mul a b) : num_scope.
Notation "a / b" := (div a b) : num_scope.
Notation "a <? b" := (ltb a b) : num_scope.
Notation "a <=? b" := (leb a b) : num_scope.

(** A float literal of the source. *)
Coercion PyFloat : float >-> number.

End Num.

(* ===================================================================== *)
(** ** SHA-256 (FIPS 180-4), as [hashlib.sha256(data).hexdigest()]        *)
(* ===================================================================== *)

Module SHA256.

Definition mask32 : Z := Z.ones 32.
Definition add32 (a b : Z) : Z := Z.land (a + b) mask32.
Definition rotr (n x : Z) : Z :=
  Z.lor (Z.shiftr x n) (Z.land (Z.shiftl x (32 - n)) mask32).
Definition shr (n x : Z) : Z := Z.shiftr x n.
Definition not32 (x : Z) : Z := Z.lxor x mask32.

Definition Ch (x y z : Z) : Z := Z.lxor (Z.land x y) (Z.land (not32 x) z).
Definition Maj (x y z : Z) : Z :=
  Z.lxor (Z.lxor (Z.land x y) (Z.land x z)) (Z.land y z).
Definition Sigma0 (x : Z) : Z := Z.lxor (Z.lxor (rotr 2 x) (rotr 13 x)) (rotr 22 x).
Definition Sigma1 (x : Z) : Z := Z.lxor (Z.lxor (rotr 6 x) (rotr 11 x)) (rotr 25 x).
Definition sigma0 (x : Z) : Z := Z.lxor (Z.lxor (rotr 7 x) (rotr 18 x)) (shr 3 x).
Definition sigma1 (x : Z) : Z := Z.lxor (Z.lxor (rotr 17 x) (rotr 19 x)) (shr 10 x).

(** The constants are derived as the standard defines them: the first 32
    bits of the fractional parts of the cube roots (for [K]) and of the
    square roots (for [H0]) of the first primes. *)
Definition divides (d n : Z) : bool := n mod d =? 0.

Definition is_prime (n : Z) : bool :=
  (1 <? n)
  && forallb (fun d => negb ((d * d <=? n) && divides d n))
             (List.map Z.of_nat (seq 2 (Z.to_nat n - 2))).

Definition first_primes (count : nat) : list Z :=
  firstn count (List.filter is_prime (List.map Z.of_nat (seq 2 320))).

(** The integer cube root, one bit at a time from bit [bits - 1] down. *)
Fixpoint cube_root (bits : nat) (x acc : Z) : Z :=
  match bits with
  | O => acc
  | S k =>
      let c := acc + 2 ^ Z.of_nat k in
      if c * c * c <=? x then cube_root k x c else cube_root k x acc
  end.

Definition cube_root_fraction (p : Z) : Z := Z.land (cube_root 36 (p * 2 ^ 96) 0) mask32.
Definition square_root_fraction (p : Z) : Z := Z.land (Z.sqrt (p * 2 ^ 64)) mask32.

Definition K : list Z :=
  Eval vm_compute in List.map cube_root_fraction (first_primes 64).

Definition H0 : list Z :=
  Eval vm_compute in List.map square_root_fraction (first_primes 8).

(** Padding: a [1] bit, zeros up to 56 mod 64 bytes, the bit length on 64
    bits, big endian. *)
Definition be_bytes (width : nat) (x : Z) : list Z :=
  List.map (fun i => Z.land (Z.shiftr x (8 * Z.of_nat i)) 255) (rev (seq 0 width)).

Definition pad (msg : list Z) : list Z :=
  let len := Z.of_nat (List.length msg) in
  let k := Z.to_nat ((55 - len) mod 64) in
  msg ++ [128] ++ repeat 0 k ++ be_bytes 8 (8 * len).

Fixpoint words (fuel : nat) (bs : list Z) : list Z :=
  match fuel, bs with
  | S f, b0 :: b1 :: b2 :: b3 :: r =>
      (Z.shiftl b0 24 + Z.shiftl b1 16 + Z.shiftl b2 8 + b3) :: words f r
  | _, _ => []
  end.

(** Message schedule.  [w] holds W[t-1], W[t-2], ... (most recent first). *)
Fixpoint schedule (n : nat) (w : list Z) : list Z :=
  match n with
  | O => rev w
  | S m =>
      let g i := nth i w 0 in
      schedule m (add32 (add32 (sigma1 (g 1%nat)) (g 6%nat))
                        (add32 (sigma0 (g 14%nat)) (g 15%nat)) :: w)
  end.

Definition round (st : list Z) (kw : Z * Z) : list Z :=
  match st with
  | [a; b; c; d; e; f; g; h] =>
      let t1 := add32 (add32 (add32 h (Sigma1 e)) (add32 (Ch e f g) (fst kw))) (snd kw) in
      let t2 := add32 (Sigma0 a) (Maj a b c) in
      [add32 t1 t2; a; b; c; add32 d t1; e; f; g]
  | _ => st
  end.

Definition compress (h : list Z) (block : list Z) : list Z :=
  let w := schedule 48 (rev block) in
  let st := fold_left round (combine K w) h in
  List.map (fun p => add32 (fst p) (snd p)) (combine h st).

Fixpoint blocks (fuel : nat) (ws : list Z) (h : list Z) : list Z :=
  match fuel with
  | O => h
  | S f =>
      match ws with
      | [] => h
      | _ => blocks f (skipn 16 ws) (compress h (firstn 16 ws))
      end
  end.

Definition digest (msg : list Z) : list Z :=
  let p := pad msg in
  let ws := words (List.length p) p in
  blocks (List.length ws) ws H0.

Definition hex_word (x : Z) : string :=
  fold_right (fun i s => String (Py.hex_digit (Z.land (Z.shiftr x (4 * Z.of_nat i)) 15)) s)
             EmptyString (rev (seq 0 8)).

Definition hexdigest (msg : list Z) : string :=
  fold_right (fun w s => (hex_word w ++ s)%string) EmptyString (digest msg).


End SHA256.

(* ===================================================================== *)
(** ** [json.dumps(data, sort_keys=True)]                                 *)
(* ===================================================================== *)

Module Json.
Local Open Scope string_scope.

(** JSON-serialisable Python values.  A [float] is carried as the text that
    [float.__repr__] yields for it; a [dict] as its list of items. *)
Inductive value : Type :=
| JNull
| JBool (b : bool)
| JInt (n : Z)
| JFloat (repr : string)
| JStr (s : string)
| JArr (items : list value)
| JObj (items : list (string * value)).

Definition hex2 (n : Z) : string :=
  String (Py.hex_digit (Z.shiftr n 4)) (String (Py.hex_digit (Z.land n 15)) EmptyString).

(** The double quote character. *)
Definition dquote : string := String (ascii_of_N 34) EmptyString.

(** One character of a string literal, with [ensure_ascii=True]. *)
Definition escape_char (c : ascii) : string :=
  let n := Z.of_N (N_of_ascii c) in
  if (n =? 34)%Z then "\" ++ dquote
  else if (n =? 92)%Z then "\\"
  else if (n =? 10)%Z then "\n"
  else if (n =? 13)%Z then "\r"
  else if (n =? 9)%Z then "\t"
  else if (n =? 8)%Z then "\b"
  else if (n =? 12)%Z then "\f"
  else if ((32 <=? n) && (n <=? 126))%Z then String c EmptyString
  else "\u00" ++ hex2 n.

Fixpoint escape (s : string) : string :=
  match s with
  | EmptyString => EmptyString
  | String c r => escape_char c ++ escape r
  end.

Definition quote (s : string) : string := dquote ++ escape s ++ dquote.



Fixpoint join (sep : string) (l : list string) : string :=
  match l with
  | [] => EmptyString
  | [x] => x
  | x :: r => x ++ sep ++ join sep r
  end.

(** [sorted(items)] on the keys (code-point order). *)
Fixpoint insert_item {A} (kv : string * A) (l : list (string * A)) : list (string * A) :=
  match l with
  | [] => [kv]
  | kv' :: r =>
      if String.leb (fst kv) (fst kv') then kv :: l else kv' :: insert_item kv r
  end.

Definition sort_items {A} (l : list (string * A)) : list (string * A) :=
  fold_right insert_item [] l.

(** Sorted by key: each item's key is at most the next one's. *)
Fixpoint ascending {A} (l : list (string * A)) : Prop :=
  match l with
  | [] => True
  | a :: r => match r with
              | [] => True
              | b :: _ => String.leb (fst a) (fst b) = true
              end /\ ascending r
  end.

Definition render_item (kv : string * string) : string :=
  quote (fst kv) ++ ": " ++ snd kv.

Fixpoint dumps (v : value) : string :=
  match v with
  | JNull => "null"
  | JBool true => "true"
  | JBool false => "false"
  | JInt n => Py.str_of_int n
  | JFloat r => r
  | JStr s => quote s
  | JArr items => "[" ++ join ", " (List.map dumps items) ++ "]"
  | JObj items =>
      "{" ++ join ", "
               (List.map render_item
                  (sort_items (List.map (fun kv => let '(k, x) := kv in (k, dumps x)) items)))
          ++ "}"
  end.

(** [d.get(key)] on a dictionary given by its items ([None] when the key
    is absent, where [d[key]] raises [KeyError]). *)
Fixpoint get (key : string) (items : list (string * value)) : option value :=
  match items with
  | [] => None
  | (k, v) :: rest => if String.eqb k key then Some v else get key rest
  end.


(** Apostrophes for double quotes, to write expected JSON texts. *)
Fixpoint requote (s : string) : string :=
  match s with
  | EmptyString => EmptyString
  | String c r =>
      String (if (N_of_ascii c =? 39)%N then ascii_of_N 34 else c) (requote r)
  end.

End Json.

(* ===================================================================== *)
(** ** [src/blockchain.py]                                                *)
(* ===================================================================== *)

Module Ledger.
Import Json.

(** [class Block]. *)
Record Block : Type := mkBlock {
  index : Z;
  timestamp : string;
  data : value;
  previous_hash : string;
  nonce : Z;
  hash : string
}.

Definition set_nonce (b : Block) (n : Z) : Block :=
  mkBlock (index b) (timestamp b) (data b) (previous_hash b) n (hash b).
Definition set_hash (b : Block) (h : string) : Block :=
  mkBlock (index b) (timestamp b) (data b) (previous_hash b) (nonce b) h.
Definition set_data (b : Block) (d : value) : Block :=
  mkBlock (index b) (timestamp b) d (previous_hash b) (nonce b) (hash b).

(** The f-string of [Block.calculate_hash]. *)
Definition block_string (b : Block) : string :=
  (Py.str_of_int (index b) ++ timestamp b ++ dumps (data b)
     ++ previous_hash b ++ Py.str_of_int (nonce b))%string.

(** [Block.calculate_hash]. *)
Definition calculate_hash (b : Block) : string :=
  SHA256.hexdigest (Py.encode (block_string b)).

(** [Block.__init__]: nonce 0, hash computed from the other fields. *)
Definition new_block (i : Z) (ts : string) (d : value) (prev : string) : Block :=
  let b := mkBlock i ts d prev 0 EmptyString in
  set_hash b (calculate_hash b).

(** The loop test of [Block.mine_block]: [self.hash[:difficulty] != target]. *)
Definition meets_target (difficulty : nat) (h : string) : bool :=
  String.eqb (Py.take difficulty h) (Py.zeros difficulty).

(** One turn of the loop body. *)
Definition try_next_nonce (b : Block) : Block :=
  let b1 := set_nonce b (nonce b + 1) in
  set_hash b1 (calculate_hash b1).

(** [Block.mine_block]: the [while] loop, run for at most [fuel] turns;
    [None] when the search has not ended by then. *)
Fixpoint mine_block (fuel : nat) (difficulty : nat) (b : Block) : option Block :=
  if meets_target difficulty (hash b) then Some b
  else match fuel with
       | O => None
       | S f => mine_block f difficulty (try_next_nonce b)
       end.

(** [class Blockchain]: the in-memory chain; [self.difficulty = 2]. *)
Definition difficulty : nat := 2.

(** The [genesis_data] dictionary; [created] is [now().isoformat()]. *)
Definition genesis_data (created : string) : value :=
  JObj [ ("type", JStr "genesis");
         ("message", JStr "SecureAttend Blockchain Initialized");
         ("version", JStr "3.0");
         ("created", JStr created) ].

(** [Blockchain.create_genesis_block], with the two clock readings and the
    mining budget as arguments. *)
Definition create_genesis_block (fuel : nat) (created now : string)
           (chain : list Block) : option (list Block) :=
  match mine_block fuel difficulty (new_block 0 now (genesis_data created) "0") with
  | Some g => Some (chain ++ [g])
  | None => None
  end.

(** [Blockchain.get_latest_block]. *)
Definition get_latest_block (chain : list Block) : option Block := last chain.

(** [Blockchain.add_block].  The outer [option] is the mining budget; the
    inner one is Python's [Optional[str]] result. *)
Definition add_block (fuel : nat) (now : string) (d : value) (chain : list Block)
  : option (list Block * option string) :=
  match get_latest_block chain with
  | None => Some (chain, None)
  | Some latest =>
      match mine_block fuel difficulty
              (new_block (Z.of_nat (List.length chain)) now d (hash latest)) with
      | Some nb => Some (chain ++ [nb], Some (hash nb))
      | None => None
      end
  end.

(** The body of the [for] loop of [Blockchain.is_chain_valid] at index [i]:
    [true] when neither [return False] is taken. *)
Definition block_ok (chain : list Block) (i : nat) : bool :=
  match chain !! i, chain !! (i - 1)%nat with
  | Some current_block, Some previous_block =>
      if negb (String.eqb (hash current_block) (calculate_hash current_block)) then false
      else if negb (String.eqb (previous_hash current_block) (hash previous_block)) then false
      else true
  | _, _ => false
  end.

(** [Blockchain.is_chain_valid]: [for i in range(1, len(self.chain))]. *)
Definition is_chain_valid (chain : list Block) : bool :=
  forallb (block_ok chain) (seq 1 (List.length chain - 1)).

(** The digest the block would have with nonce [n]. *)
Definition digest_at (b : Block) (n : Z) : string :=
  calculate_hash (set_nonce b n).

(** [Block.to_dict]. *)
Definition to_dict (b : Block) : value :=
  JObj [ ("index", JInt (index b));
         ("timestamp", JStr (timestamp b));
         ("data", data b);
         ("previous_hash", JStr (previous_hash b));
         ("hash", JStr (hash b));
         ("nonce", JInt (nonce b)) ].

(** The ledger file as [load_chain] finds it: absent, not a JSON text, or
    the value [json.load] returns.  Writing a value with [json.dump] and
    reading it back yields the same value. *)
Inductive File : Type :=
| Missing
| Unparsable
| Parsed (v : value).

(** [Blockchain.save_chain]: the file that is written. *)
Definition save_chain (chain : list Block) : File :=
  Parsed (JArr (List.map to_dict chain)).

(** How reading one entry ends: with a block, with an exception, or (for an
    entry whose fields do not have the types [to_dict] writes) with a block
    that [Block] cannot carry. *)
Inductive Read (A : Type) : Type :=
| Got (a : A)
| Raises
| Untyped.
Arguments Got {A} a.
Arguments Raises {A}.
Arguments Untyped {A}.

(** The body of the [for] loop of [load_chain]: the six subscriptions
    [block_dict[..]] (a [KeyError] when a key is absent, a [TypeError] when
    the entry is not a dictionary), [Block(..)], then the stored hash and
    nonce put in place of the computed ones. *)
Definition block_of_dict (block_dict : value) : Read Block :=
  match block_dict with
  | JObj items =>
      match get "index" items, get "timestamp" items, get "data" items,
            get "previous_hash" items, get "hash" items, get "nonce" items with
      | Some i, Some ts, Some d, Some p, Some h, Some n =>
          match i, ts, p, h, n with
          | JInt i, JStr ts, JStr p, JStr h, JInt n =>
              Got (set_nonce (set_hash (new_block i ts d p) h) n)
          | _, _, _, _, _ => Untyped
          end
      | _, _, _, _, _, _ => Raises
      end
  | _ => Raises
  end.

Fixpoint load_blocks (chain_data : list value) (chain : list Block) : Read (list Block) :=
  match chain_data with
  | [] => Got chain
  | block_dict :: rest =>
      match block_of_dict block_dict with
      | Got block => load_blocks rest (chain ++ [block])
      | Raises => Raises
      | Untyped => Untyped
      end
  end.

(** [Blockchain.load_chain]: an exception anywhere leaves the empty chain;
    no file leaves the chain as it is.  [None] when an entry is untyped. *)
Definition load_chain (file : File) (chain : list Block) : option (list Block) :=
  match file with
  | Missing => Some chain
  | Unparsable => Some []
  | Parsed (JArr chain_data) =>
      match load_blocks chain_data [] with
      | Got chain => Some chain
      | Raises => Some []
      | Untyped => None
      end
  | Parsed _ => Some []
  end.

(** [Blockchain.__init__].  [None] when the file has an untyped entry or
    the mining budget runs out. *)
Definition init (fuel : nat) (file : File) (created now : string) : option (list Block) :=
  match load_chain file [] with
  | Some [] => create_genesis_block fuel created now []
  | Some chain => Some chain
  | None => None
  end.

(** [Blockchain.get_block_by_hash]. *)
Definition get_block_by_hash (chain : list Block) (block_hash : string) : option Block :=
  List.find (fun block => String.eqb (hash block) block_hash) chain.

(** [block.data.get('type') == 'attendance']; [None] is the
    [AttributeError] of a payload that is not a dictionary. *)
Definition is_attendance (d : value) : option bool :=
  match d with
  | JObj items =>
      Some match get "type" items with
           | Some (JStr ty) => String.eqb ty "attendance"
           | _ => false
           end
  | _ => None
  end.

Fixpoint collect_attendance (blocks : list Block) (records : list value)
  : option (list value) :=
  match blocks with
  | [] => Some records
  | block :: rest =>
      match is_attendance (data block) with
      | Some true => collect_attendance rest (records ++ [data block])
      | Some false => collect_attendance rest records
      | None => None
      end
  end.

(** [Blockchain.get_attendance_records]: [for block in self.chain[1:]]. *)
Definition get_attendance_records (chain : list Block) : option (list value) :=
  collect_attendance (skipn 1 chain) [].

(** A chain as [Blockchain] builds it: every block sits at its index,
    stores its own digest, and that digest meets the difficulty. *)
Definition well_formed (chain : list Block) : Prop :=
  forall (i : nat) (b : Block),
    chain !! i = Some b ->
    index b = Z.of_nat i /\ hash b = calculate_hash b
    /\ meets_target difficulty (hash b) = true.

(** The chains a [Blockchain] object goes through, from a missing file. *)
Inductive built : list Block -> Prop :=
| built_init (fuel : nat) (created now : string) (chain : list Block) :
    init fuel Missing created now = Some chain -> built chain
| built_add (fuel : nat) (now : string) (d : value) (chain chain' : list Block)
            (r : option string) :
    built chain -> add_block fuel now d chain = Some (chain', r) -> built chain'.

(** *** Worked examples *)

(** The genesis block of the scenario at one concrete clock reading, as
    constructed and as mined. *)
Definition example_genesis_fresh : Block :=
  new_block 0 "2025-01-01 09:00:00.000017"
            (genesis_data "2025-01-01T09:00:00.000017") "0".

Definition example_genesis : Block :=
  mkBlock 0 "2025-01-01 09:00:00.000017"
          (genesis_data "2025-01-01T09:00:00.000017") "0" 2
          "00cc29a51e65457ebe7301cda474e3c50e95a364f53e23cbdfad3079525fec64".

(** A mined attendance block on top of the example genesis block. *)
Definition example_payload : Json.value :=
  Json.JObj [ ("type", Json.JStr "attendance");
              ("user_id", Json.JStr "alice");
              ("name", Json.JStr "Alice");
              ("registration_number", Json.JStr "R001");
              ("timestamp", Json.JStr "2025-01-01T09:05:00.000005");
              ("liveness_score", Json.JFloat "0.9");
              ("confidence", Json.JFloat "62.5");
              ("emotion", Json.JStr "Neutral");
              ("engagement", Json.JFloat "50.0") ].

Definition example_block : Block :=
  mkBlock 1 "2025-01-01 09:05:00.000005" example_payload
          "00cc29a51e65457ebe7301cda474e3c50e95a364f53e23cbdfad3079525fec64" 3
          "00db4b95d03ddb852f1d9854b076910d9d934837d309a432efcbe8bc45aa761d".

Definition example_chain : list Block := [example_genesis; example_block].


End Ledger.


(* ===================================================================== *)
(** ** [src/liveness_detector.py]                                         *)
(* ===================================================================== *)

Module Liveness.
Import Num.
Local Open Scope float_scope.
Local Open Scope num_scope.

(** A NumPy image: its first two dimensions and the BGR triple at each
    position. *)
Record Image : Type := mkImage {
  height : Z;                       (* shape[0] *)
  width : Z;                        (* shape[1] *)
  pixel : Z -> Z -> Z * Z * Z
}.

(** Python's slice bounds [start:stop] on an axis of length [n]. *)
Definition slice_index (n i : Z) : Z :=
  if (i <? 0)%Z then Z.max 0 (i + n) else Z.min i n.

(** [frame[top:bottom, left:right]]. *)
Definition crop (frame : Image) (top bottom left_ right_ : Z) : Image :=
  let r0 := slice_index (height frame) top in
  let r1 := slice_index (height frame) bottom in
  let c0 := slice_index (width frame) left_ in
  let c1 := slice_index (width frame) right_ in
  mkImage (Z.max 0 (r1 - r0)) (Z.max 0 (c1 - c0))
          (fun i j => pixel frame (r0 + i) (c0 + j)).

(** The five signal extractors.  Their bodies are OpenCV and NumPy
    computations on the face region (Laplacian variance, HSV deviations,
    FFT magnitude, LAB/Canny screen test, glare ratio); here they are the
    functions of the region that those computations define.  A reading is
    a NumPy scalar, or the built-in float that the extractor's [except]
    branch returns ([0.0], and [0.5] for the reflection score). *)
Record Extractors : Type := mkExtractors {
  calculate_texture_score : Image -> number;
  calculate_color_diversity : Image -> number;
  calculate_frequency_score : Image -> number;
  detect_mobile_screen : Image -> bool;
  calculate_reflection_score : Image -> number
}.

(** Which extractor a call went to. *)
Inductive Call : Type :=
| TextureCall | ColorCall | FrequencyCall | ScreenCall | ReflectionCall.

(** A computation together with the extractor calls it made, in order. *)
Definition Traced (A : Type) : Type := A * list Call.
Definition ret {A} (a : A) : Traced A := (a, []).
Definition bind {A B} (m : Traced A) (k : A -> Traced B) : Traced B :=
  let '(a, t1) := m in let '(b, t2) := k a in (b, t1 ++ t2).
Definition call {A} (c : Call) (a : A) : Traced A := (a, [c]).

Notation "'do' x <- m ; k" := (bind m (fun x => k))
  (at level 10, x name, m at level 100, k at level 200).

(** [class LivenessDetector]: the thresholds read from the configuration
    (those for texture, colour and frequency only feed the diagnostic
    prints) and the extractor methods. *)
Record LivenessDetector : Type := mkDetector {
  texture_threshold : float;
  color_diversity_threshold : float;
  frequency_threshold : float;
  liveness_threshold : float;
  extractors : Extractors
}.

(** The weighted fusion of [detect_liveness]. *)
Definition fuse (texture_confidence color_confidence freq_confidence
                 screen_confidence reflection_score : number) : number :=
  texture_confidence * 0.35 + color_confidence * 0.25 + freq_confidence * 0.20
  + screen_confidence * 0.15 + reflection_score * 0.05.

(** The test guarding [liveness_score *= 0.5]. *)
Definition suspicious (is_screen : bool) (texture_score color_diversity : number) : bool :=
  is_screen || ((texture_score <? 20) && (color_diversity <? 12)).

Section WithNumPy.

(** [numpy.float64.__round__], which rounds the score when it is a NumPy
    scalar. *)
Variable np_round : float -> nat -> float.

(** The part of [detect_liveness] after the five signals are known. *)
Definition decide_liveness (self : LivenessDetector)
           (texture_score color_diversity freq_score : number) (is_screen : bool)
           (reflection_score : number) : bool * number :=
  let texture_confidence := min (texture_score / 50) 1 in
  let color_confidence := min (color_diversity / 30) 1 in
  let freq_confidence := min (freq_score / 1500) 1 in
  let screen_confidence : number := if is_screen then 0 else 1 in
  let liveness_score :=
    fuse texture_confidence color_confidence freq_confidence
         screen_confidence reflection_score in
  let liveness_score :=
    if suspicious is_screen texture_score color_diversity
    then liveness_score * 0.5 else liveness_score in
  let is_live := liveness_threshold self <=? liveness_score in
  (is_live, round np_round liveness_score 3).

(** [LivenessDetector.detect_liveness]. *)
Definition detect_liveness (self : LivenessDetector) (frame : Image)
           (face_location : Z * Z * Z * Z) : Traced (bool * number) :=
  let '(top, right_, bottom, left_) := face_location in
  let h := height frame in
  let w := width frame in
  let top := Z.max 0 top in
  let left_ := Z.max 0 left_ in
  let bottom := Z.min h bottom in
  let right_ := Z.min w right_ in
  if ((bottom <=? top) || (right_ <=? left_))%Z then ret (false, PyFloat 0)
  else
    let face_region := crop frame top bottom left_ right_ in
    if ((height face_region <? 80) || (width face_region <? 80))%Z
    then ret (false, PyFloat 0)
    else
      let ex := extractors self in
      do texture_score <- call TextureCall (calculate_texture_score ex face_region);
      do color_diversity <- call ColorCall (calculate_color_diversity ex face_region);
      do freq_score <- call FrequencyCall (calculate_frequency_score ex face_region);
      do is_screen <- call ScreenCall (detect_mobile_screen ex face_region);
      do reflection_score <- call ReflectionCall (calculate_reflection_score ex face_region);
      ret (decide_liveness self texture_score color_diversity freq_score
                           is_screen reflection_score).

End WithNumPy.

(** The fused score before any penalty: each reading mapped to a
    confidence by its divisor and capped at 1, then weighted. *)
Definition fused_before_penalty (texture_score color_diversity freq_score : number)
           (is_screen : bool) (reflection_score : number) : number :=
  fuse (min (texture_score / 50) 1) (min (color_diversity / 30) 1)
       (min (freq_score / 1500) 1) (if is_screen then 0 else 1 : number)
       reflection_score.

(** *** Worked examples *)

(** A 640 x 480 frame and extractors with fixed readings, for examples. *)
Definition example_frame : Image := mkImage 480 640 (fun _ _ => (0, 0, 0)%Z).

Definition example_extractors (texture color freq : number) (screen : bool)
           (refl : number) : Extractors :=
  mkExtractors (fun _ => texture) (fun _ => color) (fun _ => freq)
               (fun _ => screen) (fun _ => refl).

Definition example_detector (ex : Extractors) : LivenessDetector :=
  mkDetector 25 15 800 0.85 ex.

(** The readings when every extractor ends in its [except] branch (as on
    a frame that is not a colour image): built-in floats. *)
Definition fallback_extractors : Extractors :=
  example_extractors (PyFloat 0) (PyFloat 0) (PyFloat 0) false (PyFloat 0.5).

Local Close Scope num_scope.
Local Close Scope float_scope.
Local Open Scope Q_scope.

(** The blink counters of [LivenessDetector], with the two settings they
    are compared with ([blink_counter] and [frame_count] are never read
    and are left out). *)
Record BlinkState : Type := mkBlinkState {
  eye_ar_threshold : Q;
  min_blinks : Z;
  blink_frames : Z;
  total_blinks : Z
}.

(** [LivenessDetector.detect_blink_from_landmarks], from the mean eye
    aspect ratio of the two eyes; [None] stands for landmarks from which
    it cannot be computed (the [except] branch). *)
Definition detect_blink_from_landmarks (self : BlinkState) (ear : option Q)
  : BlinkState * bool :=
  match ear with
  | None => (self, false)
  | Some ear =>
      let self :=
        if Py.Qltb ear (eye_ar_threshold self)
        then mkBlinkState (eye_ar_threshold self) (min_blinks self)
                          (blink_frames self + 1) (total_blinks self)
        else
          let total := if (2 <=? blink_frames self)%Z
                       then (total_blinks self + 1)%Z
                       else total_blinks self in
          mkBlinkState (eye_ar_threshold self) (min_blinks self) 0 total in
      (self, (min_blinks self <=? total_blinks self)%Z)
  end.

(** [LivenessDetector.update_blink_count]. *)
Definition update_blink_count (self : BlinkState) : BlinkState :=
  mkBlinkState (eye_ar_threshold self) (min_blinks self) (blink_frames self)
               (total_blinks self + 1).

(** [LivenessDetector.reset]. *)
Definition reset (self : BlinkState) : BlinkState :=
  mkBlinkState (eye_ar_threshold self) (min_blinks self) 0 0.

(** The counters after a sequence of frames with readable landmarks. *)
Definition watch (self : BlinkState) (ears : list Q) : BlinkState :=
  fold_left (fun s ear => fst (detect_blink_from_landmarks s (Some ear))) ears self.

(** The face box after [max(0, .)] / [min(h, .)], as [detect_liveness]
    computes it: top, bottom, left, right. *)
Definition clamped (frame : Image) (face_location : Z * Z * Z * Z) : Z * Z * Z * Z :=
  let '(top, right_, bottom, left_) := face_location in
  (Z.max 0 top, Z.min (height frame) bottom, Z.max 0 left_, Z.min (width frame) right_).

End Liveness.

(* ===================================================================== *)
(** ** [src/emotion_detector.py]                                          *)
(* ===================================================================== *)

Module Emotion.
Local Open Scope Q_scope.

Definition ENGAGED_EMOTIONS : list string := ["Happy"; "Surprise"]%string.
Definition DISENGAGED_EMOTIONS : list string := ["Sad"; "Anger"; "Fear"]%string.

(** [class EmotionDetector]: the shared rolling window of labels. *)
Record EmotionDetector : Type := mkEmotionDetector {
  history_size : nat;
  emotion_history : list string
}.

(** [EmotionDetector.__init__]. *)
Definition init (history_size : nat) : EmotionDetector :=
  mkEmotionDetector history_size [].

(** [self.emotion_history.append(emotion)] in [detect_emotion_simple]. *)
Definition record_emotion (self : EmotionDetector) (emotion : string) : EmotionDetector :=
  mkEmotionDetector (history_size self)
                    (Py.deque_append (history_size self) (emotion_history self) emotion).

(** [EmotionDetector.reset]. *)
Definition reset (self : EmotionDetector) : EmotionDetector :=
  mkEmotionDetector (history_size self) [].

(** [sum(1 for e in history if e in labels)]. *)
Definition count_in (labels : list string) (history : list string) : Z :=
  Z.of_nat (List.length (List.filter (fun e => Py.str_in e labels) history)).

(** [EmotionDetector.calculate_engagement_score]. *)
Definition calculate_engagement_score (self : EmotionDetector) : Q :=
  match emotion_history self with
  | [] => 50
  | _ =>
      let engaged_count := count_in ENGAGED_EMOTIONS (emotion_history self) in
      let disengaged_count := count_in DISENGAGED_EMOTIONS (emotion_history self) in
      let total := Z.of_nat (List.length (emotion_history self)) in
      let engagement_ratio :=
        (inject_Z engaged_count - inject_Z disengaged_count * 0.5) / inject_Z total in
      let score := 50 + engagement_ratio * 50 in
      let score := Py.max 0 (Py.min 100 score) in
      Py.round score 2
  end.

Definition EMOTIONS : list string :=
  ["Neutral"; "Happy"; "Sad"; "Surprise"; "Anger"; "Fear"; "Disgust"]%string.

(** [EmotionDetector._classify_emotion]. *)
Definition _classify_emotion (brightness contrast edge_density gradient : Q)
  : string * Q :=
  if Py.Qltb 130 brightness && Py.Qltb 40 contrast
     && (Py.Qltb 0.08 edge_density && Py.Qltb edge_density 0.15)
  then ("Happy"%string, 0.75)
  else if Py.Qltb brightness 90 && Py.Qltb edge_density 0.08
  then ("Sad"%string, 0.65)
  else if Py.Qltb 60 contrast && Py.Qltb 0.15 edge_density
  then ("Surprise"%string, 0.70)
  else if Py.Qltb 0.20 edge_density && (Py.Qltb 90 brightness && Py.Qltb brightness 130)
  then ("Anger"%string, 0.65)
  else if Py.Qltb 30 gradient && Py.Qltb 0.18 edge_density
  then ("Fear"%string, 0.60)
  else ("Neutral"%string, 0.80).

(** [EmotionDetector.detect_emotion_simple], from the four features that
    OpenCV and NumPy compute on the face region: brightness, contrast,
    edge density and mean gradient magnitude.  [None] stands for an empty
    region or an exception in their computation. *)
Definition detect_emotion_simple (self : EmotionDetector) (features : option (Q * Q * Q * Q))
  : EmotionDetector * (string * Q) :=
  match features with
  | None => (self, ("Neutral"%string, 0.5))
  | Some (brightness, contrast, edge_density, gradient_magnitude) =>
      let '(emotion, confidence) :=
        _classify_emotion brightness contrast edge_density gradient_magnitude in
      (record_emotion self emotion, (emotion, confidence))
  end.

(** [emotion_counts.get(emotion, 0)], on a dictionary given by its items
    in insertion order. *)
Fixpoint counts_get (emotion : string) (emotion_counts : list (string * Z)) : Z :=
  match emotion_counts with
  | [] => 0%Z
  | (k, v) :: rest => if String.eqb k emotion then v else counts_get emotion rest
  end.

(** [emotion_counts[emotion] = emotion_counts.get(emotion, 0) + 1]. *)
Fixpoint count_up (emotion : string) (emotion_counts : list (string * Z))
  : list (string * Z) :=
  match emotion_counts with
  | [] => [(emotion, (0 + 1)%Z)]
  | (k, v) :: rest =>
      if String.eqb k emotion then (k, (v + 1)%Z) :: rest
      else (k, v) :: count_up emotion rest
  end.

(** [max(emotion_counts, key=emotion_counts.get)]: the first key, in
    insertion order, whose count is the greatest. *)
Fixpoint max_by_count (best : string * Z) (items : list (string * Z)) : string :=
  match items with
  | [] => fst best
  | kv :: rest =>
      if (snd best <? snd kv)%Z then max_by_count kv rest else max_by_count best rest
  end.

(** [EmotionDetector.get_dominant_emotion] (the dictionary is not empty
    when the window is not). *)
Definition get_dominant_emotion (self : EmotionDetector) : string :=
  match emotion_history self with
  | [] => "Neutral"%string
  | _ =>
      let emotion_counts :=
        fold_left (fun counts emotion => count_up emotion counts)
                  (emotion_history self) [] in
      match emotion_counts with
      | [] => "Neutral"%string
      | kv :: rest => max_by_count kv rest
      end
  end.

(** [EmotionDetector.get_emotion_distribution]. *)
Definition get_emotion_distribution (self : EmotionDetector) : list (string * Q) :=
  match emotion_history self with
  | [] => []
  | _ =>
      let total := Z.of_nat (List.length (emotion_history self)) in
      List.map (fun emotion =>
                  let count := count_in [emotion] (emotion_history self) in
                  (emotion, Py.round (inject_Z count / inject_Z total * 100) 1))
               EMOTIONS
  end.

(** [EmotionDetector.is_engaged]. *)
Definition is_engaged (self : EmotionDetector) (threshold : Q) : bool :=
  Py.Qleb threshold (calculate_engagement_score self).

(** [EmotionDetector.get_engagement_trend]. *)
Definition get_engagement_trend (self : EmotionDetector) : string :=
  let n := List.length (emotion_history self) in
  if (n <? 10)%nat then "insufficient_data"%string
  else
    let mid := (n / 2)%nat in
    let first_half := firstn mid (emotion_history self) in
    let second_half := skipn mid (emotion_history self) in
    let first_engaged := count_in ENGAGED_EMOTIONS first_half in
    let second_engaged := count_in ENGAGED_EMOTIONS second_half in
    let diff := (second_engaged - first_engaged)%Z in
    if (2 <? diff)%Z then "improving"%string
    else if (diff <? -2)%Z then "declining"%string
    else "stable"%string.

(** The labels of a window, each once, in the order of first appearance;
    and how often a label occurs. *)
Fixpoint distinct (history : list string) : list string :=
  match history with
  | [] => []
  | e :: rest => e :: List.filter (fun x => negb (String.eqb x e)) (distinct rest)
  end.

Definition occurrences (emotion : string) (history : list string) : Z :=
  Z.of_nat (List.length (List.filter (String.eqb emotion) history)).

(** The score before rounding, in the words of the specification:
    [50 + 50 * (engaged - 0.5 * disengaged) / window_size], clamped to
    [0, 100]. *)
Definition engagement_formula (window : list string) : Q :=
  let engaged_count := inject_Z (count_in ["Happy"; "Surprise"]%string window) in
  let disengaged_count := inject_Z (count_in ["Sad"; "Anger"; "Fear"]%string window) in
  let window_size := inject_Z (Z.of_nat (List.length window)) in
  Py.max 0 (Py.min 100 (50 + 50 * (engaged_count - 0.5 * disengaged_count) / window_size)).

End Emotion.

(* ===================================================================== *)
(** ** [src/gui_application.py]: [class AttendanceTracker]                *)
(* ===================================================================== *)

Module Tracker.

(** One entry of [detection_history]. *)
Record DetectionState : Type := mkDetectionState {
  consecutive_detections : Z;
  last_seen : Z;
  is_stable : bool
}.

(** [class AttendanceTracker] ([ui_states] is never written and is left
    out). *)
Record AttendanceTracker : Type := mkTracker {
  detection_history : gmap string DetectionState;
  detection_threshold : Z;
  detection_cooldown : Z;
  display_duration : Z;
  frame_count : Z;
  recognized_today : gset string;
  liveness_history : gmap string (list Q);
  liveness_window : nat
}.

(** [AttendanceTracker.__init__]. *)
Definition init : AttendanceTracker := mkTracker ∅ 5 30 45 0 ∅ ∅ 10.

Definition set_detection_history (self : AttendanceTracker)
           (h : gmap string DetectionState) : AttendanceTracker :=
  mkTracker h (detection_threshold self) (detection_cooldown self)
            (display_duration self) (frame_count self) (recognized_today self)
            (liveness_history self) (liveness_window self).
Definition set_liveness_history (self : AttendanceTracker)
           (h : gmap string (list Q)) : AttendanceTracker :=
  mkTracker (detection_history self) (detection_threshold self) (detection_cooldown self)
            (display_duration self) (frame_count self) (recognized_today self)
            h (liveness_window self).
Definition set_recognized_today (self : AttendanceTracker)
           (r : gset string) : AttendanceTracker :=
  mkTracker (detection_history self) (detection_threshold self) (detection_cooldown self)
            (display_duration self) (frame_count self) r
            (liveness_history self) (liveness_window self).
Definition set_frame_count (self : AttendanceTracker) (n : Z) : AttendanceTracker :=
  mkTracker (detection_history self) (detection_threshold self) (detection_cooldown self)
            (display_duration self) n (recognized_today self)
            (liveness_history self) (liveness_window self).

(** The entry a first sighting creates. *)
Definition fresh_state : DetectionState := mkDetectionState 0 0 false.

(** The two branches of [update_detection] on the entry of the identity. *)
Definition on_detected (self : AttendanceTracker) (state : DetectionState)
  : DetectionState :=
  let count := consecutive_detections state + 1 in
  mkDetectionState count (frame_count self)
                   (if detection_threshold self <=? count then true else is_stable state).

Definition on_missed (self : AttendanceTracker) (state : DetectionState)
  : DetectionState :=
  let frames_since_seen := frame_count self - last_seen state in
  if detection_cooldown self <? frames_since_seen
  then mkDetectionState 0 (last_seen state) false
  else state.

(** [AttendanceTracker.update_detection] (the [liveness_score] argument is
    not used by the method). *)
Definition update_detection (self : AttendanceTracker) (user_id : string)
           (is_detected : bool) : AttendanceTracker * bool :=
  let state :=
    match detection_history self !! user_id with
    | Some st => st
    | None => fresh_state
    end in
  let state := if is_detected then on_detected self state else on_missed self state in
  (set_detection_history self (<[user_id := state]> (detection_history self)),
   is_stable state).

(** [np.mean] of a non-empty window, as the mean of the rationals that the
    scores denote.  NumPy adds and divides in floating point, so its
    result can differ from this mean in the last binary digits (for three
    scores of 0.7 it is 0.6999999999999998). *)
Definition mean (l : list Q) : Q :=
  (fold_right Qplus 0 l / inject_Z (Z.of_nat (List.length l)))%Q.

(** [AttendanceTracker.update_liveness_smooth]. *)
Definition update_liveness_smooth (self : AttendanceTracker) (user_id : string)
           (liveness_score : Q) : AttendanceTracker * (bool * Q) :=
  let window :=
    match liveness_history self !! user_id with
    | Some w => w
    | None => []
    end in
  let window := Py.deque_append (liveness_window self) window liveness_score in
  let smoothed_score := mean window in
  let is_live := Py.Qleb 0.7 smoothed_score in
  (set_liveness_history self (<[user_id := window]> (liveness_history self)),
   (is_live, smoothed_score)).

(** [AttendanceTracker.should_display]. *)
Definition should_display (self : AttendanceTracker) (user_id : string) : bool :=
  match detection_history self !! user_id with
  | None => false
  | Some state =>
      let frames_since_seen := frame_count self - last_seen state in
      is_stable state && (frames_since_seen <? display_duration self)
  end.

(** [AttendanceTracker.is_already_marked]. *)
Definition is_already_marked (self : AttendanceTracker) (user_id : string) : bool :=
  bool_decide (user_id ∈ recognized_today self).

(** [AttendanceTracker.increment_frame]. *)
Definition increment_frame (self : AttendanceTracker) : AttendanceTracker :=
  set_frame_count self (frame_count self + 1).

(** [AttendanceTracker.reset]. *)
Definition reset (self : AttendanceTracker) : AttendanceTracker :=
  mkTracker ∅ (detection_threshold self) (detection_cooldown self)
            (display_duration self) 0 (recognized_today self) ∅ (liveness_window self).

(** The calls [start_attendance] makes on the tracker's detection state:
    [increment_frame()] for each camera frame, and, in a processed frame,
    [update_detection(user_id, True, ..)] for a matched identity or
    [update_detection(user_id, False)] for a tracked identity that was not
    matched. *)
Inductive Op : Type :=
| Detect (user_id : string) (is_detected : bool)
| NextFrame.

Definition apply_op (self : AttendanceTracker) (o : Op) : AttendanceTracker :=
  match o with
  | Detect user_id is_detected => fst (update_detection self user_id is_detected)
  | NextFrame => increment_frame self
  end.

Definition run (self : AttendanceTracker) (ops : list Op) : AttendanceTracker :=
  fold_left apply_op ops self.

(** The entry of an identity, as [update_detection] would find or create it. *)
Definition state_of (self : AttendanceTracker) (user_id : string) : DetectionState :=
  match detection_history self !! user_id with
  | Some st => st
  | None => fresh_state
  end.

Definition is_sighting (user_id : string) (o : Op) : bool :=
  match o with
  | Detect u true => bool_decide (u = user_id)
  | _ => false
  end.

Definition is_miss (user_id : string) (o : Op) : bool :=
  match o with
  | Detect u false => bool_decide (u = user_id)
  | _ => false
  end.

(** How often the identity is matched in a run of calls. *)
Definition sightings (user_id : string) (ops : list Op) : nat :=
  List.length (List.filter (is_sighting user_id) ops).

(** All the methods that change a tracker, as calls. *)
Inductive Method : Type :=
| UpdateDetection (user_id : string) (is_detected : bool)
| UpdateLivenessSmooth (user_id : string) (liveness_score : Q)
| IncrementFrame
| Reset.

Definition call (self : AttendanceTracker) (m : Method) : AttendanceTracker :=
  match m with
  | UpdateDetection user_id is_detected => fst (update_detection self user_id is_detected)
  | UpdateLivenessSmooth user_id liveness_score =>
      fst (update_liveness_smooth self user_id liveness_score)
  | IncrementFrame => increment_frame self
  | Reset => reset self
  end.

Definition calls (self : AttendanceTracker) (ms : list Method) : AttendanceTracker :=
  fold_left call ms self.

(** The liveness window of an identity, as [update_liveness_smooth] would
    find or create it. *)
Definition window_of (self : AttendanceTracker) (user_id : string) : list Q :=
  match liveness_history self !! user_id with
  | Some w => w
  | None => []
  end.

(** The raw scores handed in for an identity, in order. *)
Definition scores_for (user_id : string) (ms : list Method) : list Q :=
  flat_map (fun m => match m with
                     | UpdateLivenessSmooth u q => if String.eqb u user_id then [q] else []
                     | _ => []
                     end) ms.

Definition is_reset (m : Method) : bool :=
  match m with Reset => true | _ => false end.

Definition is_frame (m : Method) : bool :=
  match m with IncrementFrame => true | _ => false end.

(** Does the call write the detection entry of the identity? *)
Definition writes_detection (user_id : string) (m : Method) : bool :=
  match m with
  | UpdateDetection u _ => String.eqb u user_id
  | Reset => true
  | _ => false
  end.

(** The last [n] entries of a list. *)
Definition latest {A} (n : nat) (l : list A) : list A :=
  skipn (List.length l - n) l.

(** What holds of every tracker that the loop can reach. *)
Definition coherent (self : AttendanceTracker) : Prop :=
  0 <= frame_count self
  /\ (forall u st, detection_history self !! u = Some st ->
                   0 <= consecutive_detections st
                   /\ 0 <= last_seen st <= frame_count self
                   /\ (is_stable st = true
                       <-> detection_threshold self <= consecutive_detections st))
  /\ (forall u w, liveness_history self !! u = Some w ->
                  w <> [] /\ (List.length w <= liveness_window self)%nat).

(** *** Worked examples *)

(** Alice is matched in five processed frames (every second camera frame),
    then not matched: within the cooldown she stays stable, and the first
    miss more than 30 frames after her last sighting resets her. *)
Definition five_sightings : list Op :=
  concat (repeat [NextFrame; NextFrame; Detect "alice" true] 5).

Definition missed_for (frames : nat) : list Op :=
  concat (repeat [NextFrame; NextFrame; Detect "alice" false] frames).

End Tracker.

(* ===================================================================== *)
(** ** [src/database_manager.py]                                          *)
(* ===================================================================== *)

Module Database.

(** A row of table [users], column by column ([None] is SQL NULL). *)
Record UserRow : Type := mkUserRow {
  u_user_id : string;                       (* TEXT PRIMARY KEY *)
  u_name : string;                          (* TEXT NOT NULL *)
  u_registration_number : option string;    (* TEXT UNIQUE *)
  u_email : option string;
  u_department : option string;
  u_phone : option string;
  u_registration_date : string;             (* TEXT NOT NULL *)
  u_face_encoding_hash : option string;
  u_total_attendance : Z;                   (* INTEGER DEFAULT 0 *)
  u_last_attendance : option string;
  u_is_active : Z;                          (* INTEGER DEFAULT 1 *)
  u_is_admin : Z;                           (* INTEGER DEFAULT 0 *)
  u_created_by : option string;
  u_notes : option string
}.

(** A row of table [attendance]. *)
Record AttendanceRow : Type := mkAttendanceRow {
  a_id : Z;                                 (* INTEGER PRIMARY KEY AUTOINCREMENT *)
  a_user_id : string;                       (* TEXT NOT NULL *)
  a_name : string;                          (* TEXT NOT NULL *)
  a_registration_number : option string;
  a_timestamp : string;                     (* TEXT NOT NULL *)
  a_date : string;                          (* TEXT NOT NULL *)
  a_time : string;                          (* TEXT NOT NULL *)
  a_liveness_score : Q;
  a_emotion : string;
  a_engagement_score : Q;
  a_confidence : Q;
  a_blockchain_hash : option string;
  a_face_encoding_hash : option string;
  a_location : option string;
  a_device_info : option string
}.

(** The database file: the two tables the attendance path touches, and the
    AUTOINCREMENT counter of [attendance]. *)
Record DB : Type := mkDB {
  users : list UserRow;
  attendance : list AttendanceRow;
  attendance_seq : Z
}.

(** A database file just created by [init_database]. *)
Definition empty : DB := mkDB [] [] 0.

(** *** What the storage engine does with the statements of the module *)

(** [INSERT INTO attendance (...) VALUES (...)].  The table declares no
    constraint over [user_id] and [date] (its only key is [id], and the
    indices on [date] and on [user_id] are plain ones), so every row is
    accepted and receives the next [id]. *)
Definition insert_attendance (db : DB) (make_row : Z -> AttendanceRow) : DB :=
  let id := attendance_seq db + 1 in
  mkDB (users db) (attendance db ++ [make_row id]) id.

(** Two [users] rows in conflict under the table's constraints: same
    primary key, or same non-NULL [registration_number] (UNIQUE). *)
Definition users_conflict (new old : UserRow) : bool :=
  String.eqb (u_user_id old) (u_user_id new)
  || match u_registration_number old, u_registration_number new with
     | Some a, Some b => String.eqb a b
     | _, _ => false
     end.

(** [INSERT OR REPLACE INTO users (...) VALUES (...)]: the rows in conflict
    with the new one are deleted, then it is inserted. *)
Definition insert_or_replace_user (db : DB) (row : UserRow) : DB :=
  mkDB (List.filter (fun old => negb (users_conflict row old)) (users db) ++ [row])
       (attendance db) (attendance_seq db).

(** [UPDATE users SET total_attendance = total_attendance + 1,
    last_attendance = ? WHERE user_id = ?]. *)
Definition bump_user (timestamp user_id : string) (u : UserRow) : UserRow :=
  if String.eqb (u_user_id u) user_id
  then mkUserRow (u_user_id u) (u_name u) (u_registration_number u) (u_email u)
                 (u_department u) (u_phone u) (u_registration_date u)
                 (u_face_encoding_hash u) (u_total_attendance u + 1) (Some timestamp)
                 (u_is_active u) (u_is_admin u) (u_created_by u) (u_notes u)
  else u.

Definition update_user_statistics (db : DB) (timestamp user_id : string) : DB :=
  mkDB (List.map (bump_user timestamp user_id) (users db))
       (attendance db) (attendance_seq db).

(** [hashlib.sha256(face_encoding.tobytes()).hexdigest()[:16]]. *)
Definition encoding_hash (face_encoding : list Z) : string :=
  Py.take 16 (SHA256.hexdigest face_encoding).

(** *** The methods of [DatabaseManager] *)

(** [DatabaseManager.add_user]. *)
Definition add_user (db : DB) (now : Py.Clock) (user_id name : string)
           (face_encoding : list Z)
           (registration_number email department phone created_by : option string)
  : DB * bool :=
  if Py.truthy registration_number
     && existsb (fun u => match u_registration_number u, registration_number with
                          | Some a, Some b => String.eqb a b
                          | _, _ => false
                          end) (users db)
  then (db, false)
  else
    let registration_date := Py.strftime_seconds now in
    (insert_or_replace_user db
       (mkUserRow user_id name registration_number email department phone
                  registration_date (Some (encoding_hash face_encoding)) 0 None
                  1 0 created_by None),
     true).

(** The SELECT of [mark_attendance]: is there a row for this user and date? *)
Definition already_marked (db : DB) (user_id date : string) : bool :=
  existsb (fun r => String.eqb (a_user_id r) user_id && String.eqb (a_date r) date)
          (attendance db).

(** The INSERT, the UPDATE and the commit of [mark_attendance]. *)
Definition write_mark (db : DB) (now : Py.Clock) (user_id name registration_number : string)
           (liveness_score : Q) (emotion : string) (engagement_score : Q)
           (blockchain_hash : option string) (face_encoding : list Z)
           (confidence : Q) (location : string) : DB :=
  let timestamp := Py.strftime_seconds now in
  let db := insert_attendance db (fun id =>
              mkAttendanceRow id user_id name (Some registration_number) timestamp
                              (Py.date now) (Py.time now) liveness_score emotion
                              engagement_score confidence blockchain_hash
                              (Some (encoding_hash face_encoding)) (Some location) None) in
  update_user_statistics db timestamp user_id.

(** [DatabaseManager.mark_attendance], with the clock reading as argument. *)
Definition mark_attendance (db : DB) (now : Py.Clock) (user_id name registration_number : string)
           (liveness_score : Q) (emotion : string) (engagement_score : Q)
           (blockchain_hash : option string) (face_encoding : list Z)
           (confidence : Q) (location : string) : DB * (bool * string) :=
  if already_marked db user_id (Py.date now)
  then (db, (false, "Already marked today"))
  else (write_mark db now user_id name registration_number liveness_score emotion
                   engagement_score blockchain_hash face_encoding confidence location,
        (true, "Success")).

(** [ORDER BY timestamp DESC].  SQL leaves the order of rows with equal
    timestamps open; SQLite's sorter returns them in the order of their
    insertion, and so does this. *)
Definition order_by_timestamp_desc (rows : list AttendanceRow) : list AttendanceRow :=
  rev (List.map snd (Json.sort_items (List.map (fun r => (a_timestamp r, r)) (rev rows)))).

(** [DatabaseManager.get_attendance_records]. *)
Definition get_attendance_records (db : DB) (date user_id : option string) (limit : nat)
  : list AttendanceRow :=
  let matches (r : AttendanceRow) : bool :=
    (if Py.truthy date
     then match date with Some d => String.eqb (a_date r) d | None => true end
     else true)
    && (if Py.truthy user_id
        then match user_id with Some u => String.eqb (a_user_id r) u | None => true end
        else true) in
  firstn limit (order_by_timestamp_desc (List.filter matches (attendance db))).

(** [DatabaseManager.get_user_info]. *)
Definition get_user_info (db : DB) (user_id : string) : option UserRow :=
  List.find (fun u => String.eqb (u_user_id u) user_id) (users db).

(** *** Counting and uniqueness *)

(** The rows of [attendance] for one identity and date. *)
Definition rows_for (user_id date : string) (d : DB) : nat :=
  List.length
    (List.filter (fun r => String.eqb (a_user_id r) user_id && String.eqb (a_date r) date)
                 (attendance d)).

(** Does the user carry the registration number? *)
Definition has_regno (r : string) (x : UserRow) : bool :=
  match u_registration_number x with
  | Some a => String.eqb a r
  | None => false
  end.

Definition regno_count (r : string) (d : DB) : nat :=
  List.length (List.filter (has_regno r) (users d)).

(** At most one user per registration number. *)
Definition users_unique (d : DB) : Prop := forall r, (regno_count r d <= 1)%nat.

(** At most one attendance row per user and date. *)
Definition attendance_unique (d : DB) : Prop :=
  forall user_id date, (rows_for user_id date d <= 1)%nat.

(** *** The other queries of [DatabaseManager] *)

(** [DatabaseManager.get_user_by_regno]. *)
Definition get_user_by_regno (db : DB) (registration_number : string) : option UserRow :=
  List.find (has_regno registration_number) (users db).

(** [DatabaseManager.delete_user_permanently]: [DELETE FROM users WHERE
    user_id = ?], then [cursor.rowcount > 0]. *)
Definition delete_user_permanently (db : DB) (user_id : string) : DB * bool :=
  let kept := List.filter (fun u => negb (String.eqb (u_user_id u) user_id)) (users db) in
  let rowcount := Z.of_nat (List.length (users db)) - Z.of_nat (List.length kept) in
  (mkDB kept (attendance db) (attendance_seq db), 0 <? rowcount).

(** [AVG(column)]: NULL over no rows.  Over one row or more SQLite adds
    and divides in floating point; the number it arrives at is taken as
    given ([avg], a function of the column's values in row order). *)
Definition sql_avg (avg : list Q -> Q) (column : list Q) : option Q :=
  match column with
  | [] => None
  | _ :: _ => Some (avg column)
  end.

(** [DatabaseManager.get_analytics_summary].  The aggregate query always
    yields one row, and a tuple of four is true, so the alternative
    [(0, 0.0, 0.0, 0.0)] is never returned. *)
Definition get_analytics_summary (avg : list Q -> Q) (db : DB) (date : option string)
  : Z * option Q * option Q * option Q :=
  let rows :=
    if Py.truthy date
    then List.filter (fun r => match date with
                               | Some d => String.eqb (a_date r) d
                               | None => true
                               end) (attendance db)
    else attendance db in
  (Z.of_nat (List.length rows),
   sql_avg avg (List.map a_engagement_score rows),
   sql_avg avg (List.map a_liveness_score rows),
   sql_avg avg (List.map a_confidence rows)).

(** [DatabaseManager.get_user_attendance_history]: the six columns
    [date, time, liveness_score, emotion, engagement_score, confidence]. *)
Definition history_columns (r : AttendanceRow) : string * string * Q * string * Q * Q :=
  (a_date r, a_time r, a_liveness_score r, a_emotion r, a_engagement_score r,
   a_confidence r).

Definition get_user_attendance_history (db : DB) (user_id : string) (limit : nat)
  : list (string * string * Q * string * Q * Q) :=
  List.map history_columns
    (firstn limit
       (order_by_timestamp_desc
          (List.filter (fun r => String.eqb (a_user_id r) user_id) (attendance db)))).

(** [ORDER BY name]. *)
Definition order_by_name (rows : list UserRow) : list UserRow :=
  List.map snd (Json.sort_items (List.map (fun r => (u_name r, r)) rows)).

(** [DatabaseManager.get_all_users]. *)
Definition get_all_users (db : DB) (active_only : bool) : list UserRow :=
  if active_only
  then order_by_name (List.filter (fun r => u_is_active r =? 1) (users db))
  else order_by_name (users db).

(** Every user row is flagged active. *)
Definition all_active (d : DB) : Prop :=
  forall r, In r (users d) -> u_is_active r = 1.

(** No two rows of [users] share a [user_id] (the primary key). *)
Definition user_ids_unique (d : DB) : Prop := NoDup (List.map u_user_id (users d)).

(** *** Worked examples *)

(** An attendance row with the given [id], [user_id] and [timestamp]. *)
Definition example_row (id : Z) (user_id timestamp : string) : AttendanceRow :=
  mkAttendanceRow id user_id user_id None timestamp "2025-01-01" "09:00:00" 0.9 "Neutral"
                  50 0.625 None None None None.

(** A clock reading on the example day. *)
Definition example_clock : Py.Clock := Py.mkClock "2025-01-01" "09:05:00" ".000005".

(** Bob and Alice registered, in this order. *)
Definition example_registered : DB :=
  let d := fst (add_user empty (Py.mkClock "2025-01-01" "08:00:00" "") "bob" "Bob"
                         [4; 5; 6] (Some "R002"%string) None None None None) in
  fst (add_user d (Py.mkClock "2025-01-01" "08:01:00" "") "alice" "Alice"
                [1; 2; 3] (Some "R001"%string) None None None None).

(** The same table once Alice has been marked on the example day. *)
Definition example_marked : DB :=
  fst (mark_attendance example_registered example_clock "alice" "Alice" "R001" 0.9
                       "Neutral" 50 None [1; 2; 3] 0.625 "Main Campus").

End Database.

(* ===================================================================== *)
(** ** [src/gui_application.py]: the marking path of [start_attendance]   *)
(* ===================================================================== *)

Module App.
Import Database.

(** The feature flags read through [self.config.get]. *)
Record Config : Type := mkConfig {
  enable_antispoofing : bool;
  enable_blockchain : bool;
  enable_emotion : bool
}.

(** [Config.DEFAULT_CONFIG]. *)
Definition default_config : Config := mkConfig true true true.

(** What the attendance loop reads and writes: the database file, the
    ledger, the session's tracker and the shared emotion window. *)
Record State : Type := mkState {
  config : Config;
  db : DB;
  blockchain : list Ledger.Block;
  tracker : Tracker.AttendanceTracker;
  emotion_detector : Emotion.EmotionDetector
}.

(** One matched face of a processed frame, as the collaborators hand it to
    the loop body. *)
Record Face : Type := mkFace {
  face_user_id : string;          (* self.known_user_ids[best_match_idx] *)
  face_name : string;             (* self.known_names[best_match_idx] *)
  face_confidence : Q;            (* round((1 - distance) * 100, 2) *)
  face_liveness_raw : Q;          (* detect_liveness(frame, bbox)[1] *)
  face_emotion : option string;   (* detect_emotion_simple's label; None when
                                     the face region is empty *)
  face_encoding : list Z;         (* face_encoding.tobytes() *)
  face_now : Py.Clock             (* datetime.datetime.now() *)
}.

Section WithFloatRepr.

(** [float.__repr__], as [json.dumps] prints a float. *)
Variable float_repr : Q -> string.

(** [regno = user_info[2] if user_info and user_info[2] else 'N/A']. *)
Definition lookup_regno (d : DB) (user_id : string) : string :=
  match get_user_info d user_id with
  | Some u =>
      match u_registration_number u with
      | Some r => if Py.truthy (Some r) then r else "N/A"
      | None => "N/A"
      end
  | None => "N/A"
  end.

(** The [attendance_data] dictionary. *)
Definition attendance_data (user_id name regno : string) (now : Py.Clock)
           (liveness_score confidence : Q) (emotion : string) (engagement : Q)
  : Json.value :=
  Json.JObj [ ("type", Json.JStr "attendance");
              ("user_id", Json.JStr user_id);
              ("name", Json.JStr name);
              ("registration_number", Json.JStr regno);
              ("timestamp", Json.JStr (Py.isoformat now));
              ("liveness_score", Json.JFloat (float_repr liveness_score));
              ("confidence", Json.JFloat (float_repr confidence));
              ("emotion", Json.JStr emotion);
              ("engagement", Json.JFloat (float_repr engagement)) ].

(** The loop body up to the marking test. *)
Record Observed : Type := mkObserved {
  o_state : State;
  o_regno : string;
  o_is_live : bool;
  o_liveness_score : Q;
  o_is_stable : bool
}.

Definition observe (s : State) (f : Face) : Observed :=
  let user_id := face_user_id f in
  let regno := lookup_regno (db s) user_id in
  (* CHECK IF ALREADY MARKED TODAY IN DATABASE *)
  let today := Py.date (face_now f) in
  let existing_records :=
    get_attendance_records (db s) (Some today) (Some user_id) 100 in
  let tr :=
    match existing_records with
    | [] => tracker s
    | _ :: _ =>
        Tracker.set_recognized_today (tracker s)
          ({[user_id]} ∪ Tracker.recognized_today (tracker s))
    end in
  (* ANTI-SPOOFING (with smoothing) *)
  let '(tr, (is_live, liveness_score)) :=
    if enable_antispoofing (config s)
    then Tracker.update_liveness_smooth tr user_id (face_liveness_raw f)
    else (tr, (true, 1%Q)) in
  (* Update detection tracker *)
  let '(tr, is_stable) := Tracker.update_detection tr user_id true in
  mkObserved (mkState (config s) (db s) (blockchain s) tr (emotion_detector s))
             regno is_live liveness_score is_stable.

(** The body of [if is_stable and is_live and user_id not in
    tracker.recognized_today], in a pass whose readings of the clock
    all show [face_now] (see [mark_at] for the readings told apart).
    [None] when the mining budget runs out. *)
Definition mark (fuel : nat) (o : Observed) (f : Face) : option State :=
  let s := o_state o in
  let user_id := face_user_id f in
  let name := face_name f in
  let now := face_now f in
  (* Emotion detection *)
  let '(det, emotion, engagement) :=
    if enable_emotion (config s)
    then match face_emotion f with
         | Some label =>
             let det := Emotion.record_emotion (emotion_detector s) label in
             (det, label, Emotion.calculate_engagement_score det)
         | None => (emotion_detector s, "Neutral"%string, 50%Q)
         end
    else (emotion_detector s, "Neutral"%string, 50%Q) in
  let data := attendance_data user_id name (o_regno o) now (o_liveness_score o)
                              (face_confidence f) emotion engagement in
  (* Add to blockchain *)
  let added :=
    if enable_blockchain (config s)
    then Ledger.add_block fuel (Py.str_of_datetime now) data (blockchain s)
    else Some (blockchain s, Some "N/A"%string) in
  match added with
  | None => None
  | Some (chain, blockchain_hash) =>
      (* Mark in database *)
      let '(d, (success, msg)) :=
        mark_attendance (db s) now user_id name (o_regno o) (o_liveness_score o)
                        emotion engagement blockchain_hash (face_encoding f)
                        (face_confidence f / 100)%Q "Main Campus" in
      let tr :=
        if success
        then Tracker.set_recognized_today (tracker s)
               ({[user_id]} ∪ Tracker.recognized_today (tracker s))
        else tracker s in
      Some (mkState (config s) d chain tr det)
  end.

(** How the emotion step of the marking branch ends. *)
Inductive EmotionStep : Type :=
| RegionEmpty                   (* face_region.size == 0: the detector is not called *)
| Classified (label : string)   (* detect_emotion_simple classifies and records *)
| ClassifierFailed.             (* its except branch: ('Neutral', 0.5), nothing recorded *)

(** The marking branch with its readings of the clock told apart.  The
    loop body reads the clock for the payload's ['timestamp'],
    [add_block] reads it again for the block's, after the payload is
    built, and [mark_attendance] once more for the row, after the block
    is mined: three readings, each no earlier than the one before.
    [mark] is this branch when all three show [face_now] and the
    classifier does not fail. *)
Definition mark_at (fuel : nat) (o : Observed) (f : Face) (emotion_step : EmotionStep)
           (payload_now block_now row_now : Py.Clock) : option State :=
  let s := o_state o in
  let user_id := face_user_id f in
  let name := face_name f in
  (* Emotion detection *)
  let '(det, emotion, engagement) :=
    if enable_emotion (config s)
    then match emotion_step with
         | RegionEmpty => (emotion_detector s, "Neutral"%string, 50%Q)
         | Classified label =>
             let det := Emotion.record_emotion (emotion_detector s) label in
             (det, label, Emotion.calculate_engagement_score det)
         | ClassifierFailed =>
             (emotion_detector s, "Neutral"%string,
              Emotion.calculate_engagement_score (emotion_detector s))
         end
    else (emotion_detector s, "Neutral"%string, 50%Q) in
  let data := attendance_data user_id name (o_regno o) payload_now (o_liveness_score o)
                              (face_confidence f) emotion engagement in
  (* Add to blockchain *)
  let added :=
    if enable_blockchain (config s)
    then Ledger.add_block fuel (Py.str_of_datetime block_now) data (blockchain s)
    else Some (blockchain s, Some "N/A"%string) in
  match added with
  | None => None
  | Some (chain, blockchain_hash) =>
      (* Mark in database *)
      let '(d, (success, msg)) :=
        mark_attendance (db s) row_now user_id name (o_regno o) (o_liveness_score o)
                        emotion engagement blockchain_hash (face_encoding f)
                        (face_confidence f / 100)%Q "Main Campus" in
      let tr :=
        if success
        then Tracker.set_recognized_today (tracker s)
               ({[user_id]} ∪ Tracker.recognized_today (tracker s))
        else tracker s in
      Some (mkState (config s) d chain tr det)
  end.

(** The emotion step that [mark] takes from the face. *)
Definition emotion_step_of (f : Face) : EmotionStep :=
  match face_emotion f with
  | Some label => Classified label
  | None => RegionEmpty
  end.

(** Whether the loop body goes on to mark. *)
Definition marking_due (o : Observed) (f : Face) : bool :=
  o_is_stable o && o_is_live o
  && negb (bool_decide (face_user_id f ∈ Tracker.recognized_today (tracker (o_state o)))).

(** The loop body for one matched face. *)
Definition process_face (fuel : nat) (s : State) (f : Face) : option State :=
  let o := observe s f in
  if marking_due o f then mark fuel o f else Some (o_state o).

(** What happens between two marking tests. *)
Inductive Event : Type :=
| FaceSeen (f : Face)               (* a matched face in a processed frame *)
| FaceMissed (user_id : string)     (* tracker.update_detection(user_id, False) *)
| FrameRead                         (* tracker.increment_frame() *)
| SessionStart.                     (* start_attendance anew: a new tracker,
                                       emotion_detector.reset() *)

Definition with_tracker (s : State) (tr : Tracker.AttendanceTracker) : State :=
  mkState (config s) (db s) (blockchain s) tr (emotion_detector s).

Definition step (fuel : nat) (s : State) (e : Event) : option State :=
  match e with
  | FaceSeen f => process_face fuel s f
  | FaceMissed user_id =>
      Some (with_tracker s (fst (Tracker.update_detection (tracker s) user_id false)))
  | FrameRead => Some (with_tracker s (Tracker.increment_frame (tracker s)))
  | SessionStart =>
      Some (mkState (config s) (db s) (blockchain s) Tracker.init
                    (Emotion.reset (emotion_detector s)))
  end.

Fixpoint run (fuel : nat) (s : State) (events : list Event) : option State :=
  match events with
  | [] => Some s
  | e :: rest =>
      match step fuel s e with
      | Some s' => run fuel s' rest
      | None => None
      end
  end.

(** Did the loop body find the identity stable and live at this event? *)
Definition stable_and_live_here (user_id : string) (s : State) (e : Event) : bool :=
  match e with
  | FaceSeen f =>
      String.eqb (face_user_id f) user_id
      && o_is_stable (observe s f) && o_is_live (observe s f)
  | _ => false
  end.

(** Did it, somewhere along the run? *)
Fixpoint seen_stable_and_live (fuel : nat) (s : State) (events : list Event)
         (user_id : string) : bool :=
  match events with
  | [] => false
  | e :: rest =>
      stable_and_live_here user_id s e
      || match step fuel s e with
         | Some s' => seen_stable_and_live fuel s' rest user_id
         | None => false
         end
  end.

(** Event by event along the run: did the loop body find the identity
    stable and live there? *)
Fixpoint stable_and_live_along (fuel : nat) (s : State) (events : list Event)
         (user_id : string) : list bool :=
  match events with
  | [] => []
  | e :: rest =>
      stable_and_live_here user_id s e
      :: match step fuel s e with
         | Some s' => stable_and_live_along fuel s' rest user_id
         | None => []
         end
  end.

End WithFloatRepr.

(** The clock reading of an event, when it has one. *)
Definition event_date (e : Event) : option string :=
  match e with
  | FaceSeen f => Some (Py.date (face_now f))
  | _ => None
  end.

(** All the events of a run that carry a date carry this one. *)
Definition same_day (date : string) (events : list Event) : Prop :=
  Forall (fun e => event_date e = None \/ event_date e = Some date) events.

(** *** Counting marks *)

(** [data.get(key)] on a JSON object. *)
Fixpoint json_get (key : string) (items : list (string * Json.value)) : option Json.value :=
  match items with
  | [] => None
  | (k, v) :: rest => if String.eqb k key then Some v else json_get key rest
  end.

(** Is this an attendance block of the identity, stamped on the date? *)
Definition block_is_for (user_id date : string) (b : Ledger.Block) : bool :=
  match Ledger.data b with
  | Json.JObj items =>
      match json_get "type" items, json_get "user_id" items, json_get "timestamp" items with
      | Some (Json.JStr ty), Some (Json.JStr u), Some (Json.JStr ts) =>
          String.eqb ty "attendance" && String.eqb u user_id && String.prefix date ts
      | _, _, _ => false
      end
  | _ => false
  end.

Definition blocks_for (user_id date : string) (chain : list Ledger.Block) : nat :=
  List.length (List.filter (block_is_for user_id date) chain).

(** An identity in the recognised set has its row for the date. *)
Definition consistent (user_id date : string) (s : State) : Prop :=
  user_id ∈ Tracker.recognized_today (tracker s) -> rows_for user_id date (db s) <> 0%nat.

(** Is the event a sighting of the identity? *)
Definition is_face_of (user_id : string) (e : Event) : bool :=
  match e with
  | FaceSeen f => String.eqb (face_user_id f) user_id
  | _ => false
  end.

(** Is the event the start of a session? *)
Definition is_session_start (e : Event) : bool :=
  match e with
  | SessionStart => true
  | _ => false
  end.

(** How often the identity is matched along the events. *)
Definition face_sightings (user_id : string) (events : list Event) : nat :=
  List.length (List.filter (is_face_of user_id) events).

(** Every raw liveness score of the identity along the events is below
    the bound. *)
Definition scores_below (bound : Q) (user_id : string) (events : list Event) : Prop :=
  Forall (fun e => match e with
                   | FaceSeen f =>
                       face_user_id f = user_id -> (face_liveness_raw f < bound)%Q
                   | _ => True
                   end) events.

(** *** A worked session *)

(** A printer for floats with a short decimal expansion, standing for
    [float.__repr__] on the values of the example. *)
Fixpoint fraction_digits (fuel : nat) (r d : Z) : string :=
  match fuel with
  | O => EmptyString
  | S k =>
      if r =? 0 then EmptyString
      else (Py.str_of_int (10 * r / d) ++ fraction_digits k ((10 * r) mod d) d)%string
  end.

Definition example_float_repr (q : Q) : string :=
  let n := Qnum q in
  let d := Z.pos (Qden q) in
  let a := Z.abs n in
  let sign := if n <? 0 then "-" else EmptyString in
  let fraction := if a mod d =? 0 then "0" else fraction_digits 17 (a mod d) d in
  (sign ++ Py.str_of_int (a / d) ++ "." ++ fraction)%string.

Definition example_now : Py.Clock := Py.mkClock "2025-01-01" "09:05:00" ".000005".

Definition alice : Face :=
  mkFace "alice" "Alice" 62.5 0.9 (Some "Neutral"%string) [1; 2; 3] example_now.

(** A database with Alice registered, the example ledger with its genesis
    block, and a session about to start. *)
Definition example_db : DB :=
  fst (add_user empty (Py.mkClock "2025-01-01" "08:00:00" "") "alice" "Alice" [1; 2; 3]
                (Some "R001"%string) None None None None).

Definition example_start : State :=
  mkState default_config example_db [Ledger.example_genesis] Tracker.init (Emotion.init 30).

(** Alice stands before the camera for seven processed frames, the session
    is restarted, and she is seen for six more. *)
Definition example_events : list Event :=
  concat (repeat [FrameRead; FrameRead; FaceSeen alice] 7)
  ++ [SessionStart]
  ++ concat (repeat [FrameRead; FrameRead; FaceSeen alice] 6).

(** A session that runs past midnight.  Alice is matched in six processed
    frames shortly before midnight and, the session still running, in six
    more shortly after. *)
Definition alice_evening : Face :=
  mkFace "alice" "Alice" 62.5 0.9 (Some "Neutral"%string) [1; 2; 3]
         (Py.mkClock "2025-01-01" "23:58:00" ".000106").

Definition alice_after_midnight : Face :=
  mkFace "alice" "Alice" 62.5 0.9 (Some "Neutral"%string) [1; 2; 3]
         (Py.mkClock "2025-01-02" "00:01:00" ".000250").

Definition evening_events : list Event :=
  concat (repeat [FrameRead; FrameRead; FaceSeen alice_evening] 6).

Definition night_events : list Event :=
  concat (repeat [FrameRead; FrameRead; FaceSeen alice_after_midnight] 6).

Definition at_midnight : State :=
  match run example_float_repr 10 example_start evening_events with
  | Some s => s
  | None => example_start
  end.

Definition after_night : State :=
  match run example_float_repr 10 at_midnight night_events with
  | Some s => s
  | None => at_midnight
  end.

(** Alice's fifth sighting a moment before midnight: the payload is
    stamped on the old day, the block and the row on the new one. *)
Definition alice_late : Face :=
  mkFace "alice" "Alice" 62.5 0.9 (Some "Neutral"%string) [1; 2; 3]
         (Py.mkClock "2025-01-01" "23:59:59" ".999950").
Definition late_payload_now : Py.Clock := Py.mkClock "2025-01-01" "23:59:59" ".999990".
Definition late_block_now : Py.Clock := Py.mkClock "2025-01-02" "00:00:00" ".000185".
Definition late_row_now : Py.Clock := Py.mkClock "2025-01-02" "00:00:00" ".000412".

(** The race behind a conflict.  Alice has been seen in four processed
    frames; at the fifth the pre-check finds no record and the loop body
    finds her stable and live; before the loop writes, another process
    stores her row for the day. *)
Definition before_fifth : State :=
  match run example_float_repr 10 example_start
            (concat (repeat [FrameRead; FrameRead; FaceSeen alice] 4)
               ++ [FrameRead; FrameRead]) with
  | Some s => s
  | None => example_start
  end.

Definition other_writer (d : DB) : DB :=
  write_mark d example_now "alice" "Alice" "R001" 0.9 "Neutral" 50
             (Some "N/A"%string) [1; 2; 3] 0.625 "Main Campus".

Definition raced : Observed :=
  let o := observe before_fifth alice in
  let s := o_state o in
  mkObserved (mkState (config s) (other_writer (db s)) (blockchain s) (tracker s)
                      (emotion_detector s))
             (o_regno o) (o_is_live o) (o_liveness_score o) (o_is_stable o).

End App.

(* ===================================================================== *)
(** * Part II: properties                                                 *)
(* ===================================================================== *)

(** The digest is never unfolded by simplification. *)
Arguments SHA256.hexdigest : simpl never.
Arguments Ledger.calculate_hash : simpl never.
Arguments Ledger.new_block : simpl never.

(** ** Test vectors for the library models *)

Example sha256_constants :
  List.length SHA256.K = 64%nat /\ List.length SHA256.H0 = 8%nat
  /\ nth 0 SHA256.K 0 = 0x428a2f98 /\ nth 63 SHA256.K 0 = 0xc67178f2
  /\ nth 0 SHA256.H0 0 = 0x6a09e667 /\ nth 7 SHA256.H0 0 = 0x5be0cd19.
Proof. vm_compute. repeat split. Qed.

Example sha256_abc :
  SHA256.hexdigest (Py.encode "abc")
  = "ba7816bf8f01cfea414140de5dae2223b00361a396177a9cb410ff61f20015ad".
Proof. vm_compute. reflexivity. Qed.

Example sha256_empty :
  SHA256.hexdigest []
  = "e3b0c44298fc1c149afbf4c8996fb92427ae41e4649b934ca495991b7852b855".
Proof. vm_compute. reflexivity. Qed.

Example sha256_two_blocks :
  SHA256.hexdigest (Py.encode "abcdbcdecdefdefgefghfghighijhijkijkljklmklmnlmnomnopnopq")
  = "248d6a61d20638b8e5c026930c3e6039a33ce45964ff2167f6ecedd419db06c1".
Proof. vm_compute. reflexivity. Qed.


Example dumps_sorts_keys :
  Json.dumps (Json.JObj [("b", Json.JArr [Json.JInt (-3); Json.JNull; Json.JBool true;
                                          Json.JStr "a\b"]);
                         ("a", Json.JObj [])])
  = Json.requote "{'a': {}, 'b': [-3, null, true, 'a\\b']}".
Proof. vm_compute. reflexivity. Qed.

(* ===================================================================== *)
(** ** Sorting by key                                                     *)
(* ===================================================================== *)

Section SortFacts.
Import Json.

Lemma leb_lt_or_eq (a b : string) :
  String.leb a b = true <-> String_as_OT.lt a b \/ a = b.
Proof.
  unfold String.leb. rewrite <- String_as_OT.cmp_lt, <- String_as_OT.cmp_eq.
  unfold String_as_OT.cmp. destruct (String.compare a b); split; intros H; auto;
    try discriminate; destruct H; discriminate.
Qed.

Lemma leb_trans (a b c : string) :
  String.leb a b = true -> String.leb b c = true -> String.leb a c = true.
Proof.
  rewrite !leb_lt_or_eq. intros [H1| ->] [H2| ->]; auto.
  left. eapply String_as_OT.lt_trans; eassumption.
Qed.

Lemma leb_false (a b : string) : String.leb a b = false -> String.leb b a = true.
Proof. intros H. destruct (String.leb_total a b) as [H'|H']; congruence. Qed.

Local Ltac order :=
  repeat match goal with
         | H : String.leb _ _ = false |- _ =>
             let H' := fresh in pose proof (leb_false _ _ H) as H'; revert H
         end;
  intros;
  first [ reflexivity
        | exfalso;
          match goal with
          | Hne : ?a <> ?b, H1 : String.leb ?a ?b = true, H2 : String.leb ?b ?a = true |- _ =>
              exact (Hne (String.leb_antisym _ _ H1 H2))
          | H1 : String.leb ?a ?b = true, H2 : String.leb ?b ?c = true,
            H3 : String.leb ?a ?c = false |- _ =>
              rewrite (leb_trans _ _ _ H1 H2) in H3; discriminate
          end ].

(** Two insertions with different keys commute. *)
Lemma insert_item_comm {A} (a b : string * A) (l : list (string * A)) :
  fst a <> fst b ->
  insert_item a (insert_item b l) = insert_item b (insert_item a l).
Proof.
  intros Hne. assert (Hne' : fst b <> fst a) by congruence.
  induction l as [|c l IH]; simpl.
  - destruct (String.leb (fst a) (fst b)) eqn:Eab,
             (String.leb (fst b) (fst a)) eqn:Eba; order.
  - destruct (String.leb (fst a) (fst c)) eqn:Eac,
             (String.leb (fst b) (fst c)) eqn:Ebc; simpl;
      rewrite ?Eac, ?Ebc.
    + destruct (String.leb (fst a) (fst b)) eqn:Eab,
               (String.leb (fst b) (fst a)) eqn:Eba; order.
    + destruct (String.leb (fst b) (fst a)) eqn:Eba; order.
    + destruct (String.leb (fst a) (fst b)) eqn:Eab; order.
    + rewrite IH. reflexivity.
Qed.

(** The sorted list depends only on the items, not on their order, when
    no key occurs twice. *)
Lemma sort_items_permutation {A} (l l' : list (string * A)) :
  l ≡ₚ l' -> NoDup (List.map fst l) -> sort_items l = sort_items l'.
Proof.
  induction 1 as [|x l l' Hp IH|x y l|l l' l'' Hp1 IH1 Hp2 IH2]; intros Hnd.
  - reflexivity.
  - simpl in *. apply NoDup_cons in Hnd. rewrite IH by apply Hnd. reflexivity.
  - simpl in *. apply NoDup_cons in Hnd. destruct Hnd as (Hy & _).
    apply insert_item_comm. intros Heq. apply Hy. rewrite Heq. left.
  - rewrite IH1 by exact Hnd. apply IH2.
    assert (Hm : List.map fst l ≡ₚ List.map fst l') by (apply Permutation_map; exact Hp1).
    rewrite <- Hm. exact Hnd.
Qed.

Lemma insert_item_ascending {A} (a : string * A) (l : list (string * A)) :
  ascending l -> ascending (insert_item a l).
Proof.
  induction l as [|c l IH]; intros Hl; [simpl; auto|].
  simpl. destruct (String.leb (fst a) (fst c)) eqn:Eac.
  - split; [exact Eac|exact Hl].
  - destruct Hl as (Hc & Hl). specialize (IH Hl). split; [|exact IH].
    destruct l as [|e l]; simpl.
    + apply leb_false. exact Eac.
    + destruct (String.leb (fst a) (fst e)); [apply leb_false; exact Eac|exact Hc].
Qed.

Lemma sort_items_ascending {A} (l : list (string * A)) : ascending (sort_items l).
Proof.
  induction l as [|a l IH]; [exact I|]. apply insert_item_ascending. exact IH.
Qed.

Lemma insert_item_permutation {A} (a : string * A) (l : list (string * A)) :
  insert_item a l ≡ₚ a :: l.
Proof.
  induction l as [|c l IH]; simpl; [reflexivity|].
  destruct (String.leb (fst a) (fst c)); [reflexivity|].
  rewrite IH. apply perm_swap.
Qed.

Lemma sort_items_is_permutation {A} (l : list (string * A)) : sort_items l ≡ₚ l.
Proof.
  induction l as [|a l IH]; [reflexivity|].
  simpl. rewrite insert_item_permutation, IH. reflexivity.
Qed.

End SortFacts.

(* ===================================================================== *)
(** ** Strings, bytes and JSON texts can be read back                     *)
(* ===================================================================== *)

Section Serialisation.
Import Json.
Local Open Scope string_scope.




















End Serialisation.

(* ===================================================================== *)
(** ** The ledger                                                         *)
(* ===================================================================== *)

Section LedgerFacts.
Import Ledger.

Arguments calculate_hash : simpl never.

(** *** Mining *)

Lemma take_substring (n : nat) : forall s : string, Py.take n s = substring 0 n s.
Proof.
  induction n as [|n IH]; intros [|c s]; simpl; try reflexivity.
  rewrite IH. reflexivity.
Qed.

(** The loop test at difficulty 2 says that the hash starts with ["00"]. *)
Lemma meets_target_2 (h : string) :
  meets_target 2 h = true <-> String.prefix "00" h = true.
Proof.
  unfold meets_target. rewrite String.eqb_eq, take_substring, prefix_correct.
  reflexivity.
Qed.

Lemma try_next_nonce_hash (b : Block) :
  hash (try_next_nonce b) = calculate_hash (try_next_nonce b).
Proof. reflexivity. Qed.

(** What the loop leaves behind: the exit test holds, only [nonce] and
    [hash] have changed, the nonce has not decreased, and the stored hash is
    the digest of the final fields as soon as it was so on entry. *)
Lemma mine_block_inv (fuel d : nat) : forall (b b' : Block),
  mine_block fuel d b = Some b' ->
  meets_target d (hash b') = true
  /\ index b' = index b /\ timestamp b' = timestamp b
  /\ data b' = data b /\ previous_hash b' = previous_hash b
  /\ nonce b <= nonce b'
  /\ (hash b = calculate_hash b -> hash b' = calculate_hash b').
Proof.
  induction fuel as [|f IH]; intros b b' H; simpl in H.
  - destruct (meets_target d (hash b)) eqn:E; [|discriminate].
    injection H as <-. repeat split; auto; lia.
  - destruct (meets_target d (hash b)) eqn:E.
    + injection H as <-. repeat split; auto; lia.
    + apply IH in H. destruct H as (Ht & Hi & Hts & Hd & Hp & Hn & Hh).
      repeat split; auto; simpl in Hn; lia.
Qed.

(** The search stops at the first nonce that works: every smaller nonce,
    from the starting one on, gives a digest that misses the target. *)
Lemma mine_block_first (fuel d : nat) : forall (b b' : Block),
  hash b = calculate_hash b ->
  mine_block fuel d b = Some b' ->
  forall n, nonce b <= n < nonce b' -> meets_target d (digest_at b n) = false.
Proof.
  induction fuel as [|f IH]; intros b b' Hb H n Hn; simpl in H.
  - destruct (meets_target d (hash b)) eqn:E; [|discriminate].
    injection H as <-. lia.
  - destruct (meets_target d (hash b)) eqn:E.
    + injection H as <-. lia.
    + destruct (Z.eq_dec n (nonce b)) as [->|Hne].
      * unfold digest_at. replace (set_nonce b (nonce b)) with b by (destruct b; reflexivity).
        rewrite <- Hb. exact E.
      * specialize (IH _ _ (try_next_nonce_hash b) H n).
        simpl in IH. unfold digest_at in *. simpl in *. apply IH. lia.
Qed.

(** Enough fuel gives the result: if some nonce at distance [k] from the
    starting one meets the target, [k] turns of the loop suffice. *)
Lemma mine_block_finds (d : nat) : forall (k : nat) (b : Block),
  hash b = calculate_hash b ->
  meets_target d (digest_at b (nonce b + Z.of_nat k)) = true ->
  exists b', mine_block k d b = Some b'.
Proof.
  induction k as [|k IH]; intros b Hb Hk; simpl.
  - replace (nonce b + Z.of_nat 0) with (nonce b) in Hk by lia.
    unfold digest_at in Hk.
    replace (set_nonce b (nonce b)) with b in Hk by (destruct b; reflexivity).
    rewrite <- Hb in Hk. rewrite Hk. eauto.
  - destruct (meets_target d (hash b)) eqn:E; [eauto|].
    apply IH; [apply try_next_nonce_hash|].
    unfold digest_at in *. simpl.
    replace (nonce b + 1 + Z.of_nat k) with (nonce b + Z.of_nat (S k)) by lia.
    exact Hk.
Qed.

(** A larger budget does not change a search that has ended. *)
Lemma mine_block_more_fuel (d : nat) : forall (fuel extra : nat) (b b' : Block),
  mine_block fuel d b = Some b' -> mine_block (fuel + extra) d b = Some b'.
Proof.
  induction fuel as [|f IH]; intros extra b b' H; simpl in H.
  - destruct (meets_target d (hash b)) eqn:E; [|discriminate].
    destruct extra; simpl; rewrite E; exact H.
  - simpl. destruct (meets_target d (hash b)); [exact H|]. apply IH, H.
Qed.

(** C6.  Mining a freshly constructed block with difficulty 2: when the
    search returns, the stored hash starts with ["00"], it is the SHA-256
    hex digest of index, timestamp, key-sorted JSON payload, previous hash
    and found nonce concatenated, and [calculate_hash] on the mined block
    gives the stored hash again; the other fields are those the block was
    built with, and the nonce found is the first one, counting up from 0,
    whose digest starts with ["00"]. *)
Theorem mine_block_postcondition
    (i : Z) (ts : string) (d : Json.value) (prev : string) (fuel : nat) (b' : Block) :
  mine_block fuel 2 (new_block i ts d prev) = Some b' ->
  String.prefix "00" (hash b') = true
  /\ hash b' = SHA256.hexdigest
                 (Py.encode (Py.str_of_int i ++ ts ++ Json.dumps d ++ prev
                               ++ Py.str_of_int (nonce b'))%string)
  /\ calculate_hash b' = hash b'
  /\ index b' = i /\ timestamp b' = ts /\ data b' = d /\ previous_hash b' = prev
  /\ 0 <= nonce b'
  /\ (forall n, 0 <= n < nonce b' ->
      String.prefix "00" (digest_at (new_block i ts d prev) n) = false).
Proof.
  intros H.
  pose proof (mine_block_first fuel 2 (new_block i ts d prev) b' eq_refl H) as Hfirst.
  apply mine_block_inv in H.
  destruct H as (Ht & Hi & Hts & Hd & Hp & Hn & Hh).
  specialize (Hh eq_refl).
  change (index b' = i) in Hi. change (timestamp b' = ts) in Hts.
  change (data b' = d) in Hd. change (previous_hash b' = prev) in Hp.
  change (0 <= nonce b') in Hn.
  repeat split; auto.
  - apply meets_target_2, Ht.
  - rewrite Hh. unfold calculate_hash, block_string.
    rewrite Hi, Hts, Hd, Hp. reflexivity.
  - intros n Hn'. specialize (Hfirst n Hn').
    destruct (String.prefix "00" (digest_at (new_block i ts d prev) n)) eqn:E;
      [|reflexivity].
    apply meets_target_2 in E. congruence.
Qed.

Lemma example_genesis_mined :
  mine_block 10 2 example_genesis_fresh = Some example_genesis.
Proof. vm_compute. reflexivity. Qed.

Lemma mine_block_postcondition_witness :
  mine_block 10 2 example_genesis_fresh = Some example_genesis
  /\ String.prefix "00" (hash example_genesis) = true
  /\ calculate_hash example_genesis = hash example_genesis.
Proof.
  split; [exact example_genesis_mined|].
  pose proof (mine_block_postcondition 0 "2025-01-01 09:00:00.000017"
                (genesis_data "2025-01-01T09:00:00.000017") "0" 10 example_genesis
                example_genesis_mined) as H.
  split; [apply H | apply H].
Defined.

(** *** Validation *)

Lemma forallb_agree {A} (f g : A -> bool) (l : list A) :
  (forall x, In x l -> f x = g x) -> forallb f l = forallb g l.
Proof.
  induction l as [|a l IH]; intros H; simpl; [reflexivity|].
  rewrite (H a) by (left; reflexivity).
  rewrite IH by (intros x Hx; apply H; right; exact Hx). reflexivity.
Qed.



Lemma block_ok_true (chain : list Block) (i : nat) :
  block_ok chain i = true <->
  exists cur prev, chain !! i = Some cur /\ chain !! (i - 1)%nat = Some prev
                   /\ hash cur = calculate_hash cur /\ previous_hash cur = hash prev.
Proof.
  unfold block_ok. split.
  - destruct (chain !! i) as [cur|]; [|discriminate].
    destruct (chain !! (i - 1)%nat) as [prev|]; [|discriminate].
    destruct (String.eqb (hash cur) (calculate_hash cur)) eqn:E1; [|discriminate].
    destruct (String.eqb (previous_hash cur) (hash prev)) eqn:E2; [|discriminate].
    intros _. exists cur, prev.
    apply String.eqb_eq in E1. apply String.eqb_eq in E2. auto.
  - intros (cur & prev & -> & -> & H1 & H2).
    apply String.eqb_eq in H1. apply String.eqb_eq in H2. rewrite H1, H2. reflexivity.
Qed.

(** *** Tampering *)




Lemma example_chain_added :
  add_block 10 "2025-01-01 09:05:00.000005" example_payload [example_genesis]
  = Some (example_chain, Some (hash example_block)).
Proof. vm_compute. reflexivity. Qed.

Lemma example_chain_valid : is_chain_valid example_chain = true.
Proof. vm_compute. reflexivity. Qed.


(** C10.  [is_chain_valid] inspects the blocks at indices 1 and above only.
    A chain of length 1 is always reported valid, whatever its single block
    holds; and replacing the payload of the genesis block of any chain,
    its stored hash left as it was, does not change the verdict, so a chain
    that was valid is still reported valid. *)
Theorem genesis_payload_unchecked :
  (forall b0 : Block, is_chain_valid [b0] = true)
  /\ (forall (b0 : Block) (rest : list Block) (d' : Json.value),
         is_chain_valid (set_data b0 d' :: rest) = is_chain_valid (b0 :: rest))
  /\ (forall (b0 : Block) (rest : list Block) (d' : Json.value),
         is_chain_valid (b0 :: rest) = true ->
         is_chain_valid (set_data b0 d' :: rest) = true).
Proof.
  assert (Hsame : forall (b0 : Block) (rest : list Block) (d' : Json.value),
             is_chain_valid (set_data b0 d' :: rest) = is_chain_valid (b0 :: rest)).
  { intros b0 rest d'. unfold is_chain_valid. simpl List.length.
    apply forallb_agree. intros i Hi. apply in_seq in Hi.
    destruct i as [|i]; [lia|]. unfold block_ok. simpl.
    destruct i as [|i]; simpl; reflexivity. }
  split; [reflexivity|]. split; [exact Hsame|].
  intros b0 rest d' H. rewrite Hsame. exact H.
Qed.

Lemma genesis_payload_unchecked_witness :
  is_chain_valid example_chain = true
  /\ is_chain_valid (set_data example_genesis (Json.JObj [("type", Json.JStr "forged")])
                       :: [example_block]) = true.
Proof.
  split; [exact example_chain_valid|].
  apply (proj2 (proj2 genesis_payload_unchecked)). exact example_chain_valid.
Defined.

End LedgerFacts.

(* ===================================================================== *)
(** ** Rounding and clamping                                              *)
(* ===================================================================== *)

Section Numeric.
Local Open Scope Q_scope.

Lemma Qleb_true (a b : Q) : Py.Qleb a b = true <-> a <= b.
Proof. apply Qle_bool_iff. Qed.

Lemma Qltb_true (a b : Q) : Py.Qltb a b = true <-> a < b.
Proof.
  unfold Py.Qltb. rewrite negb_true_iff. split.
  - intros H. apply Qnot_le_lt. intros Hle. apply Qle_bool_iff in Hle. congruence.
  - intros H. destruct (Qle_bool b a) eqn:E; [|reflexivity].
    apply Qle_bool_iff in E. exfalso. exact (Qlt_not_le _ _ H E).
Qed.

Lemma Qltb_false (a b : Q) : Py.Qltb a b = false <-> b <= a.
Proof.
  unfold Py.Qltb. rewrite negb_false_iff. apply Qle_bool_iff.
Qed.

Lemma min_spec (a b : Q) : (b < a /\ Py.min a b = b) \/ (a <= b /\ Py.min a b = a).
Proof.
  unfold Py.min. destruct (Py.Qltb b a) eqn:E.
  - left. split; [apply Qltb_true, E | reflexivity].
  - right. split; [apply Qltb_false, E | reflexivity].
Qed.

Lemma max_spec (a b : Q) : (a < b /\ Py.max a b = b) \/ (b <= a /\ Py.max a b = a).
Proof.
  unfold Py.max. destruct (Py.Qltb a b) eqn:E.
  - left. split; [apply Qltb_true, E | reflexivity].
  - right. split; [apply Qltb_false, E | reflexivity].
Qed.

Lemma clamp_bounds (lo hi x : Q) :
  lo <= hi -> lo <= Py.max lo (Py.min hi x) /\ Py.max lo (Py.min hi x) <= hi.
Proof.
  intros Hlh.
  destruct (min_spec hi x) as [[H1 ->]|[H1 ->]];
    [destruct (max_spec lo x) as [[H2 ->]|[H2 ->]]
    |destruct (max_spec lo hi) as [[H2 ->]|[H2 ->]]]; split; lra.
Qed.

Lemma round_half_even_bounds (q : Q) (a b : Z) :
  inject_Z a <= q -> q <= inject_Z b ->
  (a <= Py.round_half_even q <= b)%Z.
Proof.
  intros Ha Hb.
  assert (Hfa : (a <= Qfloor q)%Z).
  { rewrite <- (Qfloor_Z a). apply Qfloor_resp_le, Ha. }
  assert (Hfb : (Qfloor q <= b)%Z).
  { rewrite <- (Qfloor_Z b). apply Qfloor_resp_le, Hb. }
  assert (Hup : 0 < q - inject_Z (Qfloor q) -> (Qfloor q + 1 <= b)%Z).
  { intros Hpos.
    assert (Hlt : inject_Z (Qfloor q) < inject_Z b) by lra.
    rewrite <- Zlt_Qlt in Hlt. lia. }
  unfold Py.round_half_even.
  destruct (Qcompare (q - inject_Z (Qfloor q)) (1 # 2)) eqn:E.
  - apply Qeq_alt in E. destruct (Z.even (Qfloor q)); [lia|].
    split; [lia|]. apply Hup. lra.
  - lia.
  - apply Qgt_alt in E. split; [lia|]. apply Hup. lra.
Qed.

Lemma scale_pos (n : nat) : 0 < inject_Z (10 ^ Z.of_nat n).
Proof.
  replace 0 with (inject_Z 0) by reflexivity. rewrite <- Zlt_Qlt.
  apply Z.pow_pos_nonneg; lia.
Qed.

Lemma round_bounds (q : Q) (n : nat) (a b : Z) :
  inject_Z a <= q -> q <= inject_Z b ->
  inject_Z a <= Py.round q n /\ Py.round q n <= inject_Z b.
Proof.
  intros Ha Hb. unfold Py.round.
  pose proof (scale_pos n) as Hs.
  set (s := (10 ^ Z.of_nat n)%Z) in *.
  destruct (round_half_even_bounds (q * inject_Z s) (a * s) (b * s)) as [H1 H2].
  - rewrite inject_Z_mult. apply Qmult_le_compat_r; lra.
  - rewrite inject_Z_mult. apply Qmult_le_compat_r; lra.
  - rewrite Zle_Qle, inject_Z_mult in H1. rewrite Zle_Qle, inject_Z_mult in H2.
    split.
    + apply Qle_shift_div_l; assumption.
    + apply Qle_shift_div_r; assumption.
Qed.

Lemma round_half_even_comp (q q' : Q) :
  q == q' -> Py.round_half_even q = Py.round_half_even q'.
Proof.
  intros H. unfold Py.round_half_even.
  rewrite (Qfloor_comp _ _ H).
  assert (E : q - inject_Z (Qfloor q') == q' - inject_Z (Qfloor q')) by (rewrite H; reflexivity).
  rewrite (Qcompare_comp _ _ E _ _ (Qeq_refl (1 # 2))). reflexivity.
Qed.

Lemma round_comp (q q' : Q) (n : nat) : q == q' -> Py.round q n = Py.round q' n.
Proof.
  intros H. unfold Py.round.
  set (s := inject_Z (10 ^ Z.of_nat n)).
  rewrite (round_half_even_comp (q * s) (q' * s)); [reflexivity|].
  rewrite H. reflexivity.
Qed.

Lemma min_comp (a b b' : Q) : b == b' -> Py.min a b == Py.min a b'.
Proof.
  intros H.
  destruct (min_spec a b) as [[H1 ->]|[H1 ->]];
    destruct (min_spec a b') as [[H2 ->]|[H2 ->]]; lra.
Qed.

Lemma max_comp (a b b' : Q) : b == b' -> Py.max a b == Py.max a b'.
Proof.
  intros H.
  destruct (max_spec a b) as [[H1 ->]|[H1 ->]];
    destruct (max_spec a b') as [[H2 ->]|[H2 ->]]; lra.
Qed.

End Numeric.

Example round_examples :
  (Py.round (7125 # 100000) 3 == 0.071)%Q /\ (Py.round (200 # 3) 2 == 66.67)%Q
  /\ (Py.round (53125 # 1000) 2 == 53.12)%Q /\ (Py.round (-(5 # 2)) 0 == -2)%Q.
Proof. vm_compute. repeat split. Qed.

(* ===================================================================== *)
(** ** The liveness scorer                                                *)
(* ===================================================================== *)

Section LivenessFacts.
Import Num Liveness.

(** NumPy's rounding of a [float64] scalar. *)
Variable np_round : float -> nat -> float.

(** Within the frame, a crop has the size of its box. *)
Lemma crop_shape (frame : Image) (t b l r : Z) :
  (0 <= t < b)%Z -> (b <= height frame)%Z -> (0 <= l < r)%Z -> (r <= width frame)%Z ->
  height (crop frame t b l r) = (b - t)%Z /\ width (crop frame t b l r) = (r - l)%Z.
Proof.
  intros Ht Hb Hl Hr. unfold crop, slice_index. simpl.
  destruct (Z.ltb_spec t 0), (Z.ltb_spec b 0), (Z.ltb_spec l 0), (Z.ltb_spec r 0); lia.
Qed.

(** C2.  When the face box, clamped to the frame, is empty or inverted, or
    is less than 80 pixels high or wide, [detect_liveness] returns
    [(False, 0.0)] and has called none of the five extractors. *)
Theorem small_region_rejected
    (self : LivenessDetector) (frame : Image) (top right_ bottom left_ : Z) :
  let '(t, b, l, r) := clamped frame (top, right_, bottom, left_) in
  (b <= t \/ r <= l \/ b - t < 80 \/ r - l < 80)%Z ->
  detect_liveness np_round self frame (top, right_, bottom, left_)
  = ((false, PyFloat 0), []).
Proof.
  simpl. intros H. unfold detect_liveness. cbv beta iota zeta.
  set (t := Z.max 0 top) in *. set (l := Z.max 0 left_) in *.
  set (b := Z.min (height frame) bottom) in *.
  set (r := Z.min (width frame) right_) in *.
  destruct (Z.leb_spec b t) as [Hbt|Hbt]; [reflexivity|].
  destruct (Z.leb_spec r l) as [Hrl|Hrl]; [reflexivity|]. simpl orb.
  destruct (crop_shape frame t b l r) as [Hh Hw]; try lia.
  simpl in Hh, Hw. rewrite Hh, Hw.
  destruct (Z.ltb_spec (b - t) 80) as [H1|H1]; [reflexivity|].
  destruct (Z.ltb_spec (r - l) 80) as [H2|H2]; [reflexivity|].
  lia.
Qed.

(** On a region of at least 80 x 80 the five extractors run, each once, in
    the order of the source, and the verdict is [decide_liveness] of their
    readings on the cropped region. *)
Lemma detect_liveness_large
    (self : LivenessDetector) (frame : Image) (top right_ bottom left_ : Z) :
  let '(t, b, l, r) := clamped frame (top, right_, bottom, left_) in
  (80 <= b - t)%Z -> (80 <= r - l)%Z ->
  let region := crop frame t b l r in
  let ex := extractors self in
  detect_liveness np_round self frame (top, right_, bottom, left_)
  = (decide_liveness np_round self (calculate_texture_score ex region)
                     (calculate_color_diversity ex region)
                     (calculate_frequency_score ex region)
                     (detect_mobile_screen ex region)
                     (calculate_reflection_score ex region),
     [TextureCall; ColorCall; FrequencyCall; ScreenCall; ReflectionCall]).
Proof.
  simpl. intros H1 H2. unfold detect_liveness. cbv beta iota zeta.
  set (t := Z.max 0 top) in *. set (l := Z.max 0 left_) in *.
  set (b := Z.min (height frame) bottom) in *.
  set (r := Z.min (width frame) right_) in *.
  destruct (Z.leb_spec b t) as [Hbt|Hbt]; [lia|].
  destruct (Z.leb_spec r l) as [Hrl|Hrl]; [lia|]. simpl orb.
  destruct (crop_shape frame t b l r) as [Hh Hw]; try lia.
  simpl in Hh, Hw. rewrite Hh, Hw.
  destruct (Z.ltb_spec (b - t) 80) as [H3|H3]; [lia|].
  destruct (Z.ltb_spec (r - l) 80) as [H4|H4]; [lia|].
  reflexivity.
Qed.

(** The test of the penalty, in the words of the claim. *)
Lemma suspicious_true (scr : bool) (ts cd : number) :
  suspicious scr ts cd = true
  <-> scr = true \/ (ltb ts 20%float = true /\ ltb cd 12%float = true).
Proof. unfold suspicious. rewrite orb_true_iff, andb_true_iff. tauto. Qed.

Lemma decide_liveness_penalty
    (self : LivenessDetector) (ts cd fs : number) (scr : bool) (rs : number) :
  let fused := fused_before_penalty ts cd fs scr rs in
  let halved := mul fused 0.5%float in
  let flagged := scr = true \/ (ltb ts 20%float = true /\ ltb cd 12%float = true) in
  (flagged ->
     decide_liveness np_round self ts cd fs scr rs
     = (leb (liveness_threshold self) halved, round np_round halved 3))
  /\ (~ flagged ->
        decide_liveness np_round self ts cd fs scr rs
        = (leb (liveness_threshold self) fused, round np_round fused 3)).
Proof.
  cbv zeta. pose proof (suspicious_true scr ts cd) as Hs.
  unfold decide_liveness, fused_before_penalty. split; intros H.
  - apply Hs in H. rewrite H. destruct scr; reflexivity.
  - destruct (suspicious scr ts cd) eqn:E; [exfalso; apply H, Hs; reflexivity|].
    destruct scr; reflexivity.
Qed.

(** C3, as the code has it.  On a face region of at least 80 x 80, let the
    readings be those of the extractors on the cropped region, and let
    [fused] be the weighted sum of the capped confidences, computed in
    floating point as the source writes it.  Whenever the screen flag is
    set, or the raw texture score is below 20 and the raw colour
    diversity below 12, the fused score is multiplied by 0.5 once: the
    verdict compares the threshold with [fused * 0.5], and the returned
    score is [round(fused * 0.5, 3)].  This holds in particular when both
    conditions hold together.  Otherwise the fused score is used as it
    is. *)
Theorem penalty_applied_once
    (self : LivenessDetector) (frame : Image) (top right_ bottom left_ : Z) :
  let '(t, b, l, r) := clamped frame (top, right_, bottom, left_) in
  (80 <= b - t)%Z -> (80 <= r - l)%Z ->
  let region := crop frame t b l r in
  let ex := extractors self in
  let texture_score := calculate_texture_score ex region in
  let color_diversity := calculate_color_diversity ex region in
  let is_screen := detect_mobile_screen ex region in
  let fused := fused_before_penalty texture_score color_diversity
                 (calculate_frequency_score ex region) is_screen
                 (calculate_reflection_score ex region) in
  let halved := mul fused 0.5%float in
  let low := ltb texture_score 20%float = true /\ ltb color_diversity 12%float = true in
  let result := fst (detect_liveness np_round self frame (top, right_, bottom, left_)) in
  ((is_screen = true \/ low) ->
     result = (leb (liveness_threshold self) halved, round np_round halved 3))
  /\ ((is_screen = true /\ low) -> snd result = round np_round halved 3)
  /\ (~ (is_screen = true \/ low) ->
        result = (leb (liveness_threshold self) fused, round np_round fused 3)).
Proof.
  pose proof (detect_liveness_large self frame top right_ bottom left_) as Hl.
  simpl in *. intros H1 H2. rewrite (Hl H1 H2). simpl fst.
  set (region := crop frame _ _ _ _).
  destruct (decide_liveness_penalty self
              (calculate_texture_score (extractors self) region)
              (calculate_color_diversity (extractors self) region)
              (calculate_frequency_score (extractors self) region)
              (detect_mobile_screen (extractors self) region)
              (calculate_reflection_score (extractors self) region)) as [Hp Hn].
  split; [exact Hp|]. split; [|exact Hn].
  intros (Hs & Hlow). rewrite Hp by (left; exact Hs). reflexivity.
Qed.

End LivenessFacts.

Section LivenessExamples.
Import Num Liveness.

(** The scorer on concrete readings: every extractor on its fallback
    reading; the same with the screen flag set; a live face, a face shown
    on a screen and a face near the threshold, with NumPy readings. *)
Example detect_liveness_examples :
  let run ex := fst (detect_liveness numpy_round (example_detector ex) example_frame
                                     (100, 300, 300, 100)%Z) in
  run fallback_extractors = (false, PyFloat 0.087)
  /\ run (example_extractors (PyFloat 0) (PyFloat 0) (PyFloat 0) true (PyFloat 0.5))
     = (false, PyFloat 0.013)
  /\ run (example_extractors (NpFloat 60) (NpFloat 40) (NpFloat 2000) false (NpFloat 1))
     = (true, NpFloat 1)
  /\ run (example_extractors (NpFloat 10) (NpFloat 6) (NpFloat 400) true (NpFloat 1))
     = (false, NpFloat 0.112)
  /\ run (example_extractors (NpFloat 45) (NpFloat 27) (NpFloat 1400) false (NpFloat 0.9))
     = (true, NpFloat 0.922).
Proof. vm_compute. repeat split. Qed.

(** [round] on built-in floats and on NumPy scalars. *)
Example round_float_examples :
  round_float 0.0875 3 = 0.087%float /\ round_float 0.0125 3 = 0.013%float
  /\ round_float 2.675 2 = 2.67%float /\ round_float 0.125 2 = 0.12%float
  /\ round_float (-0.0004) 3 = (-0)%float /\ round_float 1e300 3 = 1e300%float
  /\ numpy_round 0.0875 3 = 0.088%float /\ numpy_round 2.675 2 = 2.68%float
  /\ nearest_float (1 # 10) = 0.1%float /\ nearest_float (2 # 3) = 0.66666666666666663%float.
Proof. vm_compute. repeat split. Qed.

Lemma small_region_rejected_witness :
  detect_liveness numpy_round
                  (example_detector (example_extractors (NpFloat 60) (NpFloat 40)
                                                        (NpFloat 2000) false (NpFloat 1)))
                  example_frame (100, 170, 300, 100)%Z = ((false, PyFloat 0), []).
Proof.
  apply (small_region_rejected numpy_round _ example_frame 100 170 300 100). vm_compute.
  right. right. right. reflexivity.
Defined.

(** Both conditions of the penalty hold: the screen flag is set, the
    texture score is 10 and the colour diversity 6 (NumPy scalars). *)
Lemma penalty_applied_once_witness :
  let ex := example_extractors (NpFloat 10) (NpFloat 6) (NpFloat 400) true (NpFloat 1) in
  let fused := fused_before_penalty (NpFloat 10) (NpFloat 6) (NpFloat 400) true (NpFloat 1) in
  snd (fst (detect_liveness numpy_round (example_detector ex)
                            example_frame (100, 300, 300, 100)%Z))
  = round numpy_round (mul fused 0.5%float) 3.
Proof.
  cbv zeta.
  pose proof (penalty_applied_once numpy_round
                (example_detector (example_extractors (NpFloat 10) (NpFloat 6) (NpFloat 400)
                                                      true (NpFloat 1)))
                example_frame 100 300 300 100) as H.
  simpl in H.
  destruct (H ltac:(lia) ltac:(lia)) as (_ & Hboth & _).
  apply Hboth. repeat split; reflexivity.
Defined.

(** The returned score is not half the fused score itself.  With every
    extractor on its fallback reading (texture 0.0, colour diversity 0.0,
    frequency energy 0.0, reflection 0.5) and the screen flag set, both
    conditions of the penalty hold; the fused score is 0.025, half of it
    is 0.0125, and [detect_liveness] returns [round(0.0125, 3)], which is
    0.013: neither 0.0125 nor a quarter of the fused score.  With the
    screen flag not set the fused score is 0.175, half of it 0.0875, and
    the returned score 0.087. *)
Lemma returned_score_is_rounded :
  let flagged := example_extractors (PyFloat 0) (PyFloat 0) (PyFloat 0) true (PyFloat 0.5) in
  let returned ex :=
    snd (fst (detect_liveness numpy_round (example_detector ex) example_frame
                              (100, 300, 300, 100)%Z)) in
  let fused scr := fused_before_penalty (PyFloat 0) (PyFloat 0) (PyFloat 0) scr (PyFloat 0.5) in
  (ltb (PyFloat 0) 20%float = true /\ ltb (PyFloat 0) 12%float = true)
  /\ (fused true = PyFloat 0.025
      /\ mul (fused true) 0.5%float = PyFloat 0.0125
      /\ returned flagged = PyFloat 0.013
      /\ returned flagged <> mul (fused true) 0.5%float
      /\ returned flagged <> mul (fused true) 0.25%float)
  /\ (fused false = PyFloat 0.175
      /\ mul (fused false) 0.5%float = PyFloat 0.0875
      /\ returned fallback_extractors = PyFloat 0.087
      /\ returned fallback_extractors <> mul (fused false) 0.5%float).
Proof.
  vm_compute. repeat split; intros H; discriminate H.
Qed.

End LivenessExamples.

(* ===================================================================== *)
(** ** The engagement score                                               *)
(* ===================================================================== *)

Section EmotionFacts.
Import Emotion.
Local Open Scope Q_scope.

(** C5, as the code has it.  For a non-empty window the score is the
    clamped value [50 + 50 * (engaged - 0.5 * disengaged) / size] rounded
    to two decimals; it lies in [0, 100]; for [Happy, Happy, Sad] it is 75. *)
Theorem engagement_score_spec :
  (forall self : EmotionDetector,
      emotion_history self <> [] ->
      calculate_engagement_score self
      = Py.round (engagement_formula (emotion_history self)) 2
      /\ 0 <= calculate_engagement_score self
      /\ calculate_engagement_score self <= 100)
  /\ (forall n : nat,
         calculate_engagement_score
           (mkEmotionDetector n ["Happy"; "Happy"; "Sad"]%string) == 75).
Proof.
  split.
  - intros self Hne.
    assert (Heq : calculate_engagement_score self
                  = Py.round (engagement_formula (emotion_history self)) 2).
    { unfold calculate_engagement_score, engagement_formula.
      destruct (emotion_history self) as [|e w] eqn:E; [congruence|].
      apply round_comp, max_comp, min_comp.
      unfold ENGAGED_EMOTIONS, DISENGAGED_EMOTIONS.
      assert (Hn : ~ inject_Z (Z.of_nat (List.length (e :: w))) == 0).
      { replace 0 with (inject_Z 0) by reflexivity. rewrite inject_Z_injective.
        simpl List.length. lia. }
      field. exact Hn. }
    split; [exact Heq|]. rewrite Heq. unfold engagement_formula.
    set (x := 50 + _).
    destruct (clamp_bounds 0 100 x) as [Hlo Hhi]; [lra|].
    apply (round_bounds _ 2 0 100); assumption.
  - intros n. vm_compute. reflexivity.
Qed.

Lemma engagement_score_spec_witness :
  calculate_engagement_score (mkEmotionDetector 30 ["Happy"; "Neutral"; "Sad"]%string)
  = Py.round (engagement_formula ["Happy"; "Neutral"; "Sad"]%string) 2.
Proof.
  apply (proj1 engagement_score_spec
               (mkEmotionDetector 30 ["Happy"; "Neutral"; "Sad"]%string)).
  discriminate.
Defined.

(** The score is not the clamped formula itself: for the window
    [Happy, Neutral, Neutral] the formula gives 200/3 and the code returns
    66.67. *)
Lemma engagement_score_is_rounded :
  let self := mkEmotionDetector 30 ["Happy"; "Neutral"; "Neutral"]%string in
  emotion_history self <> []
  /\ engagement_formula (emotion_history self) == 200 # 3
  /\ calculate_engagement_score self == 66.67
  /\ ~ (calculate_engagement_score self == engagement_formula (emotion_history self)).
Proof.
  vm_compute. repeat split; discriminate.
Qed.

End EmotionFacts.

(* ===================================================================== *)
(** ** Detection stability                                                *)
(* ===================================================================== *)

Section TrackerFacts.
Import Tracker.

Implicit Types (self : AttendanceTracker) (u : string) (ops : list Op).

Lemma state_of_detect self u (d : bool) :
  state_of (apply_op self (Detect u d)) u
  = if d then on_detected self (state_of self u) else on_missed self (state_of self u).
Proof.
  unfold state_of, apply_op, update_detection. simpl.
  rewrite lookup_insert_eq. reflexivity.
Qed.

Lemma state_of_detect_other self u u' (d : bool) :
  u' <> u -> state_of (apply_op self (Detect u' d)) u = state_of self u.
Proof.
  intros Hne. unfold state_of, apply_op, update_detection. simpl.
  rewrite lookup_insert_ne by exact Hne. reflexivity.
Qed.

Lemma state_of_next_frame self u :
  state_of (apply_op self NextFrame) u = state_of self u.
Proof. reflexivity. Qed.

Lemma apply_op_thresholds self (o : Op) :
  detection_threshold (apply_op self o) = detection_threshold self
  /\ detection_cooldown (apply_op self o) = detection_cooldown self.
Proof. destruct o; split; reflexivity. Qed.

(** A call that is not a miss of [u] keeps [u] stable, and counts a
    sighting when it is one. *)
Lemma step_not_miss self u (o : Op) :
  is_miss u o = false ->
  let st := state_of self u in
  let st' := state_of (apply_op self o) u in
  (is_stable st = true -> is_stable st' = true)
  /\ (is_sighting u o = true ->
      consecutive_detections st' = consecutive_detections st + 1
      /\ (detection_threshold self <= consecutive_detections st + 1 -> is_stable st' = true))
  /\ (is_sighting u o = false -> st' = st).
Proof.
  intros Hm. destruct o as [u' d|]; cbv zeta.
  - destruct (decide (u' = u)) as [->|Hne].
    + destruct d; [|simpl in Hm; rewrite bool_decide_eq_true_2 in Hm by reflexivity;
                    discriminate].
      rewrite (state_of_detect self u true).
      unfold is_sighting. rewrite bool_decide_eq_true_2 by reflexivity.
      unfold on_detected; simpl. repeat split.
      * intros ->. destruct (_ <=? _); reflexivity.
      * intros Hle. destruct (Z.leb_spec (detection_threshold self)
                                         (consecutive_detections (state_of self u) + 1));
          [reflexivity|lia].
      * discriminate.
    + rewrite (state_of_detect_other self u u' d Hne).
      assert (is_sighting u (Detect u' d) = false) as Hs
          by (destruct d; simpl; [apply bool_decide_eq_false_2; exact Hne|reflexivity]).
      rewrite Hs. repeat split; auto; discriminate.
  - rewrite state_of_next_frame. repeat split; auto; discriminate.
Qed.

Lemma stable_after_sightings u ops : forall self,
  forallb (fun o => negb (is_miss u o)) ops = true ->
  (is_stable (state_of self u) = true
   \/ (0 <= consecutive_detections (state_of self u)
       /\ (0 < sightings u ops)%nat
       /\ detection_threshold self
          <= consecutive_detections (state_of self u) + Z.of_nat (sightings u ops))) ->
  is_stable (state_of (run self ops) u) = true.
Proof.
  induction ops as [|o ops IH]; intros self Hnm H; simpl.
  - destruct H as [H|(_ & H & _)]; [exact H|]. unfold sightings in H. simpl in H. lia.
  - simpl in Hnm. apply andb_true_iff in Hnm. destruct Hnm as [Ho Hnm].
    apply negb_true_iff in Ho.
    destruct (step_not_miss self u o Ho) as (Hkeep & Hsight & Hsame).
    apply IH; [exact Hnm|].
    destruct (apply_op_thresholds self o) as [-> _].
    destruct H as [H|(Hc & Hpos & Hthr)]; [left; apply Hkeep, H|].
    unfold sightings in *. simpl in Hpos, Hthr.
    destruct (is_sighting u o) eqn:Es.
    + destruct (Hsight eq_refl) as [Hcnt Hst]. simpl in Hpos, Hthr.
      destruct (Z_le_gt_dec (detection_threshold self)
                            (consecutive_detections (state_of self u) + 1)) as [Hle|Hgt].
      * left. apply Hst, Hle.
      * right. rewrite Hcnt. repeat split; lia.
    + right. rewrite (Hsame eq_refl). repeat split; assumption.
Qed.

Lemma unstable_before_threshold u ops : forall self,
  is_stable (state_of self u) = false ->
  consecutive_detections (state_of self u) + Z.of_nat (sightings u ops)
    < detection_threshold self ->
  0 <= consecutive_detections (state_of self u) ->
  is_stable (state_of (run self ops) u) = false.
Proof.
  induction ops as [|o ops IH]; intros self Hst Hlt Hc; simpl; [exact Hst|].
  unfold sightings in Hlt.
  destruct (apply_op_thresholds self o) as [Hthr _].
  destruct o as [u' d|].
  - destruct (decide (u' = u)) as [->|Hne].
    + destruct d; simpl in Hlt.
      * rewrite bool_decide_eq_true_2 in Hlt by reflexivity.
        rewrite length_cons in Hlt.
        apply IH; rewrite ?Hthr, (state_of_detect self u true); unfold on_detected; simpl.
        -- rewrite Hst. destruct (Z.leb_spec (detection_threshold self)
                                  (consecutive_detections (state_of self u) + 1));
             [lia|reflexivity].
        -- unfold sightings. lia.
        -- lia.
      * apply IH; rewrite ?Hthr, (state_of_detect self u false); unfold on_missed;
          destruct (_ <? _); simpl; auto; unfold sightings; lia.
    + assert (Es : List.filter (is_sighting u) (Detect u' d :: ops)
                   = List.filter (is_sighting u) ops).
      { simpl. destruct d; [rewrite bool_decide_eq_false_2 by exact Hne|]; reflexivity. }
      rewrite Es in Hlt.
      apply IH; rewrite ?Hthr, (state_of_detect_other self u u' d Hne); auto.
  - simpl in Hlt. apply IH; rewrite ?Hthr, state_of_next_frame; auto.
Qed.

(** C4.  Detection stability of one identity [u].
    (1) After a run of calls in which [u] is never missed and is matched at
        least [detection_threshold] times, [u] is stable; an identity
        matched fewer than [detection_threshold] times since it was first
        seen is not.
    (2) Once stable, [u] stays stable through any run of calls in which it
        is not missed.
    (3) A single call turns a stable [u] unstable only if it is a miss of
        [u] made more than [detection_cooldown] frames after [u] was last
        seen, and then the count is reset to 0 as well; such a miss does
        reset, and a miss within the cooldown changes nothing. *)
Theorem detection_stability self u :
  (forall ops,
      forallb (fun o => negb (is_miss u o)) ops = true ->
      0 <= consecutive_detections (state_of self u) ->
      (0 < sightings u ops)%nat ->
      detection_threshold self <= Z.of_nat (sightings u ops) ->
      is_stable (state_of (run self ops) u) = true)
  /\ (forall ops,
         detection_history self !! u = None ->
         Z.of_nat (sightings u ops) < detection_threshold self ->
         is_stable (state_of (run self ops) u) = false)
  /\ (forall ops,
         is_stable (state_of self u) = true ->
         forallb (fun o => negb (is_miss u o)) ops = true ->
         is_stable (state_of (run self ops) u) = true)
  /\ (forall o : Op,
         is_stable (state_of self u) = true ->
         is_stable (state_of (apply_op self o) u) = false ->
         o = Detect u false
         /\ detection_cooldown self < frame_count self - last_seen (state_of self u)
         /\ consecutive_detections (state_of (apply_op self o) u) = 0)
  /\ (is_stable (state_of self u) = true ->
      (detection_cooldown self < frame_count self - last_seen (state_of self u) ->
       is_stable (state_of (apply_op self (Detect u false)) u) = false
       /\ consecutive_detections (state_of (apply_op self (Detect u false)) u) = 0)
      /\ (frame_count self - last_seen (state_of self u) <= detection_cooldown self ->
          state_of (apply_op self (Detect u false)) u = state_of self u)).
Proof.
  split; [|split; [|split; [|split]]].
  - intros ops Hnm Hc Hpos Hthr. apply stable_after_sightings; [exact Hnm|].
    right. repeat split; [exact Hc|exact Hpos|lia].
  - intros ops Hnone Hlt.
    assert (Hfresh : state_of self u = fresh_state) by (unfold state_of; rewrite Hnone; reflexivity).
    apply unstable_before_threshold; rewrite Hfresh; simpl; [reflexivity|lia|lia].
  - intros ops Hst Hnm. apply stable_after_sightings; [exact Hnm|]. left. exact Hst.
  - intros o Hst Hun.
    destruct (is_miss u o) eqn:Em.
    + destruct o as [u' [|]|]; simpl in Em; try discriminate.
      apply bool_decide_eq_true_1 in Em. subst u'.
      rewrite (state_of_detect self u false) in Hun |- *.
      unfold on_missed in *.
      destruct (Z.ltb_spec (detection_cooldown self)
                           (frame_count self - last_seen (state_of self u))) as [Hlt|Hge].
      * repeat split; [exact Hlt].
      * congruence.
    + destruct (step_not_miss self u o Em) as (Hkeep & _). simpl in Hkeep.
      rewrite (Hkeep Hst) in Hun. discriminate.
  - intros Hst. rewrite (state_of_detect self u false). unfold on_missed. split.
    + intros Hlt. destruct (Z.ltb_spec (detection_cooldown self)
                              (frame_count self - last_seen (state_of self u)));
        [split; reflexivity|lia].
    + intros Hle. destruct (Z.ltb_spec (detection_cooldown self)
                              (frame_count self - last_seen (state_of self u)));
        [lia|reflexivity].
Qed.

Lemma detection_stability_witness :
  is_stable (state_of (run init five_sightings) "alice") = true
  /\ is_stable (state_of (run init (firstn 12 five_sightings)) "alice") = false
  /\ is_stable (state_of (run (run init five_sightings) (missed_for 15)) "alice") = true
  /\ is_stable (state_of (run (run init five_sightings) (missed_for 16)) "alice") = false.
Proof.
  destruct (detection_stability init "alice") as (H1 & H2 & _).
  split; [apply H1; [reflexivity | vm_compute; discriminate | vm_compute; lia
                    | vm_compute; discriminate]|].
  split; [apply H2; vm_compute; reflexivity|].
  split; vm_compute; reflexivity.
Defined.

End TrackerFacts.

(* ===================================================================== *)
(** ** The database                                                       *)
(* ===================================================================== *)

Section DatabaseFacts.
Import Database App.

Implicit Types (d : DB) (u date : string) (now : Py.Clock).

Lemma length_insert_item {A} (kv : string * A) (l : list (string * A)) :
  List.length (Json.insert_item kv l) = S (List.length l).
Proof.
  induction l as [|kv' l IH]; simpl; [reflexivity|].
  destruct (String.leb (fst kv) (fst kv')); simpl; [reflexivity|]. rewrite IH. reflexivity.
Qed.

Lemma length_sort_items {A} (l : list (string * A)) :
  List.length (Json.sort_items l) = List.length l.
Proof.
  induction l as [|kv l IH]; simpl; [reflexivity|].
  rewrite length_insert_item, IH. reflexivity.
Qed.

Lemma length_order_by_timestamp_desc (rows : list AttendanceRow) :
  List.length (order_by_timestamp_desc rows) = List.length rows.
Proof.
  unfold order_by_timestamp_desc.
  rewrite length_rev, length_map, length_sort_items, length_map, length_rev. reflexivity.
Qed.

Lemma truthy_some (s : string) : s <> EmptyString -> Py.truthy (Some s) = true.
Proof.
  intros H. unfold Py.truthy. apply negb_true_iff. apply String.eqb_neq. exact H.
Qed.

(** The SELECT of [mark_attendance] and the row count agree. *)
Lemma already_marked_rows d u date :
  already_marked d u date = negb (Nat.eqb (rows_for u date d) 0).
Proof.
  unfold already_marked, rows_for.
  induction (attendance d) as [|r l IH]; simpl; [reflexivity|].
  destruct (String.eqb (a_user_id r) u && String.eqb (a_date r) date); simpl;
    [reflexivity|exact IH].
Qed.

(** The pre-check of the loop body finds a record exactly when there is a
    row for the identity and the date. *)
Lemma precheck_rows d u date :
  u <> EmptyString -> date <> EmptyString ->
  (get_attendance_records d (Some date) (Some u) 100 = [] <-> rows_for u date d = 0%nat).
Proof.
  intros Hu Hd. unfold get_attendance_records, rows_for.
  rewrite (truthy_some u Hu), (truthy_some date Hd).
  set (m1 := fun r : AttendanceRow => _ && _).
  set (m2 := fun r : AttendanceRow => _ && _).
  assert (Hm : List.filter m1 (attendance d) = List.filter m2 (attendance d)).
  { apply List.filter_ext. intros r. unfold m1, m2. apply andb_comm. }
  rewrite Hm.
  pose proof (length_order_by_timestamp_desc (List.filter m2 (attendance d))) as Hlen.
  destruct (order_by_timestamp_desc (List.filter m2 (attendance d))) as [|r l];
    simpl in *; split; intros H; try lia; try reflexivity; discriminate.
Qed.

Lemma rows_for_update_user_statistics d ts u' u date :
  rows_for u date (update_user_statistics d ts u') = rows_for u date d.
Proof. reflexivity. Qed.

(** What [mark_attendance] does to the row count of any identity and date:
    on a conflict nothing changes; otherwise the pair marked gains exactly
    one row, and no other pair gains or loses any. *)
Lemma mark_attendance_rows d now user_id name regno (ls : Q) emotion (eng : Q)
      (bh : option string) (enc : list Z) (conf : Q) location u date :
  let result := mark_attendance d now user_id name regno ls emotion eng bh enc conf location in
  (rows_for user_id (Py.date now) d <> 0%nat ->
     result = (d, (false, "Already marked today"%string)))
  /\ (rows_for user_id (Py.date now) d = 0%nat ->
        snd result = (true, "Success"%string)
        /\ rows_for u date (fst result)
           = (rows_for u date d
              + if String.eqb user_id u && String.eqb (Py.date now) date then 1 else 0)%nat).
Proof.
  simpl. unfold mark_attendance. rewrite already_marked_rows.
  split; intros H.
  - destruct (Nat.eqb_spec (rows_for user_id (Py.date now) d) 0); [contradiction|].
    reflexivity.
  - rewrite H. simpl. split; [reflexivity|].
    unfold write_mark. rewrite rows_for_update_user_statistics.
    unfold rows_for, insert_attendance. simpl.
    rewrite List.filter_app, List.length_app. simpl.
    destruct (String.eqb user_id u && String.eqb (Py.date now) date); reflexivity.
Qed.

(** *** Uniqueness *)

Lemma filter_filter_le {A} (P Q : A -> bool) (l : list A) :
  (List.length (List.filter P (List.filter Q l)) <= List.length (List.filter P l))%nat.
Proof.
  induction l as [|x l IH]; simpl; [lia|].
  destruct (Q x), (P x) eqn:E; simpl; rewrite ?E; simpl; lia.
Qed.

Lemma filter_filter_none {A} (P Q : A -> bool) (l : list A) :
  (forall x, P x = true -> Q x = false) ->
  List.filter P (List.filter Q l) = [].
Proof.
  intros H. induction l as [|x l IH]; simpl; [reflexivity|].
  destruct (Q x) eqn:EQ; [|exact IH]. simpl.
  destruct (P x) eqn:EP; [|exact IH]. rewrite (H x EP) in EQ. discriminate.
Qed.

Lemma insert_or_replace_user_unique d (row : UserRow) :
  users_unique d -> users_unique (insert_or_replace_user d row).
Proof.
  intros Hd r. unfold regno_count, insert_or_replace_user. simpl.
  rewrite List.filter_app, List.length_app. simpl.
  destruct (has_regno r row) eqn:Erow; simpl.
  - rewrite filter_filter_none; [simpl; lia|].
    intros x Hx. apply negb_false_iff. unfold users_conflict.
    unfold has_regno in Erow, Hx.
    destruct (u_registration_number x) as [a|]; [|discriminate].
    destruct (u_registration_number row) as [b|]; [|discriminate].
    apply String.eqb_eq in Erow, Hx. subst.
    rewrite String.eqb_refl. apply orb_true_r.
  - pose proof (filter_filter_le (has_regno r)
                  (fun old => negb (users_conflict row old)) (users d)) as Hle.
    specialize (Hd r). unfold regno_count in Hd. lia.
Qed.

(** C8, as the code has it.  Uniqueness of [registration_number] is
    enforced by the storage layer: whatever row [INSERT OR REPLACE INTO
    users] is given, the table keeps at most one user per registration
    number, and so does [add_user].  For [attendance], uniqueness of
    ([user_id], [date]) is kept by [mark_attendance], whose SELECT precedes
    its INSERT: a call made on a table with at most one row per user and
    date leaves such a table, and it either leaves the rows as they were or
    adds one whole row. *)
Theorem uniqueness_enforcement :
  (forall d (row : UserRow),
      users_unique d -> users_unique (insert_or_replace_user d row))
  /\ (forall d now user_id name (enc : list Z)
             (registration_number email department phone created_by : option string),
         users_unique d ->
         users_unique (fst (add_user d now user_id name enc registration_number
                                     email department phone created_by)))
  /\ (forall d now user_id name regno (ls : Q) emotion (eng : Q) (bh : option string)
             (enc : list Z) (conf : Q) location,
         let result := mark_attendance d now user_id name regno ls emotion eng bh enc
                                       conf location in
         (attendance_unique d -> attendance_unique (fst result))
         /\ (attendance (fst result) = attendance d
             \/ exists row, attendance (fst result) = attendance d ++ [row])).
Proof.
  split; [exact insert_or_replace_user_unique|]. split.
  - intros d now user_id name enc rn email department phone created_by Hd.
    unfold add_user. destruct (_ && _); simpl; [exact Hd|].
    apply insert_or_replace_user_unique, Hd.
  - intros d now user_id name regno ls emotion eng bh enc conf location. cbv zeta. split.
    + intros Hd u date.
      destruct (mark_attendance_rows d now user_id name regno ls emotion eng bh enc conf
                                     location u date) as [Hconflict Hfresh].
      destruct (Nat.eq_dec (rows_for user_id (Py.date now) d) 0%nat) as [H0|Hn0].
      * destruct (Hfresh H0) as [_ ->].
        destruct (String.eqb_spec user_id u) as [->|]; simpl; [|specialize (Hd u date); lia].
        destruct (String.eqb_spec (Py.date now) date) as [<-|]; simpl;
          [lia|specialize (Hd u date); lia].
      * rewrite (Hconflict Hn0). simpl. apply Hd.
    + unfold mark_attendance. destruct (already_marked d user_id (Py.date now)); simpl;
        [left; reflexivity|right; eauto].
Qed.

(** The example table holds one attendance row and one user per
    registration number. *)
Lemma example_marked_unique : attendance_unique example_marked /\ users_unique example_marked.
Proof.
  split.
  - intros user_id date. unfold rows_for.
    eapply Nat.le_trans; [apply List.filter_length_le|]. vm_compute. lia.
  - intros r. unfold regno_count.
    set (us := users example_marked). vm_compute in us. subst us.
    cbn [List.filter has_regno u_registration_number].
    destruct (String.eqb_spec "R002" r) as [<-|];
      [change (String.eqb "R001" "R002") with false|destruct (String.eqb "R001" r)];
      cbn [List.length]; lia.
Defined.

(** On a table that already holds Alice's row of the day and the
    registration numbers R001 and R002: a second [mark_attendance] for
    Alice on that day is answered ["Already marked today"] and the table
    keeps one row for her; registering Carol under Alice's number R001 is
    refused by [add_user], and the bare [INSERT OR REPLACE] of such a row
    removes Alice's row, so that R001 still has one holder. *)
Lemma uniqueness_enforcement_witness :
  let again := mark_attendance example_marked example_clock "alice" "Alice" "R001" 0.9
                               "Neutral" 50 None [1; 2; 3] 0.625 "Main Campus" in
  let carol := mkUserRow "carol" "Carol" (Some "R001"%string) None None None
                         "2025-01-01 10:00:00" None 0 None 1 0 None None in
  let refused := add_user example_marked example_clock "carol" "Carol" [7; 8; 9]
                          (Some "R001"%string) None None None None in
  (attendance_unique (fst again)
   /\ snd again = (false, "Already marked today"%string)
   /\ rows_for "alice" "2025-01-01" (fst again) = 1%nat)
  /\ (users_unique (insert_or_replace_user example_marked carol)
      /\ regno_count "R001" (insert_or_replace_user example_marked carol) = 1%nat
      /\ List.map u_user_id (users (insert_or_replace_user example_marked carol))
         = ["bob"%string; "carol"%string])
  /\ (users_unique (fst refused) /\ snd refused = false).
Proof.
  cbv zeta. destruct uniqueness_enforcement as (Hreplace & Husers & Hatt).
  destruct example_marked_unique as [Ha Hu].
  split; [split; [|split]|split; [split; [|split]|split]].
  - apply (Hatt example_marked example_clock "alice"%string "Alice"%string "R001"%string
                0.9%Q "Neutral"%string 50%Q None [1; 2; 3] 0.625%Q "Main Campus"%string).
    exact Ha.
  - reflexivity.
  - reflexivity.
  - apply Hreplace. exact Hu.
  - reflexivity.
  - reflexivity.
  - apply Husers. exact Hu.
  - reflexivity.
Defined.

(** The table itself accepts a second row for the same user and date.  Two
    writers that both run the SELECT of [mark_attendance] before either
    runs its INSERT both find no row, and both rows are stored. *)
Lemma attendance_table_accepts_duplicates :
  let select_a := already_marked empty "alice" "2025-01-01" in
  let select_b := already_marked empty "alice" "2025-01-01" in
  let after_a := write_mark empty example_clock "alice" "Alice" "R001" 0.9 "Neutral" 50
                            None [1; 2; 3] 0.625 "Main Campus" in
  let after_b := write_mark after_a example_clock "alice" "Alice" "R001" 0.9 "Neutral" 50
                            None [1; 2; 3] 0.625 "Main Campus" in
  select_a = false /\ select_b = false
  /\ rows_for "alice" "2025-01-01" after_b = 2%nat
  /\ ~ attendance_unique after_b.
Proof.
  simpl. repeat split. intros H. specialize (H "alice"%string "2025-01-01"%string).
  vm_compute in H. lia.
Qed.

End DatabaseFacts.

(* ===================================================================== *)
(** ** The marking path                                                   *)
(* ===================================================================== *)

Section AppFacts.
Import Database App.

Variable float_repr : Q -> string.

(** The identity and the calendar day under consideration. *)
Variables (u today : string).
Hypothesis u_nonempty : u <> EmptyString.
Hypothesis today_nonempty : today <> EmptyString.

Implicit Types (s : State) (f : Face) (o : Observed) (e : Event).

Local Abbreviation recognized s := (Tracker.recognized_today (tracker s)).
Local Abbreviation rows s := (rows_for u today (db s)).
Local Abbreviation blocks s := (blocks_for u today (blockchain s)).
Local Abbreviation consistent s := (App.consistent u today s).
Local Abbreviation same_day events := (App.same_day today events).
Local Abbreviation stable_and_live_here s e := (App.stable_and_live_here u s e).

Lemma prefix_app (a b : string) : String.prefix a (a ++ b) = true.
Proof.
  induction a as [|c a IH]; simpl.
  - destruct b; reflexivity.
  - destruct (ascii_dec c c); [exact IH|congruence].
Qed.

Lemma last_nonempty {A} (l : list A) : l <> [] -> exists x, last l = Some x.
Proof.
  intros H. destruct (last l) as [x|] eqn:E; [eauto|].
  apply last_None in E. contradiction.
Qed.

(** [observe] leaves the database, the ledger and the flags alone; of the
    recognised set it changes at most the membership of the face's own
    identity, which it adds exactly when the database pre-check finds a
    record. *)
Lemma observe_frame s f :
  let o := observe s f in
  db (o_state o) = db s /\ blockchain (o_state o) = blockchain s
  /\ config (o_state o) = config s
  /\ recognized (o_state o)
     = match get_attendance_records (db s) (Some (Py.date (face_now f)))
                                    (Some (face_user_id f)) 100 with
       | [] => recognized s
       | _ :: _ => {[face_user_id f]} ∪ recognized s
       end.
Proof.
  unfold observe.
  destruct (get_attendance_records _ _ _ _) as [|r l];
    destruct (enable_antispoofing (config s)); simpl; auto.
Qed.

(** The block appended for a face counts for [u] on [today] exactly when
    the face is [u]'s and its clock shows [today]. *)
Lemma block_is_for_attendance_data (nb : Ledger.Block) user_id name regno now
      (ls conf : Q) emotion (eng : Q) :
  Ledger.data nb = attendance_data float_repr user_id name regno now ls conf emotion eng ->
  Py.date now = today ->
  block_is_for u today nb = String.eqb user_id u.
Proof.
  intros Hd Hnow. unfold block_is_for. rewrite Hd. simpl.
  unfold Py.isoformat. rewrite Hnow, prefix_app, andb_true_r. reflexivity.
Qed.

(** The effect of the marking branch on the two counts and on the set. *)
Lemma mark_counts (fuel : nat) o f s' :
  enable_blockchain (config (o_state o)) = true ->
  blockchain (o_state o) <> [] ->
  Py.date (face_now f) = today ->
  mark float_repr fuel o f = Some s' ->
  let s := o_state o in
  let hit := if String.eqb (face_user_id f) u then 1%nat else 0%nat in
  config s' = config s /\ blockchain s' <> []
  /\ blocks s' = (blocks s + hit)%nat
  /\ (rows_for (face_user_id f) today (db s) = 0%nat ->
      rows s' = (rows s + hit)%nat
      /\ recognized s' = {[face_user_id f]} ∪ recognized s)
  /\ (rows_for (face_user_id f) today (db s) <> 0%nat ->
      db s' = db s /\ recognized s' = recognized s).
Proof.
  intros Hbc Hne Hdate Hmark. cbv zeta. unfold mark in Hmark.
  rewrite Hbc in Hmark.
  destruct (last_nonempty _ Hne) as [latest Hlast].
  set (triple := if enable_emotion (config (o_state o)) then _ else _) in Hmark.
  destruct triple as [[det emotion] engagement].
  unfold Ledger.add_block, Ledger.get_latest_block in Hmark. rewrite Hlast in Hmark.
  destruct (Ledger.mine_block fuel Ledger.difficulty _) as [nb|] eqn:Emine;
    [|discriminate].
  apply mine_block_inv in Emine. destruct Emine as (_ & _ & _ & Hdata & _).
  assert (Hblk : block_is_for u today nb = String.eqb (face_user_id f) u).
  { eapply block_is_for_attendance_data; [|exact Hdate]. rewrite Hdata. reflexivity. }
  pose proof (mark_attendance_rows (db (o_state o)) (face_now f) (face_user_id f)
                (face_name f) (o_regno o) (o_liveness_score o) emotion engagement
                (Some (Ledger.hash nb)) (face_encoding f) (face_confidence f / 100)%Q
                "Main Campus" u today) as Hrows.
  cbv zeta in Hrows. rewrite Hdate in Hrows. destruct Hrows as [Hconflict Hfresh].
  destruct (mark_attendance _ _ _ _ _ _ _ _ _ _ _ _) as [d' [success msg]] eqn:Em.
  injection Hmark as <-. simpl.
  assert (Hb : blocks_for u today (blockchain (o_state o) ++ [nb])
               = (blocks_for u today (blockchain (o_state o))
                  + if String.eqb (face_user_id f) u then 1 else 0)%nat).
  { unfold blocks_for. rewrite List.filter_app, List.length_app. simpl. rewrite Hblk.
    destruct (String.eqb (face_user_id f) u); reflexivity. }
  split; [reflexivity|]. split; [intros H; apply app_eq_nil in H as [_ H]; discriminate|].
  split; [exact Hb|]. split.
  - intros H0. destruct (Hfresh H0) as [Hs Hr]. simpl in Hs, Hr.
    injection Hs as -> ->. split; [|reflexivity].
    rewrite Hr, String.eqb_refl, andb_true_r. reflexivity.
  - intros Hn0. specialize (Hconflict Hn0). injection Hconflict as -> -> ->.
    split; reflexivity.
Qed.

Local Ltac five := split; [|split; [|split; [|split]]].
Local Ltac no_change := exists 0%nat; split; [left; reflexivity|split; lia].

Lemma step_counts (fuel : nat) s e s' :
  enable_blockchain (config s) = true ->
  blockchain s <> [] ->
  (event_date e = None \/ event_date e = Some today) ->
  consistent s ->
  step float_repr fuel s e = Some s' ->
  config s' = config s /\ blockchain s' <> [] /\ consistent s'
  /\ (exists k : nat, (k = 0 \/ (k = 1 /\ rows s = 0))%nat
                      /\ rows s' = (rows s + k)%nat /\ blocks s' = (blocks s + k)%nat)
  /\ (stable_and_live_here s e = true -> rows s' <> 0%nat).
Proof.
  intros Hbc Hne Hdate Hcons Hstep. unfold App.consistent in *.
  destruct e as [f|uid| |]; simpl in Hstep.
  2,3: injection Hstep as <-; simpl; five;
       [reflexivity|exact Hne|exact Hcons|no_change|discriminate].
  2: { injection Hstep as <-; simpl; five;
       [reflexivity|exact Hne|intros Hin; exfalso; set_solver|no_change|discriminate]. }
  destruct Hdate as [Hdate|Hdate]; [discriminate|]. simpl in Hdate.
  injection Hdate as Hdate.
  unfold process_face in Hstep. unfold App.stable_and_live_here.
  destruct (observe_frame s f) as (Hdb & Hch & Hcfg & Hrec). cbv zeta in *.
  set (o := observe s f) in *. rewrite Hdate in Hrec.
  destruct (String.eqb_spec (face_user_id f) u) as [Heq|Hneq]; cbn [andb].
  - (* the face is [u]'s *)
    rewrite Heq in Hrec.
    destruct (Nat.eq_dec (rows s) 0%nat) as [H0|Hn0].
    + (* no row yet: the pre-check finds nothing *)
      rewrite (proj2 (precheck_rows (db s) u today u_nonempty today_nonempty) H0) in Hrec.
      assert (Hnotin : u ∉ recognized (o_state o)).
      { rewrite Hrec. intros Hin. apply Hcons in Hin. contradiction. }
      unfold marking_due in Hstep. rewrite Heq in Hstep.
      rewrite (bool_decide_eq_false_2 _ Hnotin), andb_true_r in Hstep.
      destruct (o_is_stable o && o_is_live o) eqn:Esl.
      * destruct (mark_counts fuel o f s') as (Hc' & Hne' & Hb' & Hr' & _);
          rewrite ?Hcfg, ?Hch; auto.
        cbv zeta in *. rewrite Heq, String.eqb_refl, ?Hdb, ?Hch in *.
        destruct (Hr' H0) as [Hrows' Hrec'].
        five.
        -- congruence.
        -- exact Hne'.
        -- intros _. lia.
        -- exists 1%nat. split; [right; split; [reflexivity|exact H0]|].
           split; [exact Hrows'|exact Hb'].
        -- intros _. lia.
      * injection Hstep as <-. rewrite Hdb, Hch, Hcfg. five.
        -- reflexivity.
        -- exact Hne.
        -- intros Hin. contradiction.
        -- no_change.
        -- discriminate.
    + (* a row exists: the pre-check adds [u] to the set, nothing is marked *)
      destruct (get_attendance_records (db s) (Some today) (Some u) 100) as [|r l] eqn:Eget.
      { apply (precheck_rows (db s) u today u_nonempty today_nonempty) in Eget.
        contradiction. }
      assert (Hin : u ∈ recognized (o_state o)) by (rewrite Hrec; set_solver).
      unfold marking_due in Hstep. rewrite Heq in Hstep.
      rewrite (bool_decide_eq_true_2 _ Hin), andb_false_r in Hstep.
      injection Hstep as <-. rewrite Hdb, Hch, Hcfg. five.
      -- reflexivity.
      -- exact Hne.
      -- intros _. exact Hn0.
      -- no_change.
      -- intros _. exact Hn0.
  - (* another identity's face *)
    assert (Hsame : u ∈ recognized (o_state o) <-> u ∈ recognized s).
    { rewrite Hrec. destruct (get_attendance_records _ _ _ _); [tauto|set_solver]. }
    apply String.eqb_neq in Hneq.
    destruct (marking_due o f) eqn:Edue.
    + destruct (mark_counts fuel o f s') as (Hc' & Hne' & Hb' & Hr' & Hk');
        rewrite ?Hcfg, ?Hch; auto.
      cbv zeta in *. rewrite Hneq, ?Hdb, ?Hch, ?Nat.add_0_r in *.
      assert (Hrows : rows s' = rows s /\ (u ∈ recognized s' <-> u ∈ recognized s)).
      { destruct (Nat.eq_dec (rows_for (face_user_id f) today (db s)) 0%nat) as [H0|Hn0].
        - destruct (Hr' H0) as [-> ->]. split; [reflexivity|].
          apply String.eqb_neq in Hneq. rewrite <- Hsame. set_solver.
        - destruct (Hk' Hn0) as [-> ->]. split; [reflexivity|]. exact Hsame. }
      destruct Hrows as [Hrows Hmem]. five.
      * congruence.
      * exact Hne'.
      * intros Hin. rewrite Hrows. apply Hcons, Hmem, Hin.
      * exists 0%nat. split; [left; reflexivity|]. split; lia.
      * discriminate.
    + injection Hstep as <-. rewrite Hdb, Hch, Hcfg. five.
      * reflexivity.
      * exact Hne.
      * intros Hin. apply Hcons, Hsame, Hin.
      * no_change.
      * discriminate.
Qed.

(** A step of the loop fails to return only when a proof-of-work search
    exhausts its budget. *)
Lemma step_fails_only_in_mining (fuel : nat) s e :
  step float_repr fuel s e = None ->
  exists b, Ledger.mine_block fuel Ledger.difficulty b = None.
Proof.
  destruct e as [f|uid| |]; simpl; try discriminate.
  unfold process_face. destruct (marking_due _ _); [|discriminate].
  unfold mark.
  set (triple := if enable_emotion _ then _ else _).
  destruct triple as [[det emotion] engagement].
  destruct (enable_blockchain _).
  - unfold Ledger.add_block.
    destruct (Ledger.get_latest_block _) as [latest|].
    + destruct (Ledger.mine_block fuel Ledger.difficulty _) as [nb|] eqn:E.
      * destruct (mark_attendance _ _ _ _ _ _ _ _ _ _ _ _) as [d' [success msg]].
        discriminate.
      * intros _. eexists. exact E.
    + destruct (mark_attendance _ _ _ _ _ _ _ _ _ _ _ _) as [d' [success msg]].
      discriminate.
  - destruct (mark_attendance _ _ _ _ _ _ _ _ _ _ _ _) as [d' [success msg]].
    discriminate.
Qed.

Lemma run_counts (fuel : nat) (events : list Event) : forall s s',
  enable_blockchain (config s) = true ->
  blockchain s <> [] ->
  same_day events ->
  consistent s ->
  run float_repr fuel s events = Some s' ->
  (rows s <= rows s')%nat
  /\ (rows s <= 1 -> rows s' <= 1)%nat
  /\ (rows s <> 0 -> rows s' = rows s)%nat
  /\ (blocks s' + rows s = blocks s + rows s')%nat
  /\ (seen_stable_and_live float_repr fuel s events u = true -> rows s' <> 0%nat).
Proof.
  induction events as [|e events IH]; intros s s' Hbc Hne Hday Hcons Hrun; simpl in Hrun.
  - injection Hrun as <-. five; try lia. simpl. discriminate.
  - inversion Hday as [|e0 es He Hes]; subst.
    destruct (step float_repr fuel s e) as [s1|] eqn:Estep; [|discriminate].
    destruct (step_counts fuel s e s1 Hbc Hne He Hcons Estep)
      as (Hcfg & Hne1 & Hcons1 & (k & Hk & Hr & Hb) & Hhere).
    rewrite <- Hcfg in Hbc.
    destruct (IH s1 s' Hbc Hne1 Hes Hcons1 Hrun) as (Hmono & Hle & Hkeep & Hbal & Hseen).
    five; try lia.
    simpl. rewrite Estep.
    intros H. apply orb_true_iff in H. destruct H as [H|H].
    + specialize (Hhere H). lia.
    + apply Hseen, H.
Qed.

(** C9, as the code has it.  Let the marking branch run while the table
    already holds a row for ([u], [today]), so that [mark_attendance]
    answers [(False, "Already marked today")].  The branch raises no error
    and writes no row; it leaves the recognised set as it was (the set is
    updated on success only).  At the next matched face of [u] that day the
    database pre-check puts [u] into the set and the marking branch is not
    entered: the database and the ledger are untouched.  From then on no
    run of the loop on that day writes a row or appends a block for
    ([u], [today]). *)
Theorem conflict_is_absorbed (fuel : nat) o f (s1 : State) :
  face_user_id f = u ->
  Py.date (face_now f) = today ->
  enable_blockchain (config (o_state o)) = true ->
  blockchain (o_state o) <> [] ->
  rows (o_state o) <> 0%nat ->
  mark float_repr fuel o f = Some s1 ->
  (forall (emotion : string) (engagement : Q) (blockchain_hash : option string),
      snd (mark_attendance (db (o_state o)) (face_now f) u (face_name f) (o_regno o)
                           (o_liveness_score o) emotion engagement blockchain_hash
                           (face_encoding f) (face_confidence f / 100)%Q "Main Campus")
      = (false, "Already marked today"%string))
  /\ db s1 = db (o_state o)
  /\ recognized s1 = recognized (o_state o)
  /\ (forall (fuel2 : nat) (f2 : Face),
         face_user_id f2 = u -> Py.date (face_now f2) = today ->
         let s2 := o_state (observe s1 f2) in
         process_face float_repr fuel2 s1 f2 = Some s2
         /\ u ∈ recognized s2 /\ db s2 = db s1 /\ blockchain s2 = blockchain s1)
  /\ (forall (fuel2 : nat) (events : list Event) (s2 : State),
         same_day events ->
         run float_repr fuel2 s1 events = Some s2 ->
         rows s2 = rows s1 /\ blocks s2 = blocks s1).
Proof.
  intros Hu Hdate Hbc Hne Hn0 Hmark.
  destruct (mark_counts fuel o f s1 Hbc Hne Hdate Hmark) as (Hcfg & Hne1 & _ & _ & Hkeep).
  cbv zeta in Hkeep. rewrite Hu in Hkeep. destruct (Hkeep Hn0) as [Hdb Hrec].
  five.
  - intros emotion engagement blockchain_hash.
    pose proof (mark_attendance_rows (db (o_state o)) (face_now f) u (face_name f)
                  (o_regno o) (o_liveness_score o) emotion engagement blockchain_hash
                  (face_encoding f) (face_confidence f / 100)%Q "Main Campus" u today)
      as [Hc _].
    rewrite Hdate in Hc. rewrite (Hc Hn0). reflexivity.
  - exact Hdb.
  - exact Hrec.
  - intros fuel2 f2 Hu2 Hdate2. cbv zeta.
    destruct (observe_frame s1 f2) as (Hdb2 & Hch2 & _ & Hrec2). cbv zeta in *.
    rewrite Hu2, Hdate2 in Hrec2.
    destruct (get_attendance_records (db s1) (Some today) (Some u) 100) as [|r l] eqn:Eget.
    { apply (precheck_rows (db s1) u today u_nonempty today_nonempty) in Eget.
      rewrite Hdb in Eget. contradiction. }
    assert (Hin : u ∈ recognized (o_state (observe s1 f2))) by (rewrite Hrec2; set_solver).
    unfold process_face, marking_due. rewrite Hu2.
    rewrite (bool_decide_eq_true_2 _ Hin), andb_false_r.
    repeat split; assumption.
  - intros fuel2 events s2 Hday Hrun.
    assert (Hcons1 : consistent s1) by (intros _; rewrite Hdb; exact Hn0).
    rewrite <- Hcfg in Hbc.
    destruct (run_counts fuel2 events s1 s2 Hbc Hne1 Hday Hcons1 Hrun)
      as (_ & _ & Hsame & Hbal & _).
    rewrite Hdb in Hsame. specialize (Hsame Hn0). rewrite Hdb. split; [exact Hsame|].
    rewrite Hdb in Hbal. lia.
Qed.

End AppFacts.

(* ===================================================================== *)
(** ** A worked session                                                   *)
(* ===================================================================== *)

Section WorkedSession.
Import Ledger Database App.

Lemma example_run_ends :
  exists s, run example_float_repr 10 example_start example_events = Some s
            /\ blockchain s = example_chain.
Proof.
  destruct (run example_float_repr 10 example_start example_events) as [s|] eqn:E.
  - exists s. split; [reflexivity|].
    assert (H : option_map blockchain
                  (run example_float_repr 10 example_start example_events)
                = Some example_chain) by (vm_compute; reflexivity).
    rewrite E in H. injection H as H. exact H.
  - exfalso.
    assert (H : option_map blockchain
                  (run example_float_repr 10 example_start example_events)
                = Some example_chain) by (vm_compute; reflexivity).
    rewrite E in H. discriminate.
Qed.

Lemma evening_run :
  run example_float_repr 10 example_start evening_events = Some at_midnight.
Proof.
  assert (H : match run example_float_repr 10 example_start evening_events with
              | Some _ => true
              | None => false
              end = true) by (vm_compute; reflexivity).
  unfold at_midnight.
  destruct (run example_float_repr 10 example_start evening_events);
    [reflexivity|discriminate H].
Qed.

Lemma night_run :
  run example_float_repr 10 at_midnight night_events = Some after_night.
Proof.
  assert (H : match run example_float_repr 10 at_midnight night_events with
              | Some _ => true
              | None => false
              end = true) by (vm_compute; reflexivity).
  unfold after_night.
  destruct (run example_float_repr 10 at_midnight night_events);
    [reflexivity|discriminate H].
Qed.

(** C1, where the code departs from it.  A session is started on
    2025-01-01 and is still running after midnight.  Before midnight
    Alice is found stable and live and is marked: one row and one block
    for (alice, 2025-01-01), and she is put into [recognized_today].
    After midnight the loop reads the new date off the clock and its
    database pre-check finds no row for (alice, 2025-01-02); it finds
    Alice stable and live in each of the six processed frames; but
    [recognized_today], which is emptied only when a session starts, still
    holds her, so the marking branch is never entered: the run ends with
    no row and no block for (alice, 2025-01-02), where the claim has
    exactly one of each. *)
Theorem session_past_midnight_marks_nothing :
  run example_float_repr 10 example_start evening_events = Some at_midnight
  /\ run example_float_repr 10 at_midnight night_events = Some after_night
  /\ rows_for "alice" "2025-01-01" (db at_midnight) = 1%nat
  /\ blocks_for "alice" "2025-01-01" (blockchain at_midnight) = 1%nat
  /\ bool_decide ("alice"%string ∈ Tracker.recognized_today (tracker at_midnight)) = true
  /\ get_attendance_records (db at_midnight) (Some "2025-01-02"%string)
                            (Some "alice"%string) 100 = []
  /\ stable_and_live_along example_float_repr 10 at_midnight night_events "alice"
     = concat (repeat [false; false; true] 6)
  /\ seen_stable_and_live example_float_repr 10 at_midnight night_events "alice" = true
  /\ rows_for "alice" "2025-01-02" (db after_night) = 0%nat
  /\ blocks_for "alice" "2025-01-02" (blockchain after_night) = 0%nat
  /\ db after_night = db at_midnight
  /\ blockchain after_night = blockchain at_midnight.
Proof.
  split; [exact evening_run|]. split; [exact night_run|].
  vm_compute. repeat split.
Qed.

Lemma raced_mark_ends :
  exists s', mark example_float_repr 10 raced alice = Some s'
             /\ blockchain s' = example_chain.
Proof.
  assert (H : option_map blockchain (mark example_float_repr 10 raced alice)
              = Some example_chain) by (vm_compute; reflexivity).
  destruct (mark example_float_repr 10 raced alice) as [s'|]; [|discriminate].
  exists s'. split; [reflexivity|]. injection H as H. exact H.
Qed.

Lemma raced_facts :
  marking_due raced alice = true
  /\ enable_blockchain (config (o_state raced)) = true
  /\ blockchain (o_state raced) = [example_genesis]
  /\ rows_for "alice" "2025-01-01" (db (o_state raced)) = 1%nat
  /\ Tracker.recognized_today (tracker (o_state raced)) = ∅.
Proof. vm_compute. repeat split. Qed.

(** On a conflict the recognised set is not updated: the write answers
    [(False, "Already marked today")], and after the marking branch Alice
    is still not in the set. *)
Lemma conflict_leaves_set_unchanged :
  marking_due raced alice = true
  /\ snd (mark_attendance (db (o_state raced)) example_now "alice" "Alice"
                          (o_regno raced) (o_liveness_score raced) "Neutral" 50
                          (Some (Ledger.hash example_block)) [1; 2; 3]
                          (62.5 / 100)%Q "Main Campus")
     = (false, "Already marked today"%string)
  /\ exists s', mark example_float_repr 10 raced alice = Some s'
                /\ "alice"%string ∉ Tracker.recognized_today (tracker s').
Proof.
  destruct raced_facts as (Hdue & Hbc & Hch & Hrows & Hrec).
  split; [exact Hdue|]. split; [vm_compute; reflexivity|].
  destruct raced_mark_ends as (s' & Hmark & _). exists s'. split; [exact Hmark|].
  assert (Hne : blockchain (o_state raced) <> []) by (rewrite Hch; discriminate).
  destruct (mark_counts example_float_repr "alice" "2025-01-01" 10 raced alice s'
                        Hbc Hne eq_refl Hmark) as (_ & _ & _ & _ & Hkeep).
  destruct Hkeep as [_ Hsame].
  - change (face_user_id alice) with "alice"%string. rewrite Hrows. discriminate.
  - rewrite Hsame, Hrec. apply not_elem_of_empty.
Qed.

Lemma conflict_is_absorbed_witness :
  exists s1, mark example_float_repr 10 raced alice = Some s1
             /\ db s1 = db (o_state raced)
             /\ "alice"%string ∈ Tracker.recognized_today
                                   (tracker (o_state (observe s1 alice))).
Proof.
  destruct raced_facts as (Hdue & Hbc & Hch & Hrows & Hrec).
  destruct raced_mark_ends as (s1 & Hmark & _). exists s1. split; [exact Hmark|].
  destruct (conflict_is_absorbed example_float_repr "alice" "2025-01-01"
              ltac:(discriminate) ltac:(discriminate) 10 raced alice s1)
    as (_ & Hdb & _ & Hnext & _).
  - reflexivity.
  - reflexivity.
  - exact Hbc.
  - rewrite Hch. discriminate.
  - rewrite Hrows. discriminate.
  - exact Hmark.
  - split; [exact Hdb|].
    destruct (Hnext 0%nat alice eq_refl eq_refl) as (_ & Hin & _). exact Hin.
Defined.

End WorkedSession.

(* ===================================================================== *)
(** * Part III: further properties of the embedded code                  *)
(* ===================================================================== *)

(* ===================================================================== *)
(** ** The ledger: growth, persistence, queries                           *)
(* ===================================================================== *)

Section LedgerMore.
Import Json Ledger.

(** *** Adding a block *)

Lemma lookup_snoc_last {A} (l : list A) (x : A) : (l ++ [x]) !! List.length l = Some x.
Proof. induction l as [|a l IH]; simpl; [reflexivity|exact IH]. Qed.

Lemma lookup_snoc_before {A} (l : list A) (x : A) (i : nat) :
  (i < List.length l)%nat -> (l ++ [x]) !! i = l !! i.
Proof.
  revert i. induction l as [|a l IH]; intros i Hi; simpl in Hi; [lia|].
  destruct i as [|i]; simpl; [reflexivity|]. apply IH. lia.
Qed.

Lemma last_lookup_length {A} (l : list A) (x : A) :
  last l = Some x -> l <> [] /\ l !! (List.length l - 1)%nat = Some x.
Proof.
  rewrite last_lookup. intros H. split.
  - intros ->. discriminate.
  - replace (List.length l - 1)%nat with (Nat.pred (List.length l)) by lia. exact H.
Qed.

(** The loop of [is_chain_valid] over a chain with one more block. *)
Lemma is_chain_valid_snoc (chain : list Block) (nb : Block) :
  chain <> [] ->
  is_chain_valid (chain ++ [nb])
  = is_chain_valid chain && block_ok (chain ++ [nb]) (List.length chain).
Proof.
  intros Hne. unfold is_chain_valid. rewrite List.length_app. simpl.
  assert (Hlen : (List.length chain + 1 - 1 = (List.length chain - 1) + 1)%nat).
  { destruct chain; [congruence|simpl; lia]. }
  rewrite Hlen, seq_app, forallb_app. simpl.
  rewrite andb_true_r. f_equal.
  - apply forallb_agree. intros i Hi. apply in_seq in Hi.
    unfold block_ok. rewrite !lookup_snoc_before by lia. reflexivity.
  - f_equal. destruct chain; [congruence|simpl; lia].
Qed.

Lemma add_block_inv (fuel : nat) (now : string) (d : value) (chain chain' : list Block)
      (r : option string) :
  add_block fuel now d chain = Some (chain', r) ->
  (chain = [] /\ chain' = [] /\ r = None)
  \/ (exists latest nb,
         last chain = Some latest
         /\ mine_block fuel difficulty
              (new_block (Z.of_nat (List.length chain)) now d (hash latest)) = Some nb
         /\ chain' = chain ++ [nb] /\ r = Some (hash nb)).
Proof.
  unfold add_block, get_latest_block. intros H.
  destruct (last chain) as [latest|] eqn:Hl.
  - right. destruct (mine_block _ _ _) as [nb|] eqn:Hm; [|discriminate].
    injection H as <- <-. exists latest, nb. auto.
  - left. injection H as <- <-. apply last_None in Hl. auto.
Qed.

(** X1.  [add_block] on a chain that has a genesis block appends exactly one
    block and returns its hash.  The new block carries the position it is
    stored at as its index, the clock reading and the payload it was given,
    and the hash of the block that was last; its stored hash is its own
    digest and starts with ["00"].  The chain is valid afterwards exactly
    when it was valid before: adding neither breaks nor repairs it.  On a
    chain with no block, nothing is added and the result is [None]. *)
Theorem add_block_extends (fuel : nat) (now : string) (d : value)
        (chain chain' : list Block) (r : option string) :
  add_block fuel now d chain = Some (chain', r) ->
  (chain = [] -> chain' = [] /\ r = None)
  /\ (chain <> [] ->
      exists latest nb,
        last chain = Some latest
        /\ chain' = chain ++ [nb] /\ r = Some (hash nb)
        /\ index nb = Z.of_nat (List.length chain)
        /\ timestamp nb = now /\ data nb = d
        /\ previous_hash nb = hash latest
        /\ hash nb = calculate_hash nb
        /\ String.prefix "00" (hash nb) = true
        /\ is_chain_valid chain' = is_chain_valid chain).
Proof.
  intros H. destruct (add_block_inv _ _ _ _ _ _ H)
    as [(-> & -> & ->)|(latest & nb & Hl & Hm & -> & ->)].
  - split; [auto|congruence].
  - split; [intros ->; discriminate|]. intros Hne.
    exists latest, nb.
    destruct (mine_block_inv _ _ _ _ Hm) as (Ht & Hi & Hts & Hd & Hp & _ & Hh).
    specialize (Hh eq_refl).
    repeat (split; [first [assumption|reflexivity]|]).
    split; [apply meets_target_2; exact Ht|].
    rewrite is_chain_valid_snoc by exact Hne.
    assert (Hok : block_ok (chain ++ [nb]) (List.length chain) = true).
    { apply block_ok_true. exists nb, latest.
      destruct (last_lookup_length _ _ Hl) as (_ & Hlast).
      rewrite lookup_snoc_last.
      rewrite lookup_snoc_before by (destruct chain; [congruence|simpl; lia]).
      auto. }
    rewrite Hok, andb_true_r. reflexivity.
Qed.

Lemma add_block_extends_witness :
  add_block 10 "2025-01-01 09:05:00.000005" example_payload [example_genesis]
  = Some (example_chain, Some (hash example_block))
  /\ is_chain_valid example_chain = is_chain_valid [example_genesis].
Proof.
  split; [exact example_chain_added|].
  destruct (add_block_extends _ _ _ _ _ _ example_chain_added) as (_ & H).
  destruct H as (latest & nb & _ & _ & _ & _ & _ & _ & _ & _ & _ & Hv); [discriminate|].
  exact Hv.
Defined.

(** *** The chains a [Blockchain] object goes through *)

Lemma block_ok_snoc (chain : list Block) (latest nb : Block) :
  last chain = Some latest ->
  hash nb = calculate_hash nb ->
  previous_hash nb = hash latest ->
  block_ok (chain ++ [nb]) (List.length chain) = true.
Proof.
  intros Hl Hh Hp. apply block_ok_true. exists nb, latest.
  destruct (last_lookup_length _ _ Hl) as (Hne & Hlast).
  rewrite lookup_snoc_last.
  rewrite lookup_snoc_before by (destruct chain; [congruence|simpl; lia]).
  auto.
Qed.

Lemma init_missing (fuel : nat) (created now : string) (chain : list Block) :
  init fuel Missing created now = Some chain ->
  exists g, chain = [g]
            /\ mine_block fuel difficulty (new_block 0 now (genesis_data created) "0")
               = Some g.
Proof.
  unfold init, load_chain, create_genesis_block.
  destruct (mine_block _ _ _) as [g|]; [|discriminate].
  intros H. injection H as <-. exists g. auto.
Qed.

Lemma well_formed_snoc (chain : list Block) (nb : Block) :
  well_formed chain ->
  index nb = Z.of_nat (List.length chain) ->
  hash nb = calculate_hash nb ->
  meets_target difficulty (hash nb) = true ->
  well_formed (chain ++ [nb]).
Proof.
  intros Hwf Hi Hh Ht i b Hb.
  destruct (Nat.lt_ge_cases i (List.length chain)) as [Hlt|Hge].
  - rewrite lookup_snoc_before in Hb by exact Hlt. exact (Hwf i b Hb).
  - assert (Hlen : (i < List.length (chain ++ [nb]))%nat)
      by (apply lookup_lt_is_Some; eauto).
    rewrite List.length_app in Hlen. simpl in Hlen.
    assert (i = List.length chain) as -> by lia.
    rewrite lookup_snoc_last in Hb. injection Hb as <-. auto.
Qed.

(** X2.  Every chain that a [Blockchain] object holds, from its creation
    without a file through any number of [add_block] calls, is non-empty,
    starts with a genesis block whose [previous_hash] is ["0"], has each
    block at its index with its own digest stored and starting with
    ["00"], and passes [is_chain_valid]. *)
Theorem built_chain_sound (chain : list Block) :
  built chain ->
  chain <> []
  /\ (exists g created, chain !! 0%nat = Some g /\ previous_hash g = "0"
                        /\ data g = genesis_data created)
  /\ well_formed chain
  /\ (forall i b, chain !! i = Some b -> String.prefix "00" (hash b) = true)
  /\ is_chain_valid chain = true.
Proof.
  intros Hb.
  cut (chain <> []
       /\ (exists g created, chain !! 0%nat = Some g /\ previous_hash g = "0"
                             /\ data g = genesis_data created)
       /\ well_formed chain /\ is_chain_valid chain = true).
  { intros (H1 & H2 & H3 & H4).
    split; [exact H1|]. split; [exact H2|]. split; [exact H3|]. split; [|exact H4].
    intros i b Hi. apply meets_target_2. exact (proj2 (proj2 (H3 i b Hi))). }
  induction Hb as [fuel created now chain Hinit
                  |fuel now d chain chain' r Hb IH Hadd].
  - destruct (init_missing _ _ _ _ Hinit) as (g & -> & Hm).
    destruct (mine_block_inv _ _ _ _ Hm) as (Ht & Hi & _ & Hd & Hp & _ & Hh).
    specialize (Hh eq_refl).
    split; [discriminate|]. split; [exists g, created; auto|]. split; [|reflexivity].
    intros [|i] b Hlk; [|destruct i; discriminate].
    injection Hlk as <-. auto.
  - destruct IH as (Hne & (g & created & Hg & Hgp & Hgd) & Hwf & Hv).
    destruct (add_block_inv _ _ _ _ _ _ Hadd)
      as [(-> & _)|(latest & nb & Hl & Hm & -> & ->)]; [congruence|].
    destruct (mine_block_inv _ _ _ _ Hm) as (Ht & Hi & _ & _ & Hp & _ & Hh).
    specialize (Hh eq_refl).
    split; [destruct chain; discriminate|].
    split.
    { exists g, created. rewrite lookup_snoc_before
        by (destruct chain; [congruence|simpl; lia]). auto. }
    split; [apply well_formed_snoc; assumption|].
    rewrite is_chain_valid_snoc by exact Hne.
    rewrite Hv, (block_ok_snoc chain latest nb Hl Hh Hp). reflexivity.
Qed.

Lemma example_chain_built : built example_chain.
Proof.
  apply (built_add 10 "2025-01-01 09:05:00.000005" example_payload [example_genesis]
                   example_chain (Some (hash example_block))).
  - apply (built_init 10 "2025-01-01T09:00:00.000017" "2025-01-01 09:00:00.000017").
    vm_compute. reflexivity.
  - exact example_chain_added.
Qed.

Lemma built_chain_sound_witness :
  built example_chain /\ is_chain_valid example_chain = true.
Proof.
  split; [exact example_chain_built|].
  exact (proj2 (proj2 (proj2 (proj2 (built_chain_sound example_chain example_chain_built))))).
Defined.

(** *** Saving and loading *)

Lemma block_of_dict_to_dict (b : Block) : block_of_dict (to_dict b) = Got b.
Proof. destruct b. reflexivity. Qed.

Lemma load_blocks_to_dict (blocks : list Block) : forall chain,
  load_blocks (List.map to_dict blocks) chain = Got (chain ++ blocks).
Proof.
  induction blocks as [|b blocks IH]; intros chain.
  - simpl. rewrite app_nil_r. reflexivity.
  - change (List.map to_dict (b :: blocks)) with (to_dict b :: List.map to_dict blocks).
    cbn [load_blocks]. rewrite block_of_dict_to_dict, IH, <- app_assoc. reflexivity.
Qed.

(** X3.  What [save_chain] writes, [load_chain] reads back as the same
    chain, block for block: the stored hash and nonce are taken as they
    are, nothing is mined again and nothing is verified, so a chain is
    valid after the round trip exactly when it was before.  A new
    [Blockchain] object on that file holds the saved chain and creates no
    genesis block, unless the saved chain was empty. *)
Theorem save_load_round_trip (chain : list Block) :
  (forall old, load_chain (save_chain chain) old = Some chain)
  /\ (forall old loaded, load_chain (save_chain chain) old = Some loaded ->
                         is_chain_valid loaded = is_chain_valid chain)
  /\ (forall fuel created now,
         chain <> [] -> init fuel (save_chain chain) created now = Some chain).
Proof.
  assert (H : forall old, load_chain (save_chain chain) old = Some chain).
  { intros old. unfold load_chain, save_chain. rewrite load_blocks_to_dict. reflexivity. }
  split; [exact H|]. split.
  - intros old loaded Hl. rewrite H in Hl. injection Hl as <-. reflexivity.
  - intros fuel created now Hne. unfold init. rewrite H.
    destruct chain; [congruence|reflexivity].
Qed.

Lemma save_load_round_trip_witness :
  init 0 (save_chain example_chain) "2025-01-02T08:00:00" "2025-01-02 08:00:00"
  = Some example_chain.
Proof.
  apply (proj2 (proj2 (save_load_round_trip example_chain))). discriminate.
Defined.

Lemma load_blocks_raises (blocks : list Block) (bad : value) (rest : list value) :
  block_of_dict bad = Raises ->
  forall chain, load_blocks (List.map to_dict blocks ++ bad :: rest) chain = Raises.
Proof.
  intros Hbad. induction blocks as [|b blocks IH]; intros chain.
  - simpl. rewrite Hbad. reflexivity.
  - change (List.map to_dict (b :: blocks) ++ bad :: rest)
      with (to_dict b :: (List.map to_dict blocks ++ bad :: rest)).
    cbn [load_blocks]. rewrite block_of_dict_to_dict. apply IH.
Qed.

(** X4.  Loading is all or nothing.  If some entry of the file is not a
    dictionary or lacks one of the six keys, the blocks read before it are
    dropped as well: [load_chain] leaves the empty chain, whatever follows
    the entry, and a new [Blockchain] object on that file starts over from
    a fresh genesis block. *)
Theorem load_chain_all_or_nothing (blocks : list Block) (bad : value) (rest : list value) :
  block_of_dict bad = Raises ->
  let file := Parsed (JArr (List.map to_dict blocks ++ bad :: rest)) in
  (forall old, load_chain file old = Some [])
  /\ (forall fuel created now,
         init fuel file created now = create_genesis_block fuel created now [])
  /\ (forall fuel created now chain,
         init fuel file created now = Some chain -> List.length chain = 1%nat).
Proof.
  intros Hbad file.
  assert (H : forall old, load_chain file old = Some []).
  { intros old. unfold file, load_chain. rewrite (load_blocks_raises blocks bad rest Hbad).
    reflexivity. }
  split; [exact H|]. split.
  - intros fuel created now. unfold init. rewrite H. reflexivity.
  - intros fuel created now chain. unfold init. rewrite H.
    unfold create_genesis_block. destruct (mine_block _ _ _); [|discriminate].
    intros Hc. injection Hc as <-. reflexivity.
Qed.

Lemma load_chain_all_or_nothing_witness :
  load_chain (Parsed (JArr (List.map to_dict example_chain
                              ++ [JObj [("index", JInt 2); ("timestamp", JStr "t")]])))
             example_chain
  = Some [].
Proof.
  apply (load_chain_all_or_nothing example_chain
           (JObj [("index", JInt 2); ("timestamp", JStr "t")]) []).
  reflexivity.
Defined.

(** *** Looking blocks up *)

Lemma find_snoc {A} (f : A -> bool) (l : list A) (x : A) :
  List.find f (l ++ [x])
  = match List.find f l with
    | Some y => Some y
    | None => if f x then Some x else None
    end.
Proof.
  induction l as [|a l IH]; simpl; [reflexivity|].
  destruct (f a); [reflexivity|exact IH].
Qed.

(** X5.  The hash that [add_block] returns leads back to a block:
    [get_block_by_hash] finds a block with that hash in the new chain, and
    it is the block just added (with the payload given) unless an earlier
    block already carried the same hash.  Lookups that succeeded before
    the addition give the same block after it, and a hash that no block
    carries is not found. *)
Theorem added_block_is_found (fuel : nat) (now : string) (d : value)
        (chain chain' : list Block) (h : string) :
  add_block fuel now d chain = Some (chain', Some h) ->
  (exists b, get_block_by_hash chain' h = Some b /\ hash b = h)
  /\ (get_block_by_hash chain h = None ->
      exists nb, chain' = chain ++ [nb] /\ get_block_by_hash chain' h = Some nb
                 /\ data nb = d /\ index nb = Z.of_nat (List.length chain))
  /\ (forall h' b, get_block_by_hash chain h' = Some b ->
                   get_block_by_hash chain' h' = Some b)
  /\ (forall h', (forall i b, chain' !! i = Some b -> hash b <> h') ->
                 get_block_by_hash chain' h' = None).
Proof.
  intros Hadd.
  destruct (add_block_inv _ _ _ _ _ _ Hadd)
    as [(_ & _ & Hr)|(latest & nb & Hl & Hm & -> & Hr)]; [discriminate|].
  injection Hr as ->.
  destruct (mine_block_inv _ _ _ _ Hm) as (_ & Hi & _ & Hd & _).
  unfold get_block_by_hash. split; [|split; [|split]].
  - rewrite find_snoc. destruct (List.find _ chain) as [y|] eqn:Hf.
    + exists y. split; [reflexivity|].
      apply find_some in Hf. apply String.eqb_eq, Hf.
    + rewrite String.eqb_refl. eauto.
  - intros Hnone. exists nb. rewrite find_snoc, Hnone, String.eqb_refl. auto.
  - intros h' b Hf. rewrite find_snoc, Hf. reflexivity.
  - intros h' Hno. destruct (List.find _ (chain ++ [nb])) as [b|] eqn:Hf; [|reflexivity].
    apply find_some in Hf. destruct Hf as (Hin & Heq).
    apply String.eqb_eq in Heq.
    apply list_elem_of_In, list_elem_of_lookup in Hin. destruct Hin as (i & Hi').
    exfalso. exact (Hno i b Hi' Heq).
Qed.

Lemma added_block_is_found_witness :
  get_block_by_hash example_chain (hash example_block) = Some example_block.
Proof.
  destruct (added_block_is_found _ _ _ _ _ _ example_chain_added) as (_ & H & _).
  destruct H as (nb & Hc & Hf & _); [vm_compute; reflexivity|].
  unfold example_chain in Hc. simpl in Hc. injection Hc as <-. exact Hf.
Defined.

(** *** The attendance records of the ledger *)

Lemma collect_attendance_snoc (blocks : list Block) (b : Block) : forall records,
  collect_attendance (blocks ++ [b]) records
  = match collect_attendance blocks records with
    | Some rs => collect_attendance [b] rs
    | None => None
    end.
Proof.
  induction blocks as [|a blocks IH]; intros records; [reflexivity|].
  simpl. destruct (is_attendance (data a)) as [[|]|]; [apply IH|apply IH|reflexivity].
Qed.

Lemma collect_attendance_length (blocks : list Block) : forall records rs,
  collect_attendance blocks records = Some rs ->
  (List.length records <= List.length rs <= List.length records + List.length blocks)%nat.
Proof.
  induction blocks as [|a blocks IH]; intros records rs; simpl.
  - intros H. injection H as <-. lia.
  - destruct (is_attendance (data a)) as [[|]|]; [| |discriminate]; intros H;
      apply IH in H; rewrite ?List.length_app in H; simpl in H; lia.
Qed.

(** X6.  [get_attendance_records] never reports the first block of the
    chain, whatever its payload, so there are fewer records than blocks.
    Adding a block with a dictionary payload appends that payload to the
    records when its ['type'] is ['attendance'] and leaves them as they
    were otherwise. *)
Theorem ledger_records_follow_add_block :
  (forall g : Block, get_attendance_records [g] = Some [])
  /\ (forall chain rs, chain <> [] -> get_attendance_records chain = Some rs ->
                       (List.length rs < List.length chain)%nat)
  /\ (forall fuel now items chain chain' h rs,
         get_attendance_records chain = Some rs ->
         add_block fuel now (JObj items) chain = Some (chain', Some h) ->
         get_attendance_records chain'
         = Some (match is_attendance (JObj items) with
                 | Some true => rs ++ [JObj items]
                 | _ => rs
                 end)).
Proof.
  split; [reflexivity|]. split.
  - intros chain rs Hne. unfold get_attendance_records. intros H.
    apply collect_attendance_length in H. destruct chain; [congruence|].
    simpl in *. rewrite ?drop_0 in H. lia.
  - intros fuel now items chain chain' h rs Hrs Hadd.
    destruct (add_block_inv _ _ _ _ _ _ Hadd)
      as [(_ & _ & Hr)|(latest & nb & Hl & Hm & -> & _)]; [discriminate|].
    destruct (mine_block_inv _ _ _ _ Hm) as (_ & _ & _ & Hd & _).
    unfold get_attendance_records in *.
    destruct chain as [|g chain]; [discriminate|].
    change (skipn 1 ((g :: chain) ++ [nb])) with (chain ++ [nb]).
    change (skipn 1 (g :: chain)) with chain in Hrs.
    rewrite collect_attendance_snoc, Hrs. simpl. rewrite Hd.
    simpl. destruct (get "type" items) as [[]|]; try reflexivity.
    destruct (String.eqb _ _); reflexivity.
Qed.

Lemma ledger_records_follow_add_block_witness :
  get_attendance_records example_chain = Some [example_payload].
Proof.
  exact (proj2 (proj2 ledger_records_follow_add_block) 10%nat _ _ [example_genesis] _ _ []
           eq_refl example_chain_added).
Defined.

(** *** The digest and the order of the payload's keys *)

Lemma dumps_permutation (items items' : list (string * value)) :
  items ≡ₚ items' -> NoDup (List.map fst items) ->
  dumps (JObj items) = dumps (JObj items').
Proof.
  intros Hp Hnd. simpl. do 4 f_equal.
  apply sort_items_permutation.
  - apply Permutation_map. exact Hp.
  - rewrite List.map_map.
    erewrite List.map_ext; [exact Hnd|]. intros [k x]. reflexivity.
Qed.

(** X7.  The digest of a block does not depend on the order in which the
    payload dictionary lists its keys ([sort_keys=True]): two payloads
    with the same items give the same serialisation and the same
    [calculate_hash], so the block that is mined has the same nonce and
    hash. *)
Theorem hash_ignores_key_order (items items' : list (string * value)) :
  items ≡ₚ items' -> NoDup (List.map fst items) ->
  dumps (JObj items) = dumps (JObj items')
  /\ (forall b, calculate_hash (set_data b (JObj items))
                = calculate_hash (set_data b (JObj items')))
  /\ (forall fuel i ts prev b,
         mine_block fuel difficulty (new_block i ts (JObj items) prev) = Some b ->
         mine_block fuel difficulty (new_block i ts (JObj items') prev)
         = Some (set_data b (JObj items'))).
Proof.
  intros Hp Hnd. pose proof (dumps_permutation _ _ Hp Hnd) as Hd.
  assert (Hc : forall b, calculate_hash (set_data b (JObj items))
                         = calculate_hash (set_data b (JObj items'))).
  { intros b. unfold calculate_hash, block_string. cbn [set_data data index timestamp
      previous_hash nonce]. rewrite Hd. reflexivity. }
  split; [exact Hd|]. split; [exact Hc|].
  intros fuel i ts prev b.
  assert (Hgen : forall (fuel : nat) (b0 b : Block),
             data b0 = JObj items ->
             mine_block fuel difficulty b0 = Some b ->
             mine_block fuel difficulty
               (set_hash (set_data b0 (JObj items')) (hash b0))
             = Some (set_data b (JObj items'))).
  { clear fuel b. induction fuel as [|fuel IH]; intros b0 b Hdata; simpl;
      destruct (meets_target difficulty (hash b0)) eqn:Ht.
    - intros H. injection H as <-. destruct b0; reflexivity.
    - discriminate.
    - intros H. injection H as <-. destruct b0; reflexivity.
    - intros H. destruct b0 as [i0 ts0 d0 p0 n0 h0]. cbn [data] in Hdata. subst d0.
      specialize (IH (try_next_nonce (mkBlock i0 ts0 (JObj items) p0 n0 h0)) b eq_refl H).
      rewrite <- IH. f_equal.
      unfold try_next_nonce, set_hash, set_data, set_nonce.
      cbn [index timestamp data previous_hash nonce hash].
      f_equal. exact (eq_sym (Hc (mkBlock i0 ts0 (JObj items) p0 (n0 + 1) h0))). }
  intros Hm. specialize (Hgen fuel (new_block i ts (JObj items) prev) b eq_refl Hm).
  rewrite <- Hgen. f_equal. unfold new_block.
  unfold set_hash, set_data. cbn [index timestamp data previous_hash nonce hash].
  f_equal. exact (eq_sym (Hc (mkBlock i ts (JObj items) prev 0 EmptyString))).
Qed.

Lemma hash_ignores_key_order_witness :
  calculate_hash (set_data example_block
                    (JObj [("type", JStr "attendance"); ("user_id", JStr "alice")]))
  = calculate_hash (set_data example_block
                      (JObj [("user_id", JStr "alice"); ("type", JStr "attendance")])).
Proof.
  apply (hash_ignores_key_order
           [("type", JStr "attendance"); ("user_id", JStr "alice")]
           [("user_id", JStr "alice"); ("type", JStr "attendance")]).
  - apply perm_swap.
  - simpl. apply NoDup_cons. split.
    + intros H. apply list_elem_of_singleton in H. discriminate.
    + apply NoDup_singleton.
Defined.

End LedgerMore.

(* ===================================================================== *)
(** ** Averages and windows                                               *)
(* ===================================================================== *)

Section WindowFacts.
Local Open Scope Q_scope.

Lemma inject_length_cons {A} (a : A) (l : list A) :
  inject_Z (Z.of_nat (List.length (a :: l))) == inject_Z (Z.of_nat (List.length l)) + 1.
Proof.
  simpl List.length. rewrite Nat2Z.inj_succ. unfold Z.succ. rewrite inject_Z_plus.
  reflexivity.
Qed.

Lemma inject_length_pos {A} (l : list A) :
  l <> [] -> 0 < inject_Z (Z.of_nat (List.length l)).
Proof.
  intros Hne. destruct l as [|a l]; [congruence|].
  change 0 with (inject_Z 0). rewrite <- Zlt_Qlt. simpl List.length. lia.
Qed.

Lemma sum_below (l : list Q) (hi : Q) :
  l <> [] -> (forall x, In x l -> x < hi) ->
  fold_right Qplus 0 l < hi * inject_Z (Z.of_nat (List.length l)).
Proof.
  induction l as [|a l IH]; intros Hne H; [congruence|].
  rewrite inject_length_cons. simpl fold_right.
  pose proof (H a (or_introl eq_refl)) as H1.
  destruct l as [|b l].
  - simpl. unfold inject_Z. change (Z.of_nat 0) with 0%Z. lra.
  - assert (IH' : fold_right Qplus 0 (b :: l)
                  < hi * inject_Z (Z.of_nat (List.length (b :: l)))).
    { apply IH; [discriminate|]. intros x Hx. apply H. right. exact Hx. }
    lra.
Qed.

Lemma average_below (l : list Q) (hi : Q) :
  l <> [] -> (forall x, In x l -> x < hi) ->
  fold_right Qplus 0 l / inject_Z (Z.of_nat (List.length l)) < hi.
Proof.
  intros Hne H. pose proof (inject_length_pos l Hne) as Hpos.
  apply Qlt_shift_div_r; [exact Hpos|]. apply sum_below; assumption.
Qed.

(** A bounded window after any number of appends holds the latest
    entries. *)
Lemma deque_append_length {A} (maxlen : nat) (d : list A) (x : A) :
  (List.length d <= maxlen)%nat ->
  (List.length (Py.deque_append maxlen d x) <= maxlen)%nat.
Proof.
  intros H. unfold Py.deque_append. rewrite List.length_skipn, List.length_app. simpl. lia.
Qed.

Lemma deque_append_all {A} (maxlen : nat) (xs : list A) : forall d,
  (List.length d <= maxlen)%nat ->
  fold_left (Py.deque_append maxlen) xs d
  = skipn (List.length (d ++ xs) - maxlen) (d ++ xs).
Proof.
  induction xs as [|x xs IH]; intros d Hd.
  - simpl. rewrite app_nil_r.
    replace (List.length d - maxlen)%nat with 0%nat by lia. reflexivity.
  - simpl fold_left. rewrite IH by (apply deque_append_length; exact Hd).
    unfold Py.deque_append.
    set (l := d ++ [x]). set (k := (List.length l - maxlen)%nat).
    replace (d ++ x :: xs) with (l ++ xs)
      by (unfold l; rewrite <- app_assoc; reflexivity).
    assert (Hsk : skipn k l ++ xs = skipn k (l ++ xs)).
    { rewrite List.skipn_app.
      replace (k - List.length l)%nat with 0%nat by (unfold k; lia). reflexivity. }
    rewrite Hsk, List.skipn_skipn. f_equal.
    rewrite List.length_skipn, List.length_app. unfold k. lia.
Qed.

End WindowFacts.

(* ===================================================================== *)
(** ** The database: registration, marking, queries                       *)
(* ===================================================================== *)

Section DatabaseMore.
Import Database.

(** *** Searching lists *)

Lemma find_none_iff {A} (f : A -> bool) (l : list A) :
  List.find f l = None <-> forall x, In x l -> f x = false.
Proof.
  split.
  - intros H x Hx. exact (find_none f l H x Hx).
  - induction l as [|a l IH]; intros H; simpl; [reflexivity|].
    rewrite (H a) by (left; reflexivity). apply IH. intros x Hx. apply H. right. exact Hx.
Qed.

Lemma find_filter_kept {A} (f g : A -> bool) (l : list A) :
  (forall x, In x l -> f x = true -> g x = true) ->
  List.find f (List.filter g l) = List.find f l.
Proof.
  induction l as [|a l IH]; intros H; simpl; [reflexivity|].
  assert (IH' : List.find f (List.filter g l) = List.find f l)
    by (apply IH; intros x Hx; apply H; right; exact Hx).
  destruct (f a) eqn:Efa.
  - rewrite (H a (or_introl eq_refl) Efa). simpl. rewrite Efa. reflexivity.
  - destruct (g a); simpl; rewrite ?Efa; exact IH'.
Qed.

Lemma find_filter_dropped {A} (f g : A -> bool) (l : list A) :
  (forall x, In x l -> f x = true -> g x = false) ->
  List.find f (List.filter g l) = None.
Proof.
  intros H. apply find_none_iff. intros x Hx. apply List.filter_In in Hx.
  destruct Hx as (Hx & Hg). destruct (f x) eqn:Efx; [|reflexivity].
  rewrite (H x Hx Efx) in Hg. discriminate.
Qed.

Lemma find_map_same_test {A} (f : A -> bool) (h : A -> A) (l : list A) :
  (forall x, f (h x) = f x) ->
  List.find f (List.map h l) = option_map h (List.find f l).
Proof.
  intros H. induction l as [|a l IH]; simpl; [reflexivity|].
  rewrite H. destruct (f a); [reflexivity|exact IH].
Qed.

Lemma existsb_find {A} (f : A -> bool) (l : list A) :
  existsb f l = true <-> List.find f l <> None.
Proof.
  induction l as [|a l IH]; simpl; [split; [discriminate|congruence]|].
  destruct (f a); simpl; [split; [discriminate|reflexivity]|exact IH].
Qed.

Lemma In_firstn {A} (n : nat) (l : list A) (x : A) : In x (firstn n l) -> In x l.
Proof.
  revert l. induction n as [|n IH]; intros [|a l]; simpl; try tauto.
  intros [H|H]; [left; exact H|right; apply IH; exact H].
Qed.

Lemma existsb_agree {A} (f g : A -> bool) (l : list A) :
  (forall x, f x = g x) -> existsb f l = existsb g l.
Proof.
  intros H. induction l as [|a l IH]; simpl; [reflexivity|]. rewrite H, IH. reflexivity.
Qed.

Lemma filter_shorter {A} (g : A -> bool) (l : list A) :
  (List.length (List.filter g l) <= List.length l)%nat
  /\ ((List.length (List.filter g l) < List.length l)%nat
      <-> existsb (fun x => negb (g x)) l = true).
Proof.
  induction l as [|a l (IH1 & IH2)]; simpl; [split; [lia|split; [lia|discriminate]]|].
  destruct (g a); simpl.
  - split; [lia|]. rewrite <- IH2. lia.
  - split; [lia|]. split; [reflexivity|lia].
Qed.

(** *** Registration *)

(** The guard of [add_user], as a lookup. *)
Lemma add_user_guard (d : DB) (regno : option string) :
  Py.truthy regno
  && existsb (fun u => match u_registration_number u, regno with
                       | Some a, Some b => String.eqb a b
                       | _, _ => false
                       end) (users d) = true
  <-> exists r, regno = Some r /\ r <> EmptyString /\ get_user_by_regno d r <> None.
Proof.
  unfold get_user_by_regno. rewrite andb_true_iff. split.
  - intros (Ht & He). destruct regno as [r|]; [|discriminate]. exists r.
    split; [reflexivity|]. split.
    + intros ->. discriminate.
    + apply existsb_find. rewrite <- He. apply existsb_agree.
      intros u. unfold has_regno. destruct (u_registration_number u); reflexivity.
  - intros (r & -> & Hr & Hf). split; [apply truthy_some; exact Hr|].
    apply existsb_find in Hf. rewrite <- Hf. apply existsb_agree.
    intros u. unfold has_regno. destruct (u_registration_number u); reflexivity.
Qed.

(** X8.  [add_user] refuses, and changes nothing, exactly when a non-empty
    registration number is given that some user already carries.
    Otherwise the new row is what [get_user_info] returns for the
    [user_id] (also when the identity was registered before: its row is
    replaced, with [total_attendance] 0 and no [last_attendance]) and what
    [get_user_by_regno] returns for the registration number; the
    attendance table is untouched; and, unless the registration number is
    the empty string, every other user's row is as it was. *)
Theorem registered_user_is_found
        (d : DB) (now : Py.Clock) (user_id name : string) (enc : list Z)
        (regno email department phone created_by : option string) :
  let result := add_user d now user_id name enc regno email department phone created_by in
  (snd result = false
   <-> exists r, regno = Some r /\ r <> EmptyString /\ get_user_by_regno d r <> None)
  /\ (snd result = false -> fst result = d)
  /\ (snd result = true ->
      exists row,
        get_user_info (fst result) user_id = Some row
        /\ u_user_id row = user_id /\ u_name row = name
        /\ u_registration_number row = regno
        /\ u_registration_date row = Py.strftime_seconds now
        /\ u_total_attendance row = 0 /\ u_last_attendance row = None
        /\ u_is_active row = 1
        /\ (forall r, regno = Some r -> get_user_by_regno (fst result) r = Some row)
        /\ (regno <> Some EmptyString ->
            forall other, other <> user_id ->
                          get_user_info (fst result) other = get_user_info d other)
        /\ attendance (fst result) = attendance d).
Proof.
  intros result. subst result. unfold add_user.
  pose proof (add_user_guard d regno) as Hguard.
  destruct (Py.truthy regno && existsb _ (users d)) eqn:Eg.
  - split; [split; [intros _; apply Hguard; reflexivity|reflexivity]|].
    split; [reflexivity|discriminate].
  - split.
    { split; [discriminate|]. intros H. apply Hguard in H. discriminate. }
    split; [discriminate|]. intros _.
    set (row := mkUserRow user_id name regno email department phone
                          (Py.strftime_seconds now) (Some (encoding_hash enc)) 0 None
                          1 0 created_by None).
    exists row. cbn [fst]. unfold get_user_info, get_user_by_regno, insert_or_replace_user.
    cbn [users attendance].
    split.
    { rewrite find_snoc, find_filter_dropped.
      - unfold row at 1. cbn [u_user_id]. rewrite String.eqb_refl. reflexivity.
      - intros x _ Hx. unfold users_conflict, row. cbn [u_user_id]. rewrite Hx. reflexivity. }
    do 7 (split; [reflexivity|]).
    split.
    { intros r ->. rewrite find_snoc, find_filter_dropped.
      - unfold has_regno. unfold row at 1. cbn [u_registration_number].
        rewrite String.eqb_refl. reflexivity.
      - intros x _ Hx. unfold users_conflict, has_regno, row in *.
        cbn [u_registration_number].
        destruct (u_registration_number x) as [a|]; [|discriminate].
        rewrite Hx, orb_true_r. reflexivity. }
    split; [|reflexivity].
    intros Hne other Hother. rewrite find_snoc.
    unfold row at 2. cbn [u_user_id].
    assert (Hrow : String.eqb user_id other = false)
      by (apply String.eqb_neq; congruence).
    rewrite Hrow.
    rewrite find_filter_kept; [destruct (List.find _ (users d)); reflexivity|].
    intros x Hin Hx. apply String.eqb_eq in Hx.
    unfold users_conflict, row. cbn [u_user_id u_registration_number].
    assert (Hid : String.eqb (u_user_id x) user_id = false)
      by (apply String.eqb_neq; congruence).
    rewrite Hid. simpl.
    destruct (u_registration_number x) as [a|] eqn:Ea; [|reflexivity].
    destruct regno as [b|]; [|reflexivity].
    destruct (String.eqb a b) eqn:Eab; [|reflexivity]. exfalso.
    apply String.eqb_eq in Eab. subst b.
    apply andb_false_iff in Eg. destruct Eg as [Eg|Eg].
    + unfold Py.truthy in Eg. apply negb_false_iff, String.eqb_eq in Eg. congruence.
    + assert (He : existsb (fun u => match u_registration_number u with
                                     | Some a0 => String.eqb a0 a
                                     | None => false
                                     end) (users d) = true).
      { apply existsb_exists. exists x. split; [exact Hin|].
        rewrite Ea. apply String.eqb_refl. }
      rewrite He in Eg. discriminate.
Qed.

Lemma registered_user_is_found_witness :
  exists row,
    get_user_info (fst (add_user empty example_clock "alice" "Alice" [1; 2; 3]
                                 (Some "R001"%string) None None None None)) "alice"
    = Some row
    /\ u_total_attendance row = 0.
Proof.
  destruct (proj2 (proj2 (registered_user_is_found
                            empty example_clock "alice" "Alice" [1; 2; 3]
                            (Some "R001"%string) None None None None)) eq_refl)
    as (row & H1 & _ & _ & _ & _ & H2 & _).
  exists row. split; [exact H1|exact H2].
Defined.

(** *** The primary key of [users] *)

Lemma NoDup_filter_map {A B} (key : A -> B) (g : A -> bool) (l : list A) :
  NoDup (List.map key l) -> NoDup (List.map key (List.filter g l)).
Proof.
  induction l as [|a l IH]; simpl; intros H; [exact H|].
  apply NoDup_cons in H. destruct H as (Ha & Hl). specialize (IH Hl).
  destruct (g a); [|exact IH]. simpl. apply NoDup_cons. split; [|exact IH].
  intros Hin. apply Ha. apply list_elem_of_In, in_map_iff in Hin.
  destruct Hin as (x & Hx & Hin). apply List.filter_In in Hin.
  apply list_elem_of_In, in_map_iff. exists x. split; [exact Hx|apply Hin].
Qed.

Lemma find_unique {A} (key : A -> string) (l : list A) (k : string) (x : A) :
  NoDup (List.map key l) ->
  (List.find (fun y => String.eqb (key y) k) l = Some x <-> In x l /\ key x = k).
Proof.
  intros Hnd. split.
  - intros H. apply find_some in H. destruct H as (Hin & Hk).
    apply String.eqb_eq in Hk. auto.
  - induction l as [|a l IH]; intros (Hin & Hk); [destruct Hin|].
    simpl in Hnd. apply NoDup_cons in Hnd. destruct Hnd as (Ha & Hl).
    simpl. destruct Hin as [->|Hin].
    + rewrite Hk, String.eqb_refl. reflexivity.
    + destruct (String.eqb (key a) k) eqn:Eak; [|apply IH; auto].
      exfalso. apply Ha. apply String.eqb_eq in Eak.
      apply list_elem_of_In, in_map_iff. exists x. split; [congruence|exact Hin].
Qed.

(** X9.  No operation of the module creates two rows of [users] with the
    same [user_id]: if the identifiers are pairwise different before
    [add_user], [mark_attendance] or [delete_user_permanently], they are
    so afterwards.  In such a table [get_user_info] returns a row exactly
    when that row is in the table under the identifier asked for. *)
Theorem user_ids_stay_unique (d : DB) :
  user_ids_unique d ->
  (forall now user_id name enc regno email department phone created_by,
      user_ids_unique
        (fst (add_user d now user_id name enc regno email department phone created_by)))
  /\ (forall now user_id name regno (ls : Q) emotion (eng : Q) (bh : option string)
             (enc : list Z) (conf : Q) location,
         user_ids_unique
           (fst (mark_attendance d now user_id name regno ls emotion eng bh enc conf
                                 location)))
  /\ (forall user_id, user_ids_unique (fst (delete_user_permanently d user_id)))
  /\ (forall user_id row,
         get_user_info d user_id = Some row
         <-> In row (users d) /\ u_user_id row = user_id).
Proof.
  unfold user_ids_unique. intros Hnd. split; [|split; [|split]].
  - intros. unfold add_user. destruct (_ && _); [exact Hnd|].
    cbn [fst]. unfold insert_or_replace_user. cbn [users].
    rewrite List.map_app. simpl. apply NoDup_app. split; [|split].
    + apply NoDup_filter_map. exact Hnd.
    + intros x Hx Hx'. apply list_elem_of_singleton in Hx'. subst x.
      apply list_elem_of_In, in_map_iff in Hx. destruct Hx as (y & Hy & Hin).
      apply List.filter_In in Hin. destruct Hin as (_ & Hc).
      unfold users_conflict in Hc. cbn [u_user_id] in Hc.
      rewrite Hy, String.eqb_refl in Hc. discriminate.
    + apply NoDup_singleton.
  - intros. unfold mark_attendance. destruct (already_marked _ _ _); [exact Hnd|].
    cbn [fst]. unfold write_mark, update_user_statistics, insert_attendance.
    cbn [users]. rewrite List.map_map.
    erewrite List.map_ext; [exact Hnd|].
    intros u. unfold bump_user. destruct (String.eqb _ _); reflexivity.
  - intros user_id. unfold delete_user_permanently. cbn [fst users].
    apply NoDup_filter_map. exact Hnd.
  - intros user_id row. unfold get_user_info.
    apply (find_unique u_user_id (users d) user_id row Hnd).
Qed.

(** On the example table (Bob, then Alice, who has been marked): Alice is
    registered again under a new registration number, which replaces her
    row, and Bob is deleted. *)
Lemma user_ids_stay_unique_witness :
  let again := add_user example_marked example_clock "alice" "Alice A." [1; 2; 3]
                        (Some "R003"%string) None None None None in
  user_ids_unique (fst again)
  /\ snd again = true
  /\ List.map u_user_id (users (fst again)) = ["bob"%string; "alice"%string]
  /\ user_ids_unique (fst (delete_user_permanently example_marked "bob"))
  /\ (exists row, get_user_info example_marked "alice" = Some row
                  /\ In row (users example_marked)).
Proof.
  cbv zeta.
  assert (Hd : user_ids_unique example_marked).
  { unfold user_ids_unique. change (NoDup ["bob"%string; "alice"%string]).
    apply NoDup_cons_2; [|apply NoDup_singleton].
    rewrite list_elem_of_singleton. discriminate. }
  destruct (user_ids_stay_unique example_marked Hd) as (Hadd & _ & Hdel & Hinfo).
  split; [apply Hadd|]. split; [reflexivity|]. split; [reflexivity|].
  split; [apply Hdel|].
  destruct (get_user_info example_marked "alice") as [row|] eqn:E; [|discriminate E].
  exists row. split; [reflexivity|]. apply (Hinfo "alice"%string row), E.
Defined.

(** *** Marking *)

(** Marking one identity leaves the rows and the statistics of every
    other identity alone. *)
Lemma mark_attendance_other_user
      (d : DB) (now : Py.Clock) (user_id name regno : string) (ls : Q)
      (emotion : string) (eng : Q) (bh : option string) (enc : list Z) (conf : Q)
      (location : string) (other : string) :
  user_id <> other ->
  let d' := fst (mark_attendance d now user_id name regno ls emotion eng bh enc conf
                                 location) in
  (forall date, rows_for other date d' = rows_for other date d)
  /\ get_user_info d' other = get_user_info d other.
Proof.
  intros Hne. cbv zeta. unfold mark_attendance.
  destruct (already_marked d user_id (Py.date now)); [split; reflexivity|].
  cbn [fst]. assert (Hid : String.eqb user_id other = false)
    by (apply String.eqb_neq; exact Hne).
  split.
  - intros date. unfold rows_for, write_mark, update_user_statistics, insert_attendance.
    cbn [attendance]. rewrite List.filter_app, List.length_app. simpl.
    rewrite Hid. simpl. lia.
  - unfold get_user_info, write_mark, update_user_statistics, insert_attendance.
    cbn [users]. rewrite find_map_same_test.
    + destruct (List.find _ (users d)) as [row|] eqn:Hrow; [|reflexivity].
      simpl. apply find_some in Hrow. destruct Hrow as (_ & Hrow).
      apply String.eqb_eq in Hrow. unfold bump_user.
      assert (Hrow' : String.eqb (u_user_id row) user_id = false)
        by (apply String.eqb_neq; congruence).
      rewrite Hrow'. reflexivity.
    + intros x. unfold bump_user. destruct (String.eqb (u_user_id x) user_id); reflexivity.
Qed.

(** X10.  A [mark_attendance] call that finds no row for the identity and
    the day appends one row, numbered one above the counter, with the
    identity, the date and the ledger hash it was given; it adds 1 to the
    [total_attendance] of that identity's user row and sets its
    [last_attendance] to the clock reading, and leaves every other user
    row as it was.  The identity need not be registered: the row is
    written all the same.  A further call for the same identity on the
    same day is refused and changes nothing. *)
Theorem mark_attendance_updates_statistics
        (d : DB) (now : Py.Clock) (user_id name regno : string) (ls : Q)
        (emotion : string) (eng : Q) (bh : option string) (enc : list Z) (conf : Q)
        (location : string) :
  rows_for user_id (Py.date now) d = 0%nat ->
  let result := mark_attendance d now user_id name regno ls emotion eng bh enc conf
                                location in
  snd result = (true, "Success"%string)
  /\ (exists row,
         attendance (fst result) = attendance d ++ [row]
         /\ a_id row = attendance_seq d + 1
         /\ a_user_id row = user_id /\ a_date row = Py.date now
         /\ a_timestamp row = Py.strftime_seconds now
         /\ a_blockchain_hash row = bh)
  /\ (forall row, get_user_info d user_id = Some row ->
                  exists row', get_user_info (fst result) user_id = Some row'
                               /\ u_total_attendance row' = u_total_attendance row + 1
                               /\ u_last_attendance row' = Some (Py.strftime_seconds now)
                               /\ u_name row' = u_name row
                               /\ u_registration_number row' = u_registration_number row)
  /\ (get_user_info d user_id = None -> get_user_info (fst result) user_id = None)
  /\ (forall other, other <> user_id ->
                    get_user_info (fst result) other = get_user_info d other)
  /\ (forall now' name' regno' (ls' : Q) emotion' (eng' : Q) (bh' : option string)
             (enc' : list Z) (conf' : Q) location',
         Py.date now' = Py.date now ->
         mark_attendance (fst result) now' user_id name' regno' ls' emotion' eng' bh'
                         enc' conf' location'
         = (fst result, (false, "Already marked today"%string))).
Proof.
  intros Hrows result.
  assert (Hunmarked : already_marked d user_id (Py.date now) = false).
  { rewrite already_marked_rows, Hrows. reflexivity. }
  assert (Hfind : forall other,
             get_user_info (fst result) other
             = option_map (bump_user (Py.strftime_seconds now) user_id)
                          (get_user_info d other)).
  { intros other. unfold result, mark_attendance. rewrite Hunmarked. cbn [fst].
    unfold get_user_info, write_mark, update_user_statistics, insert_attendance.
    cbn [users]. apply find_map_same_test.
    intros x. unfold bump_user. destruct (String.eqb (u_user_id x) user_id); reflexivity. }
  split; [unfold result, mark_attendance; rewrite Hunmarked; reflexivity|].
  split.
  { unfold result, mark_attendance. rewrite Hunmarked. cbn [fst].
    unfold write_mark, update_user_statistics, insert_attendance. cbn [attendance].
    eexists. split; [reflexivity|]. repeat split. }
  split.
  { intros row Hrow. rewrite Hfind, Hrow. simpl.
    apply find_some in Hrow. destruct Hrow as (_ & Hid).
    unfold bump_user. rewrite Hid. eexists. split; [reflexivity|]. repeat split. }
  split; [intros Hnone; rewrite Hfind, Hnone; reflexivity|].
  split.
  { intros other Hother. rewrite Hfind.
    destruct (get_user_info d other) as [row|] eqn:Hrow; [|reflexivity].
    simpl. unfold get_user_info in Hrow. apply find_some in Hrow.
    destruct Hrow as (_ & Hid). apply String.eqb_eq in Hid.
    unfold bump_user.
    assert (Hne : String.eqb (u_user_id row) user_id = false)
      by (apply String.eqb_neq; congruence).
    rewrite Hne. reflexivity. }
  intros now' name' regno' ls' emotion' eng' bh' enc' conf' location' Hdate.
  destruct (mark_attendance_rows d now user_id name regno ls emotion eng bh enc conf
                                 location user_id (Py.date now)) as (_ & Hok).
  destruct (Hok Hrows) as (_ & Hcount). fold result in Hcount.
  rewrite !String.eqb_refl in Hcount. simpl in Hcount.
  destruct (mark_attendance_rows (fst result) now' user_id name' regno' ls' emotion'
                                 eng' bh' enc' conf' location' user_id (Py.date now))
    as (Hrefused & _).
  apply Hrefused. rewrite Hdate. lia.
Qed.

Lemma mark_attendance_updates_statistics_witness :
  snd (mark_attendance empty example_clock "alice" "Alice" "R001" 0.9 "Neutral" 50
                       None [1; 2; 3] 0.625 "Main Campus")
  = (true, "Success"%string).
Proof.
  apply (mark_attendance_updates_statistics
           empty example_clock "alice" "Alice" "R001" 0.9 "Neutral" 50 None [1; 2; 3]
           0.625 "Main Campus").
  reflexivity.
Defined.

(** *** Querying attendance *)

Lemma order_by_timestamp_desc_permutation (rows : list AttendanceRow) :
  order_by_timestamp_desc rows ≡ₚ rows.
Proof.
  unfold order_by_timestamp_desc. rewrite <- Permutation_rev.
  rewrite (Permutation_map snd (sort_items_is_permutation _)).
  rewrite List.map_map. simpl. rewrite List.map_id. symmetry. apply Permutation_rev.
Qed.

Lemma ascending_lookup {A} (l : list (string * A)) :
  Json.ascending l ->
  forall i a b, l !! i = Some a -> l !! S i = Some b ->
                String.leb (fst a) (fst b) = true.
Proof.
  induction l as [|x l IH]; intros Hl i a b Ha Hb; [discriminate|].
  destruct Hl as (Hx & Hl). destruct i as [|i]; simpl in Ha, Hb.
  - injection Ha as <-. destruct l as [|y l]; [discriminate|].
    simpl in Hb. injection Hb as <-. exact Hx.
  - exact (IH Hl i a b Ha Hb).
Qed.

Lemma rev_is_reverse {A} (l : list A) : rev l = reverse l.
Proof. unfold reverse. apply rev_alt. Qed.

(** [ORDER BY timestamp DESC]: no row is older than the one after it. *)
Lemma order_by_timestamp_desc_lookup (rows : list AttendanceRow) (i : nat)
      (r1 r2 : AttendanceRow) :
  order_by_timestamp_desc rows !! i = Some r1 ->
  order_by_timestamp_desc rows !! S i = Some r2 ->
  String.leb (a_timestamp r2) (a_timestamp r1) = true.
Proof.
  unfold order_by_timestamp_desc.
  set (sorted := Json.sort_items (List.map (fun r => (a_timestamp r, r)) (rev rows))).
  rewrite rev_is_reverse. change (List.map snd sorted) with (snd <$> sorted).
  intros H1 H2.
  apply reverse_lookup_Some in H1. apply reverse_lookup_Some in H2.
  destruct H1 as (H1 & Hi1). destruct H2 as (H2 & Hi2).
  set (n := List.length (snd <$> sorted)) in *.
  replace (n - S i)%nat with (S (n - S (S i))) in H1 by lia.
  rewrite list_lookup_fmap in H1, H2.
  destruct (sorted !! S (n - S (S i))) as [p1|] eqn:E1; [|discriminate].
  destruct (sorted !! (n - S (S i))%nat) as [p2|] eqn:E2; [|discriminate].
  simpl in H1, H2. injection H1 as <-. injection H2 as <-.
  assert (Hkey : forall p, In p sorted -> fst p = a_timestamp (snd p)).
  { intros p Hp. apply list_elem_of_In in Hp. unfold sorted in Hp.
    rewrite sort_items_is_permutation in Hp. apply list_elem_of_In, in_map_iff in Hp.
    destruct Hp as (r & <- & _). reflexivity. }
  rewrite <- (Hkey p1), <- (Hkey p2).
  - exact (ascending_lookup sorted (sort_items_ascending _) _ _ _ E2 E1).
  - apply list_elem_of_In, list_elem_of_lookup. eauto.
  - apply list_elem_of_In, list_elem_of_lookup. eauto.
Qed.

(** Eight rows, five of them with the same timestamp: the order in which
    SQLite 3.40 returns them for [ORDER BY timestamp DESC]. *)
Example order_by_timestamp_desc_ties :
  List.map a_id
    (order_by_timestamp_desc
       [example_row 1 "a" "T2"; example_row 2 "b" "T1"; example_row 3 "c" "T2";
        example_row 4 "a" "T1"; example_row 5 "d" "T2"; example_row 6 "a" "T2";
        example_row 7 "e" "T3"; example_row 8 "b" "T2"])
  = [7; 1; 3; 5; 6; 8; 2; 4].
Proof. reflexivity. Qed.

(** The filter of [get_attendance_records], spelled out. *)
Lemma get_attendance_records_filter (d : DB) (date user_id : option string) (limit : nat) :
  get_attendance_records d date user_id limit
  = firstn limit
      (order_by_timestamp_desc
         (List.filter
            (fun r =>
               match date with
               | Some dd => String.eqb dd EmptyString || String.eqb (a_date r) dd
               | None => true
               end
               && match user_id with
                  | Some u => String.eqb u EmptyString || String.eqb (a_user_id r) u
                  | None => true
                  end)
            (attendance d))).
Proof.
  unfold get_attendance_records. do 2 f_equal. apply List.filter_ext. intros r.
  f_equal.
  - destruct date as [dd|]; [|reflexivity]. simpl.
    destruct (String.eqb dd EmptyString); reflexivity.
  - destruct user_id as [u|]; [|reflexivity]. simpl.
    destruct (String.eqb u EmptyString); reflexivity.
Qed.

(** X11.  [get_attendance_records] returns rows of the table only, each
    of the date asked for and of the identity asked for (an absent or
    empty argument asks for nothing); it returns as many of them as there
    are, up to [limit]; and it lists them latest first: no row has a
    timestamp below that of the row after it. *)
Theorem attendance_query_is_exact (d : DB) (date user_id : option string) (limit : nat) :
  let wanted (r : AttendanceRow) : bool :=
    match date with
    | Some dd => String.eqb dd EmptyString || String.eqb (a_date r) dd
    | None => true
    end
    && match user_id with
       | Some u => String.eqb u EmptyString || String.eqb (a_user_id r) u
       | None => true
       end in
  let result := get_attendance_records d date user_id limit in
  (forall r, In r result -> In r (attendance d) /\ wanted r = true)
  /\ List.length result
     = Nat.min limit (List.length (List.filter wanted (attendance d)))
  /\ (exists ordered, ordered ≡ₚ List.filter wanted (attendance d)
                      /\ result = firstn limit ordered)
  /\ (forall i r1 r2, result !! i = Some r1 -> result !! S i = Some r2 ->
                      String.leb (a_timestamp r2) (a_timestamp r1) = true).
Proof.
  intros wanted result. unfold result. rewrite get_attendance_records_filter.
  fold wanted. split; [|split; [|split]].
  - intros r Hr. apply In_firstn in Hr. apply list_elem_of_In in Hr.
    rewrite order_by_timestamp_desc_permutation in Hr.
    apply list_elem_of_In, List.filter_In in Hr. exact Hr.
  - rewrite List.length_firstn, length_order_by_timestamp_desc. reflexivity.
  - eexists. split; [apply order_by_timestamp_desc_permutation|reflexivity].
  - intros i r1 r2 H1 H2.
    apply lookup_take_Some in H1. apply lookup_take_Some in H2.
    exact (order_by_timestamp_desc_lookup _ _ _ _ (proj1 H1) (proj1 H2)).
Qed.

Lemma attendance_query_is_exact_witness :
  List.length
    (get_attendance_records
       (fst (mark_attendance empty example_clock "alice" "Alice" "R001" 0.9 "Neutral"
                             50 None [1; 2; 3] 0.625 "Main Campus"))
       (Some "2025-01-01"%string) None 10)
  = 1%nat.
Proof.
  rewrite (proj1 (proj2 (attendance_query_is_exact
                           (fst (mark_attendance empty example_clock "alice" "Alice" "R001"
                                                 0.9 "Neutral" 50 None [1; 2; 3] 0.625
                                                 "Main Campus"))
                           (Some "2025-01-01"%string) None 10))).
  reflexivity.
Defined.

(** X12.  For a non-empty identity, [get_user_attendance_history] lists
    the six history columns of exactly the rows that
    [get_attendance_records] returns for that identity, in the same
    order.  For the empty identity the two differ:
    [get_attendance_records] drops the filter and returns the rows of
    everybody, while [get_user_attendance_history] returns only rows
    whose [user_id] is empty. *)
Theorem history_agrees_with_records (d : DB) (limit : nat) :
  (forall user_id, user_id <> EmptyString ->
      get_user_attendance_history d user_id limit
      = List.map history_columns (get_attendance_records d None (Some user_id) limit))
  /\ get_attendance_records d None (Some EmptyString) limit
     = get_attendance_records d None None limit
  /\ List.length (get_attendance_records d None (Some EmptyString) limit)
     = Nat.min limit (List.length (attendance d))
  /\ (forall x, In x (get_user_attendance_history d EmptyString limit) ->
                exists r, In r (attendance d) /\ a_user_id r = EmptyString
                          /\ x = history_columns r).
Proof.
  split; [|split; [|split]].
  - intros user_id Hne. unfold get_user_attendance_history.
    rewrite get_attendance_records_filter. do 3 f_equal.
    apply List.filter_ext. intros r.
    apply String.eqb_neq in Hne. rewrite Hne. reflexivity.
  - rewrite !get_attendance_records_filter. reflexivity.
  - rewrite get_attendance_records_filter, List.length_firstn,
      length_order_by_timestamp_desc.
    f_equal. f_equal. clear. induction (attendance d) as [|a l IH]; [reflexivity|].
    simpl. f_equal. exact IH.
  - intros x Hx. unfold get_user_attendance_history in Hx.
    apply in_map_iff in Hx. destruct Hx as (r & <- & Hr).
    apply In_firstn, list_elem_of_In in Hr.
    rewrite order_by_timestamp_desc_permutation in Hr.
    apply list_elem_of_In, List.filter_In in Hr. destruct Hr as (Hin & Hid).
    apply String.eqb_eq in Hid. exists r. auto.
Qed.

Lemma history_agrees_with_records_witness :
  let d := fst (mark_attendance empty example_clock "alice" "Alice" "R001" 0.9 "Neutral"
                                50 None [1; 2; 3] 0.625 "Main Campus") in
  get_user_attendance_history d "alice" 30
  = List.map history_columns (get_attendance_records d None (Some "alice"%string) 30).
Proof.
  intros d. apply (proj1 (history_agrees_with_records d 30)). discriminate.
Defined.

(** *** Deleting a user *)

(** X13.  [delete_user_permanently] returns [True] exactly when the
    identity had a user row.  Afterwards [get_user_info] finds nothing for
    the identity and finds every other user as before.  The attendance
    table is not touched: the rows of the deleted identity stay, and the
    identity still counts as marked on the days it was marked.  When
    registration numbers are unique, the number of the deleted user is
    free again. *)
Theorem delete_user_spec (d : DB) (user_id : string) :
  let result := delete_user_permanently d user_id in
  (snd result = true <-> get_user_info d user_id <> None)
  /\ get_user_info (fst result) user_id = None
  /\ (forall other, other <> user_id ->
                    get_user_info (fst result) other = get_user_info d other)
  /\ attendance (fst result) = attendance d
  /\ (forall date, already_marked (fst result) user_id date
                   = already_marked d user_id date)
  /\ (forall r row, users_unique d -> get_user_by_regno d r = Some row ->
                    u_user_id row = user_id ->
                    get_user_by_regno (fst result) r = None).
Proof.
  intros result. unfold result, delete_user_permanently. cbn [fst snd].
  unfold get_user_info, get_user_by_regno. cbn [users attendance].
  split; [|split; [|split; [|split; [reflexivity|split; [reflexivity|]]]]].
  - rewrite Z.ltb_lt.
    pose proof (filter_shorter (fun u => negb (String.eqb (u_user_id u) user_id))
                               (users d)) as (Hle & Hlt).
    rewrite <- existsb_find. split.
    + intros H. erewrite existsb_agree; [apply Hlt; lia|].
      intros x. simpl. rewrite negb_involutive. reflexivity.
    + intros H. cut (List.length (List.filter (fun u => negb (String.eqb (u_user_id u) user_id))
                                              (users d)) < List.length (users d))%nat; [lia|].
      apply Hlt. erewrite existsb_agree; [exact H|].
      intros x. simpl. rewrite negb_involutive. reflexivity.
  - apply find_filter_dropped. intros x _ Hx. rewrite Hx. reflexivity.
  - intros other Hother. apply find_filter_kept. intros x _ Hx.
    apply String.eqb_eq in Hx. apply negb_true_iff, String.eqb_neq. congruence.
  - intros r row Huniq Hfind Hid.
    apply find_filter_dropped. intros x Hin Hx.
    apply negb_false_iff, String.eqb_eq.
    apply find_some in Hfind. destruct Hfind as (Hin' & Hrow).
    specialize (Huniq r). unfold regno_count in Huniq.
    destruct (in_split _ _ Hin) as (l1 & l2 & Hsplit).
    destruct (String.eqb (u_user_id x) user_id) eqn:Ex;
      [apply String.eqb_eq; exact Ex|exfalso].
    assert (Hne : x <> row) by (intros ->; rewrite Hid, String.eqb_refl in Ex; discriminate).
    rewrite Hsplit in Huniq, Hin'.
    rewrite List.filter_app in Huniq. simpl in Huniq. rewrite Hx in Huniq.
    rewrite List.length_app in Huniq. simpl in Huniq.
    apply in_app_or in Hin'. destruct Hin' as [Hin'|[Hin'|Hin']]; [|congruence|].
    + assert (Hl : In row (List.filter (has_regno r) l1))
        by (apply List.filter_In; auto).
      destruct (List.filter (has_regno r) l1); [destruct Hl|simpl in Huniq; lia].
    + assert (Hl : In row (List.filter (has_regno r) l2))
        by (apply List.filter_In; auto).
      destruct (List.filter (has_regno r) l2); [destruct Hl|simpl in Huniq; lia].
Qed.

Lemma delete_user_spec_witness :
  let d := fst (add_user empty example_clock "alice" "Alice" [1; 2; 3]
                         (Some "R001"%string) None None None None) in
  snd (delete_user_permanently d "alice") = true.
Proof.
  intros d. apply (proj1 (delete_user_spec d "alice")). discriminate.
Defined.

(** *** The analytics summary *)

Local Open Scope Q_scope.

Lemma sql_avg_none (avg : list Q -> Q) (column : list Q) :
  sql_avg avg column = None <-> column = [].
Proof. destruct column; simpl; split; congruence. Qed.

(** X14.  [get_analytics_summary] counts the rows of the date asked for
    (all rows when no date or an empty one is given).  The three averages
    are [None] exactly when that count is 0, so the result for a day
    without attendance is [(0, None, None, None)] and never
    [(0, 0.0, 0.0, 0.0)]; with one row or more, each of the three is a
    number.  A [mark_attendance] call that is refused leaves the summary
    as it was; a successful one raises the count of its date, and the
    overall count, by one, and leaves the count of every other date
    alone.  This holds whatever numbers the averages are. *)
Theorem analytics_summary_spec (avg : list Q -> Q) (d : DB) (date : option string) :
  let summary := get_analytics_summary avg d date in
  let total := fst (fst (fst summary)) in
  let avg_engagement := snd (fst (fst summary)) in
  let avg_liveness := snd (fst summary) in
  let avg_confidence := snd summary in
  (0 <= total)%Z
  /\ (date = None \/ date = Some EmptyString ->
      total = Z.of_nat (List.length (attendance d)))
  /\ ((total = 0)%Z <->
      avg_engagement = None /\ avg_liveness = None /\ avg_confidence = None)
  /\ ((0 < total)%Z ->
      exists e l c, avg_engagement = Some e /\ avg_liveness = Some l
                    /\ avg_confidence = Some c)
  /\ (forall now user_id name regno (ls : Q) emotion (eng : Q) (bh : option string)
             (enc : list Z) (conf : Q) location,
         let result := mark_attendance d now user_id name regno ls emotion eng bh enc
                                       conf location in
         let total' := fst (fst (fst (get_analytics_summary avg (fst result) date))) in
         (fst (snd result) = false ->
          get_analytics_summary avg (fst result) date = summary)
         /\ (fst (snd result) = true ->
             (date = None \/ date = Some EmptyString \/ date = Some (Py.date now) ->
              total' = (total + 1)%Z)
             /\ (forall day, date = Some day -> day <> EmptyString ->
                             day <> Py.date now -> total' = total))).
Proof.
  intros summary total avg_engagement avg_liveness avg_confidence.
  unfold avg_engagement, avg_liveness, avg_confidence, total, summary,
    get_analytics_summary.
  set (rows := if Py.truthy date then _ else _).
  cbn [fst snd].
  split; [lia|]. split.
  { intros [->| ->]; reflexivity. }
  split.
  { rewrite !sql_avg_none. destruct rows as [|r rows']; simpl.
    - split; auto.
    - split; [lia|]. intros (H & _). discriminate. }
  split.
  { destruct rows as [|r rows']; simpl; [lia|]. intros _.
    eexists _, _, _. split; [reflexivity|]. split; reflexivity. }
  intros now user_id name regno ls emotion eng bh enc conf location.
  unfold mark_attendance.
  destruct (already_marked d user_id (Py.date now)); cbn [fst snd].
  { split; [reflexivity|discriminate]. }
  split; [discriminate|]. intros _.
  unfold write_mark, update_user_statistics, insert_attendance.
  cbn [attendance]. unfold rows. split.
  - intros [->|[->| ->]].
    + simpl. rewrite List.length_app. simpl. lia.
    + simpl. rewrite List.length_app. simpl. lia.
    + destruct (Py.truthy (Some (Py.date now))).
      * rewrite List.filter_app, List.length_app. simpl.
        rewrite String.eqb_refl. simpl. lia.
      * rewrite List.length_app. simpl. lia.
  - intros day -> Hday Hother.
    assert (Ht : Py.truthy (Some day) = true).
    { simpl. apply negb_true_iff, String.eqb_neq, Hday. }
    rewrite Ht, List.filter_app, List.length_app. simpl.
    apply not_eq_sym, String.eqb_neq in Hother. rewrite Hother. simpl. lia.
Qed.

(** On the example table, with its one row of 2025-01-01 (the average of
    a single value is that value); then Bob is marked on that day. *)
Lemma analytics_summary_spec_witness :
  let first_value (column : list Q) := hd 0%Q column in
  let bob := mark_attendance example_marked example_clock "bob" "Bob" "R002" 0.8 "Happy" 75
                             None [4; 5; 6]%Z 0.5 "Main Campus" in
  get_analytics_summary first_value example_marked (Some "2025-01-01"%string)
  = (1%Z, Some 50%Q, Some 0.9%Q, Some 0.625%Q)
  /\ get_analytics_summary first_value example_marked (Some "2025-01-02"%string)
     = (0%Z, None, None, None)
  /\ fst (fst (fst (get_analytics_summary first_value (fst bob)
                                          (Some "2025-01-01"%string)))) = 2%Z.
Proof.
  cbv zeta. split; [reflexivity|]. split; [reflexivity|].
  pose proof (analytics_summary_spec (fun column => hd 0%Q column) example_marked
                (Some "2025-01-01"%string)) as H.
  cbv zeta in H. destruct H as (_ & _ & _ & _ & H).
  destruct (H example_clock "bob"%string "Bob"%string "R002"%string 0.8%Q "Happy"%string
              75%Q None [4; 5; 6]%Z 0.5%Q "Main Campus"%string) as (_ & Hok).
  destruct (Hok eq_refl) as (Hcount & _).
  rewrite Hcount; [reflexivity|]. right. right. reflexivity.
Defined.

(** *** Listing the users *)

Lemma order_by_name_permutation (rows : list UserRow) : order_by_name rows ≡ₚ rows.
Proof.
  unfold order_by_name.
  rewrite (Permutation_map snd (sort_items_is_permutation _)).
  rewrite List.map_map. simpl. rewrite List.map_id. reflexivity.
Qed.

Lemma order_by_name_lookup (rows : list UserRow) (i : nat) (r1 r2 : UserRow) :
  order_by_name rows !! i = Some r1 ->
  order_by_name rows !! S i = Some r2 ->
  String.leb (u_name r1) (u_name r2) = true.
Proof.
  unfold order_by_name.
  set (sorted := Json.sort_items (List.map (fun r => (u_name r, r)) rows)).
  change (List.map snd sorted) with (snd <$> sorted).
  rewrite !list_lookup_fmap. intros H1 H2.
  destruct (sorted !! i) as [p1|] eqn:E1; [|discriminate].
  destruct (sorted !! S i) as [p2|] eqn:E2; [|discriminate].
  simpl in H1, H2. injection H1 as <-. injection H2 as <-.
  assert (Hkey : forall p, In p sorted -> fst p = u_name (snd p)).
  { intros p Hp. apply list_elem_of_In in Hp. unfold sorted in Hp.
    rewrite sort_items_is_permutation in Hp. apply list_elem_of_In, in_map_iff in Hp.
    destruct Hp as (r & <- & _). reflexivity. }
  rewrite <- (Hkey p1), <- (Hkey p2).
  - exact (ascending_lookup sorted (sort_items_ascending _) _ _ _ E1 E2).
  - apply list_elem_of_In, list_elem_of_lookup. eauto.
  - apply list_elem_of_In, list_elem_of_lookup. eauto.
Qed.

Lemma filter_all {A} (f : A -> bool) (l : list A) :
  (forall x, In x l -> f x = true) -> List.filter f l = l.
Proof.
  induction l as [|a l IH]; intros H; [reflexivity|]. simpl.
  rewrite (H a (or_introl eq_refl)). f_equal. apply IH.
  intros x Hx. apply H. right. exact Hx.
Qed.

(** X27.  No method of the module clears [is_active]: a table in which
    every user is active stays so under [add_user], [mark_attendance]
    and [delete_user_permanently].  On such a table
    [get_all_users(active_only=True)] returns the same list as
    [get_all_users(active_only=False)]: every user row, each once, in
    ascending order of [name]. *)
Theorem all_users_are_listed (d : DB) :
  all_active d ->
  (forall now user_id name enc regno email department phone created_by,
      all_active
        (fst (add_user d now user_id name enc regno email department phone created_by)))
  /\ (forall now user_id name regno (ls : Q) emotion (eng : Q) (bh : option string)
             (enc : list Z) (conf : Q) location,
         all_active
           (fst (mark_attendance d now user_id name regno ls emotion eng bh enc conf
                                 location)))
  /\ (forall user_id, all_active (fst (delete_user_permanently d user_id)))
  /\ get_all_users d true = get_all_users d false
  /\ get_all_users d true ≡ₚ users d
  /\ (forall i r1 r2,
         get_all_users d true !! i = Some r1 -> get_all_users d true !! S i = Some r2 ->
         String.leb (u_name r1) (u_name r2) = true).
Proof.
  intros Hact.
  assert (Hsame : List.filter (fun r => u_is_active r =? 1)%Z (users d) = users d).
  { apply filter_all. intros r Hr. rewrite (Hact r Hr). reflexivity. }
  split; [|split; [|split; [|split; [|split]]]].
  - intros. unfold add_user. destruct (_ && _); [exact Hact|].
    cbn [fst]. unfold all_active, insert_or_replace_user. cbn [users].
    intros r Hr. apply in_app_or in Hr. destruct Hr as [Hr|[<-|[]]]; [|reflexivity].
    apply List.filter_In in Hr. apply Hact, Hr.
  - intros. unfold mark_attendance. destruct (already_marked _ _ _); [exact Hact|].
    cbn [fst]. unfold all_active, write_mark, update_user_statistics, insert_attendance.
    cbn [users]. intros r Hr. apply in_map_iff in Hr. destruct Hr as (x & <- & Hx).
    unfold bump_user. destruct (String.eqb _ _); [simpl|]; apply Hact, Hx.
  - intros user_id. unfold all_active, delete_user_permanently. cbn [fst users].
    intros r Hr. apply List.filter_In in Hr. apply Hact, Hr.
  - unfold get_all_users. rewrite Hsame. reflexivity.
  - unfold get_all_users. rewrite Hsame. apply order_by_name_permutation.
  - unfold get_all_users. rewrite Hsame. intros i r1 r2.
    apply order_by_name_lookup.
Qed.

(** On the example table, Bob was registered before Alice; the listing
    has Alice first. *)
Lemma all_users_are_listed_witness :
  get_all_users example_marked true = get_all_users example_marked false
  /\ List.map u_name (get_all_users example_marked true) = ["Alice"%string; "Bob"%string]
  /\ List.map u_name (users example_marked) = ["Bob"%string; "Alice"%string].
Proof.
  assert (Hact : all_active example_marked).
  { intros r Hr. vm_compute in Hr. destruct Hr as [<-|[<-|[]]]; reflexivity. }
  destruct (all_users_are_listed example_marked Hact) as (_ & _ & _ & Hsame & _).
  split; [exact Hsame|]. split; reflexivity.
Defined.

End DatabaseMore.

(* ===================================================================== *)
(** ** The emotion window                                                 *)
(* ===================================================================== *)

Section EmotionMore.
Import Emotion.
Local Open Scope Q_scope.

(** *** The range of the engagement score *)

Lemma engaged_or_disengaged (e : string) :
  Py.str_in e ENGAGED_EMOTIONS && Py.str_in e DISENGAGED_EMOTIONS = false.
Proof.
  unfold Py.str_in, ENGAGED_EMOTIONS, DISENGAGED_EMOTIONS. simpl.
  destruct (String.eqb_spec e "Happy") as [->|_]; [reflexivity|].
  destruct (String.eqb_spec e "Surprise") as [->|_]; reflexivity.
Qed.

Local Arguments Py.str_in : simpl never.

Lemma counts_bounded (history : list string) :
  (0 <= count_in ENGAGED_EMOTIONS history
   /\ 0 <= count_in DISENGAGED_EMOTIONS history
   /\ count_in ENGAGED_EMOTIONS history + count_in DISENGAGED_EMOTIONS history
      <= Z.of_nat (List.length history))%Z.
Proof.
  unfold count_in. split; [lia|]. split; [lia|].
  induction history as [|e w IH]; simpl List.filter; [simpl; lia|].
  pose proof (engaged_or_disengaged e) as He.
  destruct (Py.str_in e ENGAGED_EMOTIONS), (Py.str_in e DISENGAGED_EMOTIONS);
    try discriminate; simpl List.length; lia.
Qed.

Lemma count_in_all (labels history : list string) :
  (forall e, In e history -> Py.str_in e labels = true) ->
  count_in labels history = Z.of_nat (List.length history).
Proof.
  intros H. unfold count_in. f_equal.
  induction history as [|e w IH]; [reflexivity|].
  simpl. rewrite (H e (or_introl eq_refl)). simpl. f_equal.
  apply IH. intros x Hx. apply H. right. exact Hx.
Qed.

Lemma count_in_none (labels history : list string) :
  (forall e, In e history -> Py.str_in e labels = false) ->
  count_in labels history = 0%Z.
Proof.
  intros H. unfold count_in.
  induction history as [|e w IH]; [reflexivity|].
  simpl. rewrite (H e (or_introl eq_refl)).
  apply IH. intros x Hx. apply H. right. exact Hx.
Qed.

(** The value that is clamped and rounded, from the two counts. *)
Lemma score_from_counts (self : EmotionDetector) :
  emotion_history self <> [] ->
  calculate_engagement_score self
  = Py.round
      (Py.max 0
         (Py.min 100
            (50 + (inject_Z (count_in ENGAGED_EMOTIONS (emotion_history self))
                   - inject_Z (count_in DISENGAGED_EMOTIONS (emotion_history self)) * 0.5)
                  / inject_Z (Z.of_nat (List.length (emotion_history self))) * 50))) 2.
Proof.
  intros Hne. unfold calculate_engagement_score.
  destruct (emotion_history self); [congruence|reflexivity].
Qed.

Lemma raw_score_bounds (engaged disengaged total : Z) :
  (0 <= engaged)%Z -> (0 <= disengaged)%Z -> (engaged + disengaged <= total)%Z ->
  (0 < total)%Z ->
  25 <= 50 + (inject_Z engaged - inject_Z disengaged * 0.5) / inject_Z total * 50
  /\ 50 + (inject_Z engaged - inject_Z disengaged * 0.5) / inject_Z total * 50 <= 100.
Proof.
  intros He Hd Hsum Ht.
  assert (He' : 0 <= inject_Z engaged)
    by (change 0 with (inject_Z 0); rewrite <- Zle_Qle; exact He).
  assert (Hd' : 0 <= inject_Z disengaged)
    by (change 0 with (inject_Z 0); rewrite <- Zle_Qle; exact Hd).
  assert (Hs' : inject_Z engaged + inject_Z disengaged <= inject_Z total)
    by (rewrite <- inject_Z_plus, <- Zle_Qle; exact Hsum).
  assert (Ht' : 0 < inject_Z total)
    by (change 0 with (inject_Z 0); rewrite <- Zlt_Qlt; exact Ht).
  set (e := inject_Z engaged) in *. set (d := inject_Z disengaged) in *.
  set (t := inject_Z total) in *.
  assert (Hlo : - (1 # 2) <= (e - d * 0.5) / t) by (apply Qle_shift_div_l; lra).
  assert (Hhi : (e - d * 0.5) / t <= 1) by (apply Qle_shift_div_r; lra).
  split; lra.
Qed.

Lemma clamp_inside (x : Q) : 0 <= x -> x <= 100 -> Py.max 0 (Py.min 100 x) == x.
Proof.
  intros H0 H100.
  destruct (min_spec 100 x) as [(H & ->)|(H & ->)];
    [destruct (max_spec 0 x) as [(H' & ->)|(H' & ->)]; lra|].
  destruct (max_spec 0 100) as [(H' & ->)|(H' & ->)]; lra.
Qed.

(** X15.  The engagement score of a non-empty window lies between 25 and
    100: the lower clamp at 0 is never reached.  It is 100 when every
    label of the window is engaged ([Happy], [Surprise]), 25 when every
    label is disengaged ([Sad], [Anger], [Fear]), and 50 when no label is
    either; with no engaged label in the window it is at most 50, so
    [is_engaged] at its default threshold 60 is false. *)
Theorem engagement_score_range (self : EmotionDetector) :
  emotion_history self <> [] ->
  (25 <= calculate_engagement_score self /\ calculate_engagement_score self <= 100)
  /\ ((forall e, In e (emotion_history self) -> Py.str_in e ENGAGED_EMOTIONS = true) ->
      calculate_engagement_score self == 100)
  /\ ((forall e, In e (emotion_history self) -> Py.str_in e DISENGAGED_EMOTIONS = true) ->
      calculate_engagement_score self == 25)
  /\ ((forall e, In e (emotion_history self) ->
                 Py.str_in e ENGAGED_EMOTIONS = false
                 /\ Py.str_in e DISENGAGED_EMOTIONS = false) ->
      calculate_engagement_score self == 50)
  /\ ((forall e, In e (emotion_history self) -> Py.str_in e ENGAGED_EMOTIONS = false) ->
      calculate_engagement_score self <= 50 /\ is_engaged self 60 = false).
Proof.
  intros Hne. unfold is_engaged. rewrite (score_from_counts self Hne).
  destruct (counts_bounded (emotion_history self)) as (He & Hd & Hsum).
  assert (Ht : (0 < Z.of_nat (List.length (emotion_history self)))%Z)
    by (destruct (emotion_history self); [congruence|simpl; lia]).
  assert (Ht' : ~ inject_Z (Z.of_nat (List.length (emotion_history self))) == 0).
  { change 0 with (inject_Z 0). rewrite inject_Z_injective. lia. }
  destruct (raw_score_bounds _ _ _ He Hd Hsum Ht) as (Hlo & Hhi).
  set (E := count_in ENGAGED_EMOTIONS (emotion_history self)) in *.
  set (D := count_in DISENGAGED_EMOTIONS (emotion_history self)) in *.
  set (T := Z.of_nat (List.length (emotion_history self))) in *.
  set (raw := 50 + (inject_Z E - inject_Z D * 0.5) / inject_Z T * 50) in *.
  assert (Hclamp : Py.max 0 (Py.min 100 raw) == raw) by (apply clamp_inside; lra).
  assert (Hexact : forall v : Q, raw == v -> Py.round (Py.max 0 (Py.min 100 raw)) 2
                                             = Py.round v 2).
  { intros v Hv. apply round_comp. rewrite Hclamp. exact Hv. }
  split; [|split; [|split; [|split]]].
  - apply (round_bounds _ 2 25 100); rewrite Hclamp; assumption.
  - intros Hall.
    assert (HE : E = T) by (apply count_in_all; exact Hall).
    assert (HD : D = 0%Z) by lia.
    rewrite (Hexact 100); [vm_compute; reflexivity|].
    unfold raw. rewrite HE, HD. change (inject_Z 0) with 0. field. exact Ht'.
  - intros Hall.
    assert (HD : D = T) by (apply count_in_all; exact Hall).
    assert (HE : E = 0%Z) by lia.
    rewrite (Hexact 25); [vm_compute; reflexivity|].
    unfold raw. rewrite HE, HD. change (inject_Z 0) with 0. field. exact Ht'.
  - intros Hnone.
    assert (HE : E = 0%Z) by (apply count_in_none; intros e Hin; apply Hnone; exact Hin).
    assert (HD : D = 0%Z) by (apply count_in_none; intros e Hin; apply Hnone; exact Hin).
    rewrite (Hexact 50); [vm_compute; reflexivity|].
    unfold raw. rewrite HE, HD. change (inject_Z 0) with 0. field. exact Ht'.
  - intros Hnone.
    assert (HE : E = 0%Z) by (apply count_in_none; exact Hnone).
    assert (Hraw : raw <= 50).
    { unfold raw. rewrite HE. change (inject_Z 0) with 0.
      assert (Hd' : 0 <= inject_Z D)
        by (change 0 with (inject_Z 0); rewrite <- Zle_Qle; exact Hd).
      assert (HT : 0 < inject_Z T)
        by (change 0 with (inject_Z 0); rewrite <- Zlt_Qlt; exact Ht).
      assert (Hq : (0 - inject_Z D * 0.5) / inject_Z T <= 0)
        by (apply Qle_shift_div_r; lra).
      lra. }
    assert (Hr : Py.round (Py.max 0 (Py.min 100 raw)) 2 <= 50).
    { apply (round_bounds _ 2 25 50); rewrite Hclamp; assumption. }
    split; [exact Hr|].
    unfold Py.Qleb. destruct (Qle_bool 60 _) eqn:Eb; [|reflexivity].
    apply Qle_bool_iff in Eb. lra.
Qed.

Lemma engagement_score_range_witness :
  25 <= calculate_engagement_score (mkEmotionDetector 30 ["Sad"; "Anger"]%string)
  /\ calculate_engagement_score (mkEmotionDetector 30 ["Sad"; "Anger"]%string) <= 100.
Proof.
  apply (engagement_score_range (mkEmotionDetector 30 ["Sad"; "Anger"]%string)).
  discriminate.
Defined.

(** *** The window *)

Lemma record_all (labels : list string) : forall self,
  history_size (fold_left record_emotion labels self) = history_size self
  /\ emotion_history (fold_left record_emotion labels self)
     = fold_left (Py.deque_append (history_size self)) labels (emotion_history self).
Proof.
  induction labels as [|e labels IH]; intros self; [split; reflexivity|].
  simpl fold_left. destruct (IH (record_emotion self e)) as (H1 & H2).
  rewrite H1, H2. split; reflexivity.
Qed.

(** X16.  The window never holds more than [history_size] labels, and
    after any number of recordings it holds the latest ones, oldest
    first.  Once [history_size] labels have been recorded, nothing of the
    earlier window is left, so the engagement score depends on the last
    [history_size] labels only. *)
Theorem window_keeps_latest (self : EmotionDetector) (labels : list string) :
  (List.length (emotion_history self) <= history_size self)%nat ->
  let self' := fold_left record_emotion labels self in
  let all := emotion_history self ++ labels in
  history_size self' = history_size self
  /\ emotion_history self' = skipn (List.length all - history_size self) all
  /\ (List.length (emotion_history self') <= history_size self)%nat
  /\ ((history_size self <= List.length labels)%nat ->
      emotion_history self' = skipn (List.length labels - history_size self) labels
      /\ calculate_engagement_score self'
         = calculate_engagement_score
             (mkEmotionDetector (history_size self)
                (skipn (List.length labels - history_size self) labels))).
Proof.
  intros Hlen self' all. destruct (record_all labels self) as (Hsize & Hhist).
  assert (Hwin : emotion_history self'
                 = skipn (List.length all - history_size self) all).
  { unfold self'. rewrite Hhist. apply deque_append_all. exact Hlen. }
  split; [exact Hsize|]. split; [exact Hwin|]. split.
  { rewrite Hwin, List.length_skipn. unfold all. rewrite List.length_app. lia. }
  intros Hfull.
  assert (Hlast : emotion_history self'
                  = skipn (List.length labels - history_size self) labels).
  { rewrite Hwin. unfold all. rewrite List.skipn_app, List.length_app.
    rewrite List.skipn_all2 by lia. simpl. f_equal. lia. }
  split; [exact Hlast|].
  unfold calculate_engagement_score. cbn [emotion_history]. rewrite Hlast. reflexivity.
Qed.

Lemma window_keeps_latest_witness :
  emotion_history (fold_left record_emotion ["Happy"; "Sad"; "Fear"]%string (init 2))
  = ["Sad"; "Fear"]%string.
Proof.
  apply (window_keeps_latest (init 2) ["Happy"; "Sad"; "Fear"]%string); simpl; lia.
Defined.

(** *** The dominant emotion *)

Lemma distinct_In (history : list string) (e : string) :
  In e (distinct history) <-> In e history.
Proof.
  induction history as [|x h IH]; simpl; [tauto|]. split.
  - intros [->|H]; [left; reflexivity|].
    apply List.filter_In in H. right. apply IH, H.
  - intros [->|H]; [left; reflexivity|].
    destruct (String.eqb_spec e x) as [->|Hne]; [left; reflexivity|].
    right. apply List.filter_In. split; [apply IH, H|].
    apply negb_true_iff, String.eqb_neq. exact Hne.
Qed.

Lemma distinct_NoDup (history : list string) : NoDup (distinct history).
Proof.
  induction history as [|x h IH]; simpl; [apply NoDup_nil_2|].
  apply NoDup_cons. split.
  - intros H. apply list_elem_of_In, List.filter_In in H. destruct H as (_ & H).
    rewrite String.eqb_refl in H. discriminate.
  - clear -IH. induction (distinct h) as [|y l IHl]; simpl; [apply NoDup_nil_2|].
    apply NoDup_cons in IH. destruct IH as (Hy & Hl).
    destruct (negb (String.eqb y x)); [|apply IHl; exact Hl].
    apply NoDup_cons. split; [|apply IHl; exact Hl].
    intros H. apply Hy. apply list_elem_of_In, List.filter_In in H.
    apply list_elem_of_In, H.
Qed.

Lemma distinct_snoc (history : list string) (e : string) :
  (In e history -> distinct (history ++ [e]) = distinct history)
  /\ (~ In e history -> distinct (history ++ [e]) = distinct history ++ [e]).
Proof.
  induction history as [|x h (IH1 & IH2)]; [split; [intros []|reflexivity]|].
  change (distinct ((x :: h) ++ [e]))
    with (x :: List.filter (fun y => negb (String.eqb y x)) (distinct (h ++ [e]))).
  change (distinct (x :: h))
    with (x :: List.filter (fun y => negb (String.eqb y x)) (distinct h)).
  destruct (in_dec string_dec e h) as [Hin|Hout].
  - split; [|intros H; exfalso; apply H; right; exact Hin].
    intros _. rewrite (IH1 Hin). reflexivity.
  - rewrite (IH2 Hout), List.filter_app. simpl. split.
    + intros [->|Hin]; [|contradiction].
      rewrite String.eqb_refl. simpl. rewrite app_nil_r. reflexivity.
    + intros Hn.
      assert (Hne : String.eqb e x = false)
        by (apply String.eqb_neq; intros ->; apply Hn; left; reflexivity).
      rewrite Hne. reflexivity.
Qed.

Lemma count_up_keys (e : string) (counts : list (string * Z)) :
  (In e (List.map fst counts) -> List.map fst (count_up e counts) = List.map fst counts)
  /\ (~ In e (List.map fst counts) ->
      List.map fst (count_up e counts) = List.map fst counts ++ [e]).
Proof.
  induction counts as [|[k v] rest (IH1 & IH2)]; [split; [intros []|reflexivity]|].
  simpl. destruct (String.eqb_spec k e) as [->|Hne]; simpl.
  - split; [reflexivity|]. intros H. exfalso. apply H. left. reflexivity.
  - split.
    + intros [H|H]; [contradiction|]. rewrite (IH1 H). reflexivity.
    + intros H. rewrite IH2; [reflexivity|]. intros H'. apply H. right. exact H'.
Qed.

Lemma count_up_get (e k : string) (counts : list (string * Z)) :
  counts_get k (count_up e counts)
  = (counts_get k counts + if String.eqb k e then 1 else 0)%Z.
Proof.
  induction counts as [|[k0 v0] rest IH]; simpl.
  - rewrite (String.eqb_sym e k). destruct (String.eqb k e); reflexivity.
  - destruct (String.eqb_spec k0 e) as [->|Hne]; simpl.
    + rewrite (String.eqb_sym e k). destruct (String.eqb k e); lia.
    + destruct (String.eqb_spec k0 k) as [->|Hne'].
      * assert (H : String.eqb k e = false) by (apply String.eqb_neq; exact Hne).
        rewrite H. lia.
      * exact IH.
Qed.

Lemma counts_get_in (counts : list (string * Z)) (k : string) (v : Z) :
  NoDup (List.map fst counts) -> In (k, v) counts -> counts_get k counts = v.
Proof.
  induction counts as [|[k0 v0] rest IH]; intros Hnd Hin; [destruct Hin|].
  simpl in Hnd. apply NoDup_cons in Hnd. destruct Hnd as (Hk0 & Hnd).
  simpl. destruct Hin as [Heq|Hin].
  - injection Heq as -> ->. rewrite String.eqb_refl. reflexivity.
  - destruct (String.eqb_spec k0 k) as [->|Hne]; [|apply IH; assumption].
    exfalso. apply Hk0. apply list_elem_of_In, in_map_iff. exists (k, v). auto.
Qed.

Lemma occurrences_snoc (k e : string) (history : list string) :
  occurrences k (history ++ [e])
  = (occurrences k history + if String.eqb k e then 1 else 0)%Z.
Proof.
  unfold occurrences. rewrite List.filter_app, List.length_app. simpl.
  destruct (String.eqb k e); simpl; lia.
Qed.

Lemma occurrences_zero (k : string) (history : list string) :
  ~ In k history -> occurrences k history = 0%Z.
Proof.
  intros H. unfold occurrences.
  induction history as [|x h IH]; [reflexivity|]. simpl.
  destruct (String.eqb_spec k x) as [->|_]; [exfalso; apply H; left; reflexivity|].
  apply IH. intros Hin. apply H. right. exact Hin.
Qed.

(** The dictionary built by the counting loop. *)
Lemma emotion_counts_spec (history : list string) :
  let emotion_counts := fold_left (fun counts emotion => count_up emotion counts)
                                  history [] in
  List.map fst emotion_counts = distinct history
  /\ forall k, counts_get k emotion_counts = occurrences k history.
Proof.
  induction history as [|e h IH] using rev_ind; [split; reflexivity|].
  cbv zeta in *. rewrite fold_left_app. simpl.
  destruct IH as (Hkeys & Hget).
  set (counts := fold_left _ h []) in *. split.
  - destruct (in_dec string_dec e h) as [Hin|Hout].
    + rewrite (proj1 (distinct_snoc h e) Hin), <- Hkeys.
      apply count_up_keys. rewrite Hkeys. apply distinct_In. exact Hin.
    + rewrite (proj2 (distinct_snoc h e) Hout), <- Hkeys.
      apply count_up_keys. rewrite Hkeys, distinct_In. exact Hout.
  - intros k. rewrite count_up_get, occurrences_snoc, Hget. reflexivity.
Qed.

(** [max] returns the first of the greatest. *)
Lemma max_by_count_spec (items : list (string * Z)) : forall best,
  exists pre kv post,
    best :: items = pre ++ kv :: post
    /\ fst kv = max_by_count best items
    /\ (forall x, In x pre -> (snd x < snd kv)%Z)
    /\ (forall x, In x post -> (snd x <= snd kv)%Z)
    /\ (snd best <= snd kv)%Z.
Proof.
  induction items as [|kv' rest IH]; intros best.
  - exists [], best, []. simpl. repeat split; try tauto; lia.
  - simpl. destruct (snd best <? snd kv')%Z eqn:E.
    + apply Z.ltb_lt in E.
      destruct (IH kv') as (pre & kv & post & Hsplit & Hfst & Hpre & Hpost & Hbest).
      exists (best :: pre), kv, post. simpl. rewrite Hsplit.
      split; [reflexivity|]. split; [exact Hfst|]. split; [|split; [exact Hpost|lia]].
      intros x [<-|Hx]; [lia|apply Hpre; exact Hx].
    + apply Z.ltb_ge in E.
      destruct (IH best) as (pre & kv & post & Hsplit & Hfst & Hpre & Hpost & Hbest).
      destruct pre as [|p pre].
      * simpl in Hsplit. injection Hsplit as <- <-.
        exists [], best, (kv' :: rest). simpl.
        split; [reflexivity|]. split; [exact Hfst|]. split; [tauto|].
        split; [|lia]. intros x [<-|Hx]; [exact E|apply Hpost; exact Hx].
      * simpl in Hsplit. injection Hsplit as <- Hrest.
        exists (best :: kv' :: pre), kv, post. simpl.
        split; [do 2 f_equal; exact Hrest|]. split; [exact Hfst|].
        pose proof (Hpre best (or_introl eq_refl)) as Hb.
        split; [|split; [exact Hpost|lia]].
        intros x [<-|[<-|Hx]]; [exact Hb|lia|apply Hpre; right; exact Hx].
Qed.

(** X17.  [get_dominant_emotion] returns ['Neutral'] on an empty window.
    On a non-empty one it returns a label of the window that no other
    label outnumbers; when several labels are the most frequent, it
    returns the one among them that entered the window first: every
    label that first appears before it occurs strictly less often. *)
Theorem dominant_emotion_is_first_mode (self : EmotionDetector) :
  (emotion_history self = [] -> get_dominant_emotion self = "Neutral"%string)
  /\ (emotion_history self <> [] ->
      let history := emotion_history self in
      let dominant := get_dominant_emotion self in
      In dominant history
      /\ (forall e, (occurrences e history <= occurrences dominant history)%Z)
      /\ exists earlier later,
           distinct history = earlier ++ dominant :: later
           /\ (forall e, In e earlier ->
                         (occurrences e history < occurrences dominant history)%Z)).
Proof.
  split.
  { intros H. unfold get_dominant_emotion. rewrite H. reflexivity. }
  intros Hne history dominant.
  destruct (emotion_counts_spec history) as (Hkeys & Hget).
  assert (Hdom : dominant
                 = match fold_left (fun counts emotion => count_up emotion counts)
                                   history [] with
                   | [] => "Neutral"%string
                   | kv :: rest => max_by_count kv rest
                   end).
  { unfold dominant, get_dominant_emotion, history.
    destruct (emotion_history self); [congruence|reflexivity]. }
  set (counts := fold_left _ history []) in *.
  assert (Hnd : NoDup (List.map fst counts)) by (rewrite Hkeys; apply distinct_NoDup).
  destruct counts as [|kv0 rest] eqn:Ec.
  { exfalso. simpl in Hkeys. revert Hkeys. unfold history.
    destruct (emotion_history self); [congruence|discriminate]. }
  destruct (max_by_count_spec rest kv0)
    as (pre & kv & post & Hsplit & Hfst & Hpre & Hpost & _).
  rewrite <- Hdom in Hfst.
  assert (Hin : forall x, In x (pre ++ kv :: post) ->
                          occurrences (fst x) history = snd x).
  { intros [k v] Hx. rewrite <- Hget. apply counts_get_in; [exact Hnd|].
    rewrite Hsplit. exact Hx. }
  assert (Hkv : occurrences dominant history = snd kv).
  { rewrite <- Hfst. apply Hin. apply in_or_app. right. left. reflexivity. }
  assert (Hd : distinct history = List.map fst pre ++ dominant :: List.map fst post).
  { rewrite <- Hkeys, Hsplit, List.map_app. simpl. rewrite Hfst. reflexivity. }
  assert (Hearlier : forall e, In e (List.map fst pre) ->
                               (occurrences e history < occurrences dominant history)%Z).
  { intros e He. apply in_map_iff in He. destruct He as (x & <- & Hx).
    rewrite Hkv, (Hin x) by (apply in_or_app; left; exact Hx). apply Hpre, Hx. }
  split; [|split].
  - apply distinct_In. rewrite Hd. apply in_or_app. right. left. reflexivity.
  - intros e. destruct (in_dec string_dec e history) as [He|He].
    + apply distinct_In in He. rewrite Hd in He.
      apply in_app_or in He. destruct He as [He|[<-|He]].
      * apply Z.lt_le_incl, Hearlier, He.
      * lia.
      * apply in_map_iff in He. destruct He as (x & <- & Hx).
        rewrite Hkv, (Hin x) by (apply in_or_app; right; right; exact Hx).
        apply Hpost, Hx.
    + rewrite (occurrences_zero e history He). unfold occurrences. lia.
  - exists (List.map fst pre), (List.map fst post). split; [exact Hd|exact Hearlier].
Qed.

Lemma dominant_emotion_is_first_mode_witness :
  In (get_dominant_emotion (mkEmotionDetector 30 ["Sad"; "Happy"; "Happy"; "Sad"]%string))
     ["Sad"; "Happy"; "Happy"; "Sad"]%string.
Proof.
  apply (proj2 (dominant_emotion_is_first_mode
                  (mkEmotionDetector 30 ["Sad"; "Happy"; "Happy"; "Sad"]%string))).
  discriminate.
Defined.

(** *** The labels of the simple detector *)

Lemma classify_labels (brightness contrast edge_density gradient : Q) :
  In (fst (_classify_emotion brightness contrast edge_density gradient))
     ["Neutral"; "Happy"; "Sad"; "Surprise"; "Anger"; "Fear"]%string.
Proof.
  unfold _classify_emotion.
  repeat match goal with
         | |- context [if ?c then _ else _] => destruct c
         end; simpl; tauto.
Qed.

Lemma deque_append_In {A} (maxlen : nat) (d : list A) (x y : A) :
  In y (Py.deque_append maxlen d x) -> In y d \/ y = x.
Proof.
  unfold Py.deque_append. intros H.
  assert (H' : In y (d ++ [x])).
  { rewrite <- (firstn_skipn (List.length (d ++ [x]) - maxlen) (d ++ [x])).
    apply in_or_app. right. exact H. }
  apply in_app_or in H'. destruct H' as [H'|[H'|[]]]; auto.
Qed.

(** X18.  [detect_emotion_simple] reports one of the six labels
    [Neutral], [Happy], [Sad], [Surprise], [Anger], [Fear], and never
    [Disgust], although [EMOTIONS] lists it.  So a window that is filled
    by the detector never holds [Disgust], and
    [get_emotion_distribution] gives it the share 0. *)
Theorem simple_detector_never_reports_disgust :
  (forall self features,
      In (fst (snd (detect_emotion_simple self features)))
         ["Neutral"; "Happy"; "Sad"; "Surprise"; "Anger"; "Fear"]%string
      /\ In (fst (snd (detect_emotion_simple self features))) EMOTIONS
      /\ fst (snd (detect_emotion_simple self features)) <> "Disgust"%string)
  /\ (forall self frames,
         ~ In "Disgust"%string (emotion_history self) ->
         let self' := fold_left (fun s features => fst (detect_emotion_simple s features))
                                frames self in
         ~ In "Disgust"%string (emotion_history self')
         /\ forall share, In ("Disgust"%string, share) (get_emotion_distribution self') ->
                          share == 0).
Proof.
  assert (Hsix : forall self features,
             In (fst (snd (detect_emotion_simple self features)))
                ["Neutral"; "Happy"; "Sad"; "Surprise"; "Anger"; "Fear"]%string).
  { intros self [[[[b c] e] g]|]; simpl; [|tauto].
    pose proof (classify_labels b c e g) as H.
    destruct (_classify_emotion b c e g) as [label confidence]. exact H. }
  assert (Hnot : forall self features,
             fst (snd (detect_emotion_simple self features)) <> "Disgust"%string).
  { intros self features Heq. pose proof (Hsix self features) as H.
    rewrite Heq in H. simpl in H.
    repeat (destruct H as [H|H]; [discriminate|]). exact H. }
  split.
  { intros self features. split; [apply Hsix|]. split; [|apply Hnot].
    pose proof (Hsix self features) as H. unfold EMOTIONS. simpl in *. tauto. }
  intros self frames. revert self.
  assert (Hstep : forall self features,
             ~ In "Disgust"%string (emotion_history self) ->
             ~ In "Disgust"%string
                  (emotion_history (fst (detect_emotion_simple self features)))).
  { intros self features Hself Hin.
    pose proof (Hnot self features) as Hlabel.
    destruct features as [[[[b c] e] g]|]; simpl in Hin, Hlabel; [|contradiction].
    destruct (_classify_emotion b c e g) as [label confidence].
    simpl in Hin, Hlabel. apply deque_append_In in Hin.
    destruct Hin as [Hin|Hin]; [contradiction|congruence]. }
  induction frames as [|f frames IH]; intros self Hself self'.
  - split; [exact Hself|]. intros share Hin. unfold self' in Hin. simpl in Hin.
    unfold get_emotion_distribution in Hin.
    destruct (emotion_history self) as [|e0 w] eqn:Eh; [destruct Hin|].
    apply in_map_iff in Hin. destruct Hin as (emotion & Heq & _).
    injection Heq as -> <-.
    rewrite (count_in_none ["Disgust"%string] (e0 :: w)).
    + assert (Hz : forall t : Q, inject_Z 0 / t * 100 == 0).
      { intros t. unfold Qdiv. change (inject_Z 0) with 0. ring. }
      rewrite (round_comp _ 0 1 (Hz _)). vm_compute. reflexivity.
    + intros e Hin. unfold Py.str_in. simpl. rewrite orb_false_r.
      apply String.eqb_neq. intros ->. apply Hself. exact Hin.
  - exact (IH (fst (detect_emotion_simple self f)) (Hstep self f Hself)).
Qed.

Lemma simple_detector_never_reports_disgust_witness :
  ~ In "Disgust"%string
       (emotion_history
          (fold_left (fun s features => fst (detect_emotion_simple s features))
                     [Some (140, 50, 0.1, 10); None; Some (80, 10, 0.05, 10)] (init 30))).
Proof.
  apply (proj2 simple_detector_never_reports_disgust (init 30)). simpl. tauto.
Defined.

End EmotionMore.

(* ===================================================================== *)
(** ** The tracker: invariants, smoothing, display                        *)
(* ===================================================================== *)

Section TrackerMore.
Import Tracker.

(** *** What every reachable tracker satisfies *)

Lemma call_parameters (self : AttendanceTracker) (m : Method) :
  detection_threshold (call self m) = detection_threshold self
  /\ detection_cooldown (call self m) = detection_cooldown self
  /\ display_duration (call self m) = display_duration self
  /\ liveness_window (call self m) = liveness_window self
  /\ recognized_today (call self m) = recognized_today self.
Proof. destruct m; repeat split; reflexivity. Qed.

Lemma calls_parameters (ms : list Method) : forall self,
  detection_threshold (calls self ms) = detection_threshold self
  /\ detection_cooldown (calls self ms) = detection_cooldown self
  /\ display_duration (calls self ms) = display_duration self
  /\ liveness_window (calls self ms) = liveness_window self
  /\ recognized_today (calls self ms) = recognized_today self.
Proof.
  induction ms as [|m ms IH]; intros self; [repeat split; reflexivity|].
  unfold calls in *. simpl fold_left.
  destruct (IH (call self m)) as (H1 & H2 & H3 & H4 & H5).
  destruct (call_parameters self m) as (G1 & G2 & G3 & G4 & G5).
  rewrite H1, H2, H3, H4, H5. auto.
Qed.

Lemma call_coherent (self : AttendanceTracker) (m : Method) :
  0 < detection_threshold self -> (0 < liveness_window self)%nat ->
  coherent self -> coherent (call self m).
Proof.
  intros Hthr Hlw (Hfc & Hdet & Hliv).
  assert (Hfresh : forall u, 0 <= consecutive_detections (state_of self u)
                             /\ 0 <= last_seen (state_of self u) <= frame_count self
                             /\ (is_stable (state_of self u) = true
                                 <-> detection_threshold self
                                     <= consecutive_detections (state_of self u))).
  { intros u. unfold state_of. destruct (detection_history self !! u) as [st|] eqn:E.
    - exact (Hdet u st E).
    - simpl. split; [lia|]. split; [lia|]. split; [discriminate|lia]. }
  destruct m as [u d|u q| |].
  - split; [exact Hfc|]. split; [|exact Hliv].
    intros u' st' Hlk. simpl in Hlk. apply lookup_insert_Some in Hlk.
    destruct Hlk as [(<- & <-)|(_ & Hlk)]; [|exact (Hdet u' st' Hlk)].
    destruct (Hfresh u) as (Hc & Hl & Hs). unfold state_of in Hc, Hl, Hs.
    set (st := match detection_history self !! u with
               | Some st => st
               | None => fresh_state
               end) in *.
    simpl. destruct d.
    + unfold on_detected. simpl. split; [lia|]. split; [lia|].
      destruct (detection_threshold self <=? consecutive_detections st + 1) eqn:E.
      * apply Z.leb_le in E. split; auto.
      * apply Z.leb_gt in E. rewrite Hs. lia.
    + unfold on_missed.
      destruct (detection_cooldown self <? frame_count self - last_seen st).
      * simpl. split; [lia|]. split; [lia|]. split; [discriminate|lia].
      * auto.
  - split; [exact Hfc|]. split; [exact Hdet|].
    intros u' w' Hlk. simpl in Hlk. apply lookup_insert_Some in Hlk.
    destruct Hlk as [(<- & <-)|(_ & Hlk)]; [|exact (Hliv u' w' Hlk)].
    simpl.
    set (w := match liveness_history self !! u with Some w => w | None => [] end).
    assert (Hw : (List.length w <= liveness_window self)%nat).
    { unfold w. destruct (liveness_history self !! u) as [w0|] eqn:E.
      - exact (proj2 (Hliv u w0 E)).
      - simpl. lia. }
    split; [|apply deque_append_length; exact Hw].
    intros Hnil. apply (f_equal (@List.length Q)) in Hnil.
    unfold Py.deque_append in Hnil. rewrite List.length_skipn, List.length_app in Hnil.
    simpl in Hnil. lia.
  - split; [simpl; lia|]. split; [|exact Hliv].
    intros u st Hlk. simpl in Hlk. destruct (Hdet u st Hlk) as (H1 & H2 & H3).
    simpl. split; [exact H1|]. split; [lia|exact H3].
  - split; [simpl; lia|]. split.
    + intros u st Hlk. simpl in Hlk. rewrite lookup_empty in Hlk. discriminate.
    + intros u w Hlk. simpl in Hlk. rewrite lookup_empty in Hlk. discriminate.
Qed.

(** X19.  Whatever calls are made on a tracker, starting from a fresh one
    or from any coherent one with positive threshold and window size:
    the frame counter and the detection counts are never negative; no
    identity was last seen in the future; an identity is stable exactly
    when its count of consecutive detections has reached the threshold;
    a liveness window is never empty and never longer than
    [liveness_window].  None of the tracker's methods changes its
    parameters or adds an identity to [recognized_today]. *)
Theorem tracker_stays_coherent (self : AttendanceTracker) (ms : list Method) :
  0 < detection_threshold self -> (0 < liveness_window self)%nat ->
  coherent self ->
  coherent (calls self ms)
  /\ detection_threshold (calls self ms) = detection_threshold self
  /\ detection_cooldown (calls self ms) = detection_cooldown self
  /\ display_duration (calls self ms) = display_duration self
  /\ liveness_window (calls self ms) = liveness_window self
  /\ recognized_today (calls self ms) = recognized_today self.
Proof.
  intros Hthr Hlw Hco. split; [|apply calls_parameters].
  revert self Hthr Hlw Hco. induction ms as [|m ms IH]; intros self Hthr Hlw Hco.
  - exact Hco.
  - unfold calls in *. simpl fold_left.
    destruct (call_parameters self m) as (G1 & _ & _ & G4 & _).
    apply IH; [rewrite G1; exact Hthr|rewrite G4; exact Hlw|].
    apply call_coherent; assumption.
Qed.

Lemma init_coherent : coherent init.
Proof.
  split; [simpl; lia|]. split.
  - intros u st H. simpl in H. rewrite lookup_empty in H. discriminate.
  - intros u w H. simpl in H. rewrite lookup_empty in H. discriminate.
Qed.

Lemma tracker_stays_coherent_witness :
  coherent (calls init [IncrementFrame; UpdateLivenessSmooth "alice" 0.9;
                        UpdateDetection "alice" true; Reset]).
Proof.
  apply (tracker_stays_coherent init); [reflexivity|simpl; lia|exact init_coherent].
Defined.

(** *** The smoothed liveness verdict *)

Lemma latest_app_latest {A} (n : nat) (l xs : list A) :
  latest n (latest n l ++ xs) = latest n (l ++ xs).
Proof.
  unfold latest. set (k := (List.length l - n)%nat).
  assert (Hsk : skipn k l ++ xs = skipn k (l ++ xs)).
  { rewrite List.skipn_app.
    replace (k - List.length l)%nat with 0%nat by (unfold k; lia). reflexivity. }
  rewrite Hsk, List.skipn_skipn. f_equal.
  rewrite List.length_skipn, List.length_app. unfold k. lia.
Qed.

Lemma latest_length {A} (n : nat) (l : list A) :
  List.length (latest n l) = Nat.min n (List.length l).
Proof. unfold latest. rewrite List.length_skipn. lia. Qed.

Lemma latest_all {A} (n : nat) (l : list A) :
  (List.length l <= n)%nat -> latest n l = l.
Proof.
  intros H. unfold latest. replace (List.length l - n)%nat with 0%nat by lia. reflexivity.
Qed.

Lemma window_of_call (self : AttendanceTracker) (m : Method) (u : string) :
  is_reset m = false ->
  window_of (call self m) u
  = match m with
    | UpdateLivenessSmooth u' q =>
        if String.eqb u' u
        then latest (liveness_window self) (window_of self u ++ [q])
        else window_of self u
    | _ => window_of self u
    end.
Proof.
  intros Hm. destruct m as [u' d|u' q| |]; try reflexivity; [|discriminate].
  unfold window_of. simpl.
  destruct (String.eqb_spec u' u) as [->|Hne].
  - rewrite lookup_insert_eq. reflexivity.
  - rewrite lookup_insert_ne by exact Hne. reflexivity.
Qed.

Lemma window_of_calls (u : string) (ms : list Method) : forall self,
  forallb (fun m => negb (is_reset m)) ms = true ->
  (List.length (window_of self u) <= liveness_window self)%nat ->
  window_of (calls self ms) u
  = latest (liveness_window self) (window_of self u ++ scores_for u ms).
Proof.
  induction ms as [|m ms IH]; intros self Hms Hlen.
  - simpl. rewrite app_nil_r, latest_all by exact Hlen. reflexivity.
  - simpl in Hms. apply andb_true_iff in Hms. destruct Hms as (Hm & Hms).
    apply negb_true_iff in Hm.
    unfold calls in *. simpl fold_left.
    pose proof (window_of_call self m u Hm) as Hw.
    destruct (call_parameters self m) as (_ & _ & _ & Hlw & _).
    rewrite IH; [|exact Hms|].
    + rewrite Hlw, Hw. destruct m as [u' d|u' q| |]; try reflexivity.
      simpl scores_for. destruct (String.eqb u' u); [|reflexivity].
      rewrite latest_app_latest, <- app_assoc. reflexivity.
    + rewrite Hlw, Hw. destruct m as [u' d|u' q| |]; try exact Hlen.
      destruct (String.eqb u' u); [|exact Hlen].
      rewrite latest_length. lia.
Qed.

Lemma latest_snoc_last {A} (n : nat) (l : list A) (x : A) :
  (0 < n)%nat -> last (latest n (l ++ [x])) = Some x.
Proof.
  intros Hn. unfold latest. rewrite List.length_app. simpl.
  rewrite List.skipn_app.
  replace (List.length l + 1 - n - List.length l)%nat with 0%nat by lia.
  simpl. apply last_snoc.
Qed.

(** What [update_liveness_smooth] answers after calls without a reset is
    a function of the latest scores of the identity. *)
Lemma smoothed_from_recent (self : AttendanceTracker) (u : string) (ms : list Method)
      (q : Q) :
  forallb (fun m => negb (is_reset m)) ms = true ->
  (List.length (window_of self u) <= liveness_window self)%nat ->
  let result := update_liveness_smooth (calls self ms) u q in
  let recent := latest (liveness_window self)
                       (window_of self u ++ scores_for u ms ++ [q]) in
  window_of (fst result) u = recent
  /\ snd result = (Py.Qleb 0.7 (mean recent), mean recent).
Proof.
  intros Hms Hlen result recent.
  destruct (calls_parameters ms self) as (_ & _ & _ & Hw & _).
  assert (Hwin : Py.deque_append (liveness_window (calls self ms))
                                 (window_of (calls self ms) u) q = recent).
  { rewrite Hw, (window_of_calls u ms self Hms Hlen).
    change (Py.deque_append ?n ?d ?x) with (latest n (d ++ [x])).
    rewrite latest_app_latest, <- app_assoc. reflexivity. }
  split.
  - unfold result, update_liveness_smooth, window_of.
    cbn [fst liveness_history set_liveness_history].
    rewrite lookup_insert_eq. fold (window_of (calls self ms) u). exact Hwin.
  - unfold result, update_liveness_smooth. cbn [snd].
    fold (window_of (calls self ms) u). rewrite Hwin. reflexivity.
Qed.

(** X20.  Between resets, the liveness window of an identity holds the
    latest [liveness_window] raw scores handed in for it, in the order
    they came and ending with the one just handed in, and never more than
    [liveness_window] of them; the windows of the other identities are
    not touched.  What [update_liveness_smooth] returns depends on those
    scores only: two trackers whose latest scores for the identity agree
    give the same smoothed score and the same verdict, whatever was
    handed in before.  Once [liveness_window] scores have been handed in,
    older ones no longer count. *)
Theorem smoothed_liveness_follows_recent_scores
        (self : AttendanceTracker) (u : string) (ms : list Method) (q : Q) :
  forallb (fun m => negb (is_reset m)) ms = true ->
  (List.length (window_of self u) <= liveness_window self)%nat ->
  (0 < liveness_window self)%nat ->
  let result := update_liveness_smooth (calls self ms) u q in
  let recent := latest (liveness_window self)
                       (window_of self u ++ scores_for u ms ++ [q]) in
  window_of (fst result) u = recent
  /\ (0 < List.length recent <= liveness_window self)%nat
  /\ last recent = Some q
  /\ (forall u', u' <> u -> window_of (fst result) u' = window_of (calls self ms) u')
  /\ (forall (self' : AttendanceTracker) (ms' : list Method) (q' : Q),
         forallb (fun m => negb (is_reset m)) ms' = true ->
         (List.length (window_of self' u) <= liveness_window self')%nat ->
         latest (liveness_window self')
                (window_of self' u ++ scores_for u ms' ++ [q']) = recent ->
         snd (update_liveness_smooth (calls self' ms') u q') = snd result)
  /\ ((liveness_window self <= List.length (scores_for u ms ++ [q]))%nat ->
      recent = latest (liveness_window self) (scores_for u ms ++ [q])).
Proof.
  intros Hms Hlen Hlw result recent.
  destruct (smoothed_from_recent self u ms q Hms Hlen) as [Hwin Hres].
  fold result recent in Hwin, Hres.
  split; [exact Hwin|]. split.
  { unfold recent. rewrite latest_length, !List.length_app. simpl. lia. }
  split.
  { unfold recent. rewrite !app_assoc. apply latest_snoc_last, Hlw. }
  split.
  { intros u' Hu'. unfold result, update_liveness_smooth, window_of.
    cbn [fst liveness_history set_liveness_history].
    rewrite lookup_insert_ne by (intros E; apply Hu'; symmetry; exact E). reflexivity. }
  split.
  { intros self' ms' q' Hms' Hlen' Hsame.
    destruct (smoothed_from_recent self' u ms' q' Hms' Hlen') as [_ Hres'].
    cbv zeta in Hres'. rewrite Hres', Hsame, Hres. reflexivity. }
  intros Hfull. unfold recent, latest.
  set (S := scores_for u ms ++ [q]) in *.
  rewrite List.skipn_app, List.length_app.
  rewrite List.skipn_all2 by lia. simpl. f_equal. lia.
Qed.

(** Twelve scores for Alice, with a score for Bob and a frame in between:
    her window holds the last ten. *)
Lemma smoothed_liveness_follows_recent_scores_witness :
  let earlier := [UpdateLivenessSmooth "alice" 0.91; UpdateLivenessSmooth "alice" 0.92;
                  UpdateLivenessSmooth "alice" 0.93; UpdateLivenessSmooth "bob" 0.3;
                  UpdateLivenessSmooth "alice" 0.94; UpdateLivenessSmooth "alice" 0.95;
                  IncrementFrame;
                  UpdateLivenessSmooth "alice" 0.96; UpdateLivenessSmooth "alice" 0.97;
                  UpdateLivenessSmooth "alice" 0.98; UpdateLivenessSmooth "alice" 0.99;
                  UpdateLivenessSmooth "alice" 0.81; UpdateLivenessSmooth "alice" 0.82] in
  let result := update_liveness_smooth (calls init earlier) "alice" 0.83 in
  window_of (fst result) "alice"
  = [0.93; 0.94; 0.95; 0.96; 0.97; 0.98; 0.99; 0.81; 0.82; 0.83]%Q
  /\ window_of (fst result) "bob" = [0.3%Q].
Proof.
  cbv zeta.
  match goal with
  | |- context [update_liveness_smooth (calls init ?ms) _ _] =>
      destruct (smoothed_liveness_follows_recent_scores init "alice" ms 0.83)
        as (Hwin & _ & _ & Hother & _);
        [reflexivity|vm_compute; lia|vm_compute; lia|]
  end.
  split.
  - rewrite Hwin. reflexivity.
  - rewrite Hother by discriminate. reflexivity.
Defined.

(** *** Showing an identity *)

Lemma call_leaves_detection (self : AttendanceTracker) (m : Method) (u : string) :
  writes_detection u m = false ->
  detection_history (call self m) !! u = detection_history self !! u
  /\ frame_count (call self m)
     = frame_count self + (if is_frame m then 1 else 0).
Proof.
  intros Hm. destruct m as [u' d|u' q| |]; simpl in *; try (split; [reflexivity|lia]).
  - apply String.eqb_neq in Hm. rewrite lookup_insert_ne by exact Hm.
    split; [reflexivity|lia].
  - discriminate.
Qed.

Lemma calls_leave_detection (u : string) (ms : list Method) : forall self,
  forallb (fun m => negb (writes_detection u m)) ms = true ->
  detection_history (calls self ms) !! u = detection_history self !! u
  /\ frame_count (calls self ms)
     = frame_count self + Z.of_nat (List.length (List.filter is_frame ms)).
Proof.
  induction ms as [|m ms IH]; intros self Hms; [simpl; split; [reflexivity|lia]|].
  simpl in Hms. apply andb_true_iff in Hms. destruct Hms as (Hm & Hms).
  apply negb_true_iff in Hm.
  unfold calls in *. simpl fold_left.
  destruct (IH (call self m) Hms) as (H1 & H2).
  destruct (call_leaves_detection self m u Hm) as (G1 & G2).
  rewrite H1, H2, G1, G2. split; [reflexivity|].
  simpl List.filter. destruct (is_frame m); simpl List.length; lia.
Qed.

(** X21.  When [update_detection] has just found an identity stable,
    [should_display] holds for it, and keeps holding while fewer than
    [display_duration] frames are counted; from then on it is false,
    until the identity is detected again.  In a coherent tracker
    [should_display] holds only for identities whose count of
    consecutive detections has reached the threshold, and never for an
    identity the tracker has no entry for. *)
Theorem display_lasts_for_display_duration (self : AttendanceTracker) (u : string) :
  (forall ms,
      snd (update_detection self u true) = true ->
      forallb (fun m => negb (writes_detection u m)) ms = true ->
      should_display (calls (fst (update_detection self u true)) ms) u
      = (Z.of_nat (List.length (List.filter is_frame ms)) <? display_duration self))
  /\ (coherent self -> should_display self u = true ->
      detection_threshold self <= consecutive_detections (state_of self u)
      /\ frame_count self - last_seen (state_of self u) < display_duration self)
  /\ (detection_history self !! u = None -> should_display self u = false).
Proof.
  split; [|split].
  - intros ms Hstable Hms.
    set (self1 := fst (update_detection self u true)) in *.
    destruct (calls_leave_detection u ms self1 Hms) as (Hdh & Hfc).
    destruct (calls_parameters ms self1) as (_ & _ & Hdd & _).
    unfold should_display. rewrite Hdh, Hfc, Hdd.
    unfold self1, update_detection in *. cbn [fst snd] in *.
    cbn [detection_history set_detection_history frame_count display_duration].
    rewrite lookup_insert_eq, Hstable. cbn [on_detected last_seen]. simpl.
    f_equal. lia.
  - intros (_ & Hdet & _) Hshow. unfold should_display, state_of in *.
    destruct (detection_history self !! u) as [st|] eqn:E; [|discriminate].
    apply andb_true_iff in Hshow. destruct Hshow as (Hs & Hf).
    apply Z.ltb_lt in Hf. destruct (Hdet u st E) as (_ & _ & Hiff).
    split; [apply Hiff; exact Hs|exact Hf].
  - intros Hnone. unfold should_display. rewrite Hnone. reflexivity.
Qed.

Lemma display_lasts_for_display_duration_witness :
  should_display
    (calls (fst (update_detection (run init (firstn 14 five_sightings)) "alice" true))
           [IncrementFrame; IncrementFrame])
    "alice"
  = true.
Proof.
  rewrite (proj1 (display_lasts_for_display_duration
                    (run init (firstn 14 five_sightings)) "alice")
                 [IncrementFrame; IncrementFrame]); reflexivity.
Defined.

End TrackerMore.

(* ===================================================================== *)
(** ** Liveness: how far a suspicious face can score                      *)
(* ===================================================================== *)

Section LivenessMore.
Import Liveness.
Local Open Scope Q_scope.

(** *** Counting blinks *)

Lemma detect_blink_settings (self : BlinkState) (ear : option Q) :
  eye_ar_threshold (fst (detect_blink_from_landmarks self ear)) = eye_ar_threshold self
  /\ min_blinks (fst (detect_blink_from_landmarks self ear)) = min_blinks self
  /\ (total_blinks self <= total_blinks (fst (detect_blink_from_landmarks self ear))
      <= total_blinks self + 1)%Z.
Proof.
  destruct ear as [ear|]; simpl; [|repeat split; lia].
  destruct (Py.Qltb ear (eye_ar_threshold self)); simpl; [repeat split; lia|].
  destruct (2 <=? blink_frames self)%Z; repeat split; lia.
Qed.

Lemma watch_settings (ears : list Q) : forall self,
  eye_ar_threshold (watch self ears) = eye_ar_threshold self
  /\ min_blinks (watch self ears) = min_blinks self
  /\ (total_blinks self <= total_blinks (watch self ears))%Z.
Proof.
  induction ears as [|ear ears IH]; intros self; [unfold watch; simpl; repeat split; lia|].
  change (watch self (ear :: ears))
    with (watch (fst (detect_blink_from_landmarks self (Some ear))) ears).
  destruct (IH (fst (detect_blink_from_landmarks self (Some ear)))) as (H1 & H2 & H3).
  destruct (detect_blink_settings self (Some ear)) as (G1 & G2 & G3).
  rewrite H1, H2, G1, G2. repeat split; lia.
Qed.

Lemma watch_closed_eyes (closed : list Q) : forall self,
  (forall x, In x closed -> x < eye_ar_threshold self) ->
  blink_frames (watch self closed)
  = (blink_frames self + Z.of_nat (List.length closed))%Z
  /\ total_blinks (watch self closed) = total_blinks self
  /\ eye_ar_threshold (watch self closed) = eye_ar_threshold self.
Proof.
  induction closed as [|x closed IH]; intros self Hall;
    [unfold watch; simpl; repeat split; lia|].
  change (watch self (x :: closed))
    with (watch (fst (detect_blink_from_landmarks self (Some x))) closed).
  assert (Hx : Py.Qltb x (eye_ar_threshold self) = true)
    by (apply Qltb_true, Hall; left; reflexivity).
  assert (Hstep : fst (detect_blink_from_landmarks self (Some x))
                  = mkBlinkState (eye_ar_threshold self) (min_blinks self)
                                 (blink_frames self + 1) (total_blinks self)).
  { unfold detect_blink_from_landmarks. rewrite Hx. reflexivity. }
  rewrite Hstep.
  destruct (IH (mkBlinkState (eye_ar_threshold self) (min_blinks self)
                             (blink_frames self + 1) (total_blinks self)))
    as (H1 & H2 & H3).
  { intros y Hy. simpl. apply Hall. right. exact Hy. }
  rewrite H1, H2, H3. simpl. split; [lia|]. split; reflexivity.
Qed.

(** X28.  The blink counter never goes down and rises by at most one per
    frame.  Starting with open eyes, a run of frames whose eye aspect
    ratio is below the threshold followed by a frame at or above it
    counts as one blink when the run has at least two frames and as none
    when it has fewer; the run length is cleared either way.  Once
    [min_blinks] blinks are counted, every later frame with readable
    landmarks is answered [True]; a frame whose landmarks cannot be read
    is answered [False] and changes no counter. *)
Theorem blinks_are_counted_on_reopening :
  (forall self ear,
      (total_blinks self <= total_blinks (fst (detect_blink_from_landmarks self ear))
       <= total_blinks self + 1)%Z)
  /\ (forall self closed open,
         blink_frames self = 0%Z ->
         (forall x, In x closed -> x < eye_ar_threshold self) ->
         eye_ar_threshold self <= open ->
         blink_frames (watch self (closed ++ [open])) = 0%Z
         /\ total_blinks (watch self (closed ++ [open]))
            = (total_blinks self + if (2 <=? List.length closed)%nat then 1 else 0)%Z)
  /\ (forall self ears ear,
         (min_blinks self <= total_blinks self)%Z ->
         snd (detect_blink_from_landmarks (watch self ears) (Some ear)) = true)
  /\ (forall self, detect_blink_from_landmarks self None = (self, false)).
Proof.
  split; [intros self ear; apply detect_blink_settings|].
  split; [|split; [|reflexivity]].
  - intros self closed open Hopen Hclosed Hnow.
    unfold watch. rewrite fold_left_app. fold (watch self closed).
    destruct (watch_closed_eyes closed self Hclosed) as (Hf & Ht & Hthr).
    simpl. rewrite Hthr.
    assert (Hx : Py.Qltb open (eye_ar_threshold self) = false)
      by (apply Qltb_false; exact Hnow).
    rewrite Hx. simpl. split; [reflexivity|].
    rewrite Hf, Ht, Hopen.
    destruct (List.length closed) as [|[|n]]; [simpl; lia|simpl; lia|].
    destruct (Z.leb_spec 2 (0 + Z.of_nat (S (S n)))); lia.
  - intros self ears ear Hmin.
    destruct (watch_settings ears self) as (_ & Hm & Ht).
    destruct (detect_blink_settings (watch self ears) (Some ear)) as (_ & Hm' & Ht').
    simpl in *.
    set (self' := if Py.Qltb ear (eye_ar_threshold (watch self ears)) then _ else _) in *.
    apply Z.leb_le. lia.
Qed.

Lemma blinks_are_counted_on_reopening_witness :
  total_blinks (watch (mkBlinkState 0.21 2 0 0) ([0.1; 0.15; 0.12] ++ [0.3])) = 1%Z.
Proof.
  apply (proj1 (proj2 blinks_are_counted_on_reopening) (mkBlinkState 0.21 2 0 0)
               [0.1; 0.15; 0.12] 0.3).
  - reflexivity.
  - simpl. intros x [<-|[<-|[<-|[]]]]; reflexivity.
  - simpl. discriminate.
Defined.

End LivenessMore.

(* ===================================================================== *)
(** ** Once per identity and day                                          *)
(* ===================================================================== *)

Section OncePerDay.
Import Database App.

Variable float_repr : Q -> string.

(** The identity and the calendar day under consideration. *)
Variables (u today : string).
Hypothesis u_nonempty : u <> EmptyString.
Hypothesis today_nonempty : today <> EmptyString.

Implicit Types (s : State) (f : Face) (o : Observed) (e : Event).

Local Abbreviation recognized s := (Tracker.recognized_today (tracker s)).
Local Abbreviation rows s := (rows_for u today (db s)).
Local Abbreviation blocks s := (blocks_for u today (blockchain s)).

(** While [u] is in the recognised set, no step writes a row or appends a
    block for [u]; and [u] leaves the set only when a session starts. *)
Lemma step_recognized (fuel : nat) s e s' :
  enable_blockchain (config s) = true ->
  blockchain s <> [] ->
  (event_date e = None \/ event_date e = Some today) ->
  u ∈ recognized s ->
  step float_repr fuel s e = Some s' ->
  config s' = config s /\ blockchain s' <> []
  /\ rows s' = rows s /\ blocks s' = blocks s
  /\ (is_session_start e = false -> u ∈ recognized s').
Proof.
  intros Hbc Hne Hdate Hin Hstep.
  destruct e as [f|uid| |]; simpl in Hstep.
  2,3: injection Hstep as <-; simpl;
       (split; [reflexivity|]); (split; [exact Hne|]); (split; [reflexivity|]);
       (split; [reflexivity|]); intros _; exact Hin.
  2: { injection Hstep as <-. simpl. split; [reflexivity|]. split; [exact Hne|].
       split; [reflexivity|]. split; [reflexivity|]. discriminate. }
  destruct Hdate as [Hdate|Hdate]; [discriminate|]. simpl in Hdate.
  injection Hdate as Hdate.
  unfold process_face in Hstep.
  destruct (observe_frame s f) as (Hdb & Hch & Hcfg & Hrec). cbv zeta in *.
  set (o := observe s f) in *.
  assert (Hin' : u ∈ recognized (o_state o)).
  { rewrite Hrec. destruct (get_attendance_records _ _ _ _); set_solver. }
  destruct (marking_due o f) eqn:Edue.
  - assert (Hother : face_user_id f <> u).
    { intros E. unfold marking_due in Edue. rewrite E in Edue.
      rewrite (bool_decide_eq_true_2 _ Hin'), andb_false_r in Edue. discriminate. }
    apply String.eqb_neq in Hother.
    destruct (mark_counts float_repr u today fuel o f s') as (Hc' & Hne' & Hb' & Hr' & Hk');
      rewrite ?Hcfg, ?Hch; auto.
    cbv zeta in *. rewrite Hother, ?Hdb, ?Hch, ?Nat.add_0_r in *.
    assert (Hrows : rows s' = rows s /\ u ∈ recognized s').
    { destruct (Nat.eq_dec (rows_for (face_user_id f) today (db s)) 0%nat) as [H0|Hn0].
      - destruct (Hr' H0) as [-> ->]. split; [reflexivity|set_solver].
      - destruct (Hk' Hn0) as [-> ->]. split; [reflexivity|exact Hin']. }
    destruct Hrows as [Hrows Hmem].
    split; [congruence|]. split; [exact Hne'|]. split; [exact Hrows|].
    split; [exact Hb'|]. intros _. exact Hmem.
  - injection Hstep as <-. rewrite Hdb, Hch, Hcfg.
    repeat split; try assumption. intros _. exact Hin'.
Qed.

(** Any step: at most one row is written for ([u], [today]), together
    with one block, and only when there was none. *)
Lemma step_counts_any (fuel : nat) s e s' :
  enable_blockchain (config s) = true ->
  blockchain s <> [] ->
  (event_date e = None \/ event_date e = Some today) ->
  step float_repr fuel s e = Some s' ->
  config s' = config s /\ blockchain s' <> []
  /\ (exists k : nat, (k = 0 \/ (k = 1 /\ rows s = 0))%nat
                      /\ rows s' = (rows s + k)%nat /\ blocks s' = (blocks s + k)%nat).
Proof.
  intros Hbc Hne Hdate Hstep.
  destruct (decide (u ∈ recognized s)) as [Hin|Hout].
  - destruct (step_recognized fuel s e s' Hbc Hne Hdate Hin Hstep)
      as (Hcfg & Hne' & Hr & Hb & _).
    split; [exact Hcfg|]. split; [exact Hne'|].
    exists 0%nat. split; [left; reflexivity|]. split; lia.
  - destruct (step_counts float_repr u today u_nonempty today_nonempty fuel s e s'
                          Hbc Hne Hdate) as (Hcfg & Hne' & _ & Hk & _); [|exact Hstep|].
    + intros Hin. contradiction.
    + split; [exact Hcfg|]. split; [exact Hne'|exact Hk].
Qed.

Lemma run_counts_any (fuel : nat) (events : list Event) : forall s s',
  enable_blockchain (config s) = true ->
  blockchain s <> [] ->
  same_day today events ->
  run float_repr fuel s events = Some s' ->
  (rows s <= 1 -> rows s' <= 1)%nat
  /\ (blocks s' + rows s = blocks s + rows s')%nat.
Proof.
  induction events as [|e events IH]; intros s s' Hbc Hne Hday Hrun; simpl in Hrun.
  - injection Hrun as <-. split; lia.
  - inversion Hday as [|e0 es He Hes]; subst.
    destruct (step float_repr fuel s e) as [s1|] eqn:Estep; [|discriminate].
    destruct (step_counts_any fuel s e s1 Hbc Hne He Estep)
      as (Hcfg & Hne1 & (k & Hk & Hr & Hb)).
    rewrite <- Hcfg in Hbc.
    destruct (IH s1 s' Hbc Hne1 Hes Hrun) as (Hle & Hbal).
    split; lia.
Qed.

Lemma run_recognized (fuel : nat) (events : list Event) : forall s s',
  enable_blockchain (config s) = true ->
  blockchain s <> [] ->
  same_day today events ->
  forallb (fun e => negb (is_session_start e)) events = true ->
  u ∈ recognized s ->
  run float_repr fuel s events = Some s' ->
  rows s' = rows s /\ blocks s' = blocks s /\ u ∈ recognized s'.
Proof.
  induction events as [|e events IH]; intros s s' Hbc Hne Hday Hnostart Hin Hrun;
    simpl in Hrun.
  - injection Hrun as <-. auto.
  - inversion Hday as [|e0 es He Hes]; subst.
    simpl in Hnostart. apply andb_true_iff in Hnostart. destruct Hnostart as [He' Hrest].
    apply negb_true_iff in He'.
    destruct (step float_repr fuel s e) as [s1|] eqn:Estep; [|discriminate].
    destruct (step_recognized fuel s e s1 Hbc Hne He Hin Estep)
      as (Hcfg & Hne1 & Hr & Hb & Hin1).
    rewrite <- Hcfg in Hbc.
    destruct (IH s1 s' Hbc Hne1 Hes Hrest (Hin1 He') Hrun) as (Hr' & Hb' & Hin').
    split; [congruence|]. split; [congruence|exact Hin'].
Qed.

(** X29.  Fix an identity [u] and a calendar day [today].  Let a run of
    the attendance loop (faces matched, faces missed, frames read,
    sessions started anew), all on that day, start from any state whose
    ledger has its genesis block, with the ledger enabled, holding at
    most one row for ([u], [today]).  When the run ends there is at most
    one row for ([u], [today]), and the ledger has gained exactly as many
    blocks for ([u], [today]) as the table has gained rows.  If at the
    start [u] is in the recognised set only when it has its row, then a
    run in which the loop body finds [u] stable and live ends with exactly
    one row, and, from a day without a mark, with exactly one block more.
    If at the start [u] is in the recognised set without a row for
    [today], then as long as no session is started nothing is written for
    ([u], [today]), however often [u] is found stable and live. *)
Theorem at_most_once_attendance (fuel : nat) (events : list Event) (s0 s : State) :
  enable_blockchain (config s0) = true ->
  blockchain s0 <> [] ->
  same_day today events ->
  (rows s0 <= 1)%nat ->
  run float_repr fuel s0 events = Some s ->
  (rows s <= 1)%nat
  /\ (blocks s + rows s0 = blocks s0 + rows s)%nat
  /\ ((u ∈ recognized s0 -> rows s0 <> 0%nat) ->
      seen_stable_and_live float_repr fuel s0 events u = true ->
      rows s = 1%nat /\ (rows s0 = 0%nat -> blocks s = (blocks s0 + 1)%nat))
  /\ (u ∈ recognized s0 -> rows s0 = 0%nat ->
      forallb (fun e => negb (is_session_start e)) events = true ->
      rows s = 0%nat /\ blocks s = blocks s0).
Proof.
  intros Hbc Hne Hday Hle Hrun.
  destruct (run_counts_any fuel events s0 s Hbc Hne Hday Hrun) as (Hle' & Hbal).
  specialize (Hle' Hle).
  split; [exact Hle'|]. split; [exact Hbal|]. split.
  - intros Hcons Hseen.
    destruct (run_counts float_repr u today u_nonempty today_nonempty fuel events s0 s
                         Hbc Hne Hday Hcons Hrun) as (_ & _ & _ & _ & Hone).
    specialize (Hone Hseen). split; [lia|]. intros H0. lia.
  - intros Hin H0 Hnostart.
    destruct (run_recognized fuel events s0 s Hbc Hne Hday Hnostart Hin Hrun)
      as (Hr & Hb & _).
    split; [lia|exact Hb].
Qed.

End OncePerDay.

(* ===================================================================== *)
(** ** The marking loop: what is never written                            *)
(* ===================================================================== *)

Section AppMore.
Import Database App.

Variable float_repr : Q -> string.

(** The identity under consideration. *)
Variable u : string.

Implicit Types (s : State) (f : Face) (o : Observed) (e : Event).

(** *** One pass of the loop body *)

(** What [observe] does to the tracker: the detection entry of the face's
    identity is updated as by [update_detection(.., True)], and, with
    anti-spoofing on, its liveness window takes the raw score. *)
Lemma observe_tracker s f :
  let o := observe s f in
  let tr := tracker s in
  let tr' := tracker (o_state o) in
  let uid := face_user_id f in
  let st' := Tracker.on_detected tr (Tracker.state_of tr uid) in
  let w' := Py.deque_append (Tracker.liveness_window tr) (Tracker.window_of tr uid)
                            (face_liveness_raw f) in
  Tracker.detection_history tr' = <[uid := st']> (Tracker.detection_history tr)
  /\ o_is_stable o = Tracker.is_stable st'
  /\ Tracker.detection_threshold tr' = Tracker.detection_threshold tr
  /\ Tracker.frame_count tr' = Tracker.frame_count tr
  /\ Tracker.liveness_window tr' = Tracker.liveness_window tr
  /\ (enable_antispoofing (config s) = true ->
      Tracker.liveness_history tr' = <[uid := w']> (Tracker.liveness_history tr)
      /\ o_is_live o = Py.Qleb 0.7 (Tracker.mean w'))
  /\ (enable_antispoofing (config s) = false ->
      Tracker.liveness_history tr' = Tracker.liveness_history tr
      /\ o_is_live o = true).
Proof.
  unfold observe.
  destruct (get_attendance_records _ _ _ _) as [|r l];
    destruct (enable_antispoofing (config s)); simpl;
    (split; [reflexivity|]); (split; [reflexivity|]); (split; [reflexivity|]);
    (split; [reflexivity|]); (split; [reflexivity|]);
    split; intros H; try discriminate; split; reflexivity.
Qed.

Lemma observe_unchanged s f :
  db (o_state (observe s f)) = db s
  /\ blockchain (o_state (observe s f)) = blockchain s
  /\ config (o_state (observe s f)) = config s.
Proof.
  unfold observe.
  destruct (get_attendance_records _ _ _ _) as [|r l];
    destruct (enable_antispoofing (config s)); simpl; auto.
Qed.

(** A block for another identity does not count for [u]. *)
Lemma block_of_other_identity (nb : Ledger.Block) user_id name regno now
      (ls conf : Q) emotion (eng : Q) (date : string) :
  Ledger.data nb = attendance_data float_repr user_id name regno now ls conf emotion eng ->
  user_id <> u ->
  block_is_for u date nb = false.
Proof.
  intros Hd Hne. unfold block_is_for. rewrite Hd. simpl.
  apply String.eqb_neq in Hne. rewrite Hne. reflexivity.
Qed.

(** What the marking branch leaves alone. *)
Lemma mark_effect (fuel : nat) o f s' :
  mark float_repr fuel o f = Some s' ->
  let s := o_state o in
  config s' = config s
  /\ Tracker.detection_history (tracker s') = Tracker.detection_history (tracker s)
  /\ Tracker.liveness_history (tracker s') = Tracker.liveness_history (tracker s)
  /\ Tracker.detection_threshold (tracker s') = Tracker.detection_threshold (tracker s)
  /\ (face_user_id f <> u ->
      (forall date, rows_for u date (db s') = rows_for u date (db s))
      /\ get_user_info (db s') u = get_user_info (db s) u
      /\ (forall date, blocks_for u date (blockchain s')
                       = blocks_for u date (blockchain s))).
Proof.
  intros Hmark. cbv zeta. unfold mark in Hmark.
  set (triple := if enable_emotion (config (o_state o)) then _ else _) in Hmark.
  destruct triple as [[det emotion] engagement].
  set (payload := attendance_data float_repr _ _ _ _ _ _ _ _) in Hmark.
  destruct (if enable_blockchain (config (o_state o)) then _ else _)
    as [[chain bh]|] eqn:Eadd; [|discriminate].
  assert (Hchain : face_user_id f <> u ->
                   forall date, blocks_for u date chain
                                = blocks_for u date (blockchain (o_state o))).
  { intros Hne date. destruct (enable_blockchain (config (o_state o))).
    - destruct (add_block_inv _ _ _ _ _ _ Eadd)
        as [(Hc & -> & _)|(latest & nb & _ & Hm & -> & _)].
      + rewrite Hc. reflexivity.
      + apply mine_block_inv in Hm. destruct Hm as (_ & _ & _ & Hdata & _).
        unfold blocks_for. rewrite List.filter_app, List.length_app. simpl.
        rewrite (block_of_other_identity nb _ _ _ _ _ _ _ _ date Hdata Hne).
        simpl. lia.
    - injection Eadd as <- _. reflexivity. }
  pose proof (mark_attendance_other_user
                (db (o_state o)) (face_now f) (face_user_id f) (face_name f) (o_regno o)
                (o_liveness_score o) emotion engagement bh (face_encoding f)
                (face_confidence f / 100)%Q "Main Campus" u) as Hother.
  cbv zeta in Hother.
  destruct (mark_attendance _ _ _ _ _ _ _ _ _ _ _ _) as [d' [success msg]] eqn:Em.
  injection Hmark as <-. cbn [config db blockchain tracker].
  split; [reflexivity|].
  split; [destruct success; reflexivity|].
  split; [destruct success; reflexivity|].
  split; [destruct success; reflexivity|].
  intros Hne. destruct (Hother Hne) as (Hrows & Hinfo). simpl in Hrows, Hinfo.
  split; [exact Hrows|]. split; [exact Hinfo|exact (Hchain Hne)].
Qed.

Local Abbreviation untouched s s' :=
  ((forall date, rows_for u date (db s') = rows_for u date (db s))
   /\ get_user_info (db s') u = get_user_info (db s) u
   /\ (forall date, blocks_for u date (blockchain s') = blocks_for u date (blockchain s))).

Lemma step_untouched (fuel : nat) s e s' :
  step float_repr fuel s e = Some s' ->
  stable_and_live_here u s e = false ->
  untouched s s'.
Proof.
  intros Hstep Hhere. destruct e as [f|uid| |]; simpl in Hstep.
  2-4: injection Hstep as <-; simpl; auto.
  unfold process_face in Hstep.
  destruct (observe_unchanged s f) as (Hdb & Hbc & _).
  destruct (marking_due (observe s f) f) eqn:Edue.
  - unfold marking_due in Edue. apply andb_true_iff in Edue. destruct Edue as (Esl & _).
    simpl in Hhere. rewrite <- andb_assoc, Esl, andb_true_r in Hhere.
    apply String.eqb_neq in Hhere.
    destruct (mark_effect fuel _ f s' Hstep) as (_ & _ & _ & _ & H).
    cbv zeta in H. destruct (H Hhere) as (H1 & H2 & H3).
    rewrite Hdb in H1, H2. rewrite Hbc in H3. auto.
  - injection Hstep as <-. rewrite Hdb, Hbc. auto.
Qed.

Lemma run_untouched (fuel : nat) (events : list Event) : forall s s',
  run float_repr fuel s events = Some s' ->
  seen_stable_and_live float_repr fuel s events u = false ->
  untouched s s'.
Proof.
  induction events as [|e events IH]; intros s s' Hrun Hseen; simpl in Hrun, Hseen.
  - injection Hrun as <-. auto.
  - destruct (step float_repr fuel s e) as [s1|] eqn:Estep; [|discriminate].
    apply orb_false_iff in Hseen. destruct Hseen as (Hhere & Hrest).
    destruct (step_untouched fuel s e s1 Estep Hhere) as (H1 & H2 & H3).
    destruct (IH s1 s' Hrun Hrest) as (G1 & G2 & G3).
    split; [intros date; rewrite G1; apply H1|].
    split; [rewrite G2; exact H2|intros date; rewrite G3; apply H3].
Qed.

(** X23.  Nothing is recorded for an identity that the loop never finds
    stable and live.  Along any run in which no pass of the loop body
    finds the identity both stable and live, its attendance rows (of any
    day), its user row with the attendance statistics, and its blocks in
    the ledger are at the end what they were at the start, whatever is
    recorded for other identities meanwhile. *)
Theorem nothing_recorded_unless_stable_and_live
        (fuel : nat) (events : list Event) (s0 s : State) :
  run float_repr fuel s0 events = Some s ->
  seen_stable_and_live float_repr fuel s0 events u = false ->
  (forall date, rows_for u date (db s) = rows_for u date (db s0))
  /\ get_user_info (db s) u = get_user_info (db s0) u
  /\ (forall date, blocks_for u date (blockchain s) = blocks_for u date (blockchain s0)).
Proof. apply run_untouched. Qed.

(** *** Too few sightings *)

Local Abbreviation count_of s :=
  (Tracker.consecutive_detections (Tracker.state_of (tracker s) u)).

(** The tracker has threshold 5, and the identity is not stable and is
    [k] sightings or more away from it. *)
Local Abbreviation below_threshold s k :=
  (Tracker.detection_threshold (tracker s) = 5
   /\ Tracker.is_stable (Tracker.state_of (tracker s) u) = false
   /\ 0 <= count_of s /\ count_of s + Z.of_nat k < 5).

Lemma state_of_insert (tr : Tracker.AttendanceTracker)
      (h : gmap string Tracker.DetectionState) (uid : string)
      (st : Tracker.DetectionState) :
  Tracker.detection_history tr = <[uid := st]> h ->
  Tracker.state_of tr u
  = if String.eqb uid u then st
    else match h !! u with Some x => x | None => Tracker.fresh_state end.
Proof.
  intros Hh. unfold Tracker.state_of. rewrite Hh.
  destruct (String.eqb_spec uid u) as [->|Hne].
  - rewrite lookup_insert_eq. reflexivity.
  - rewrite lookup_insert_ne by exact Hne. reflexivity.
Qed.

Lemma step_below_threshold (fuel : nat) s e s' (k : nat) :
  below_threshold s (k + if is_face_of u e then 1 else 0)%nat ->
  step float_repr fuel s e = Some s' ->
  stable_and_live_here u s e = false /\ below_threshold s' k.
Proof.
  intros (Hthr & Hst & Hc0 & Hck) Hstep.
  destruct e as [f|uid| |]; simpl in Hstep, Hck.
  - unfold process_face in Hstep.
    destruct (observe_tracker s f) as (Hdh & Hstable & Hthr' & _).
    cbv zeta in Hdh, Hstable, Hthr'.
    pose proof (state_of_insert _ _ _ _ Hdh) as Hstate.
    fold (Tracker.state_of (tracker s) u) in Hstate.
    assert (Hnext : stable_and_live_here u s (FaceSeen f) = false
                    /\ below_threshold (o_state (observe s f)) k).
    { simpl. destruct (String.eqb_spec (face_user_id f) u) as [Heq|Hne].
      - rewrite Heq in *. rewrite Hstate, Hthr'.
        assert (Hon : Tracker.is_stable
                        (Tracker.on_detected (tracker s) (Tracker.state_of (tracker s) u))
                      = false).
        { unfold Tracker.on_detected. simpl. rewrite Hthr, Hst.
          destruct (Z.leb_spec 5 (count_of s + 1)); [lia|reflexivity]. }
        rewrite Hstable, Hon. simpl.
        split; [reflexivity|]. split; [exact Hthr|]. split; [reflexivity|].
        split; lia.
      - simpl. rewrite Hstate, Hthr'. split; [reflexivity|].
        split; [exact Hthr|]. split; [exact Hst|]. split; [exact Hc0|lia]. }
    destruct Hnext as (Hhere & Hbelow). split; [exact Hhere|].
    destruct (marking_due (observe s f) f).
    + destruct (mark_effect fuel _ f s' Hstep) as (_ & Hdh' & _ & Hthr'' & _).
      cbv zeta in Hdh', Hthr''.
      unfold Tracker.state_of in *. rewrite Hdh', Hthr''. exact Hbelow.
    + injection Hstep as <-. exact Hbelow.
  - injection Hstep as <-. split; [reflexivity|].
    change (below_threshold
              (with_tracker s (Tracker.apply_op (tracker s) (Tracker.Detect uid false))) k).
    unfold with_tracker. cbn [tracker].
    destruct (apply_op_thresholds (tracker s) (Tracker.Detect uid false)) as (Hthr' & _).
    rewrite Hthr'. split; [exact Hthr|].
    destruct (String.eqb_spec uid u) as [->|Hne].
    + rewrite state_of_detect. unfold Tracker.on_missed.
      destruct (_ <? _); simpl; [split; [reflexivity|lia]|].
      split; [exact Hst|]. split; [exact Hc0|lia].
    + rewrite state_of_detect_other by exact Hne.
      split; [exact Hst|]. split; [exact Hc0|lia].
  - injection Hstep as <-. split; [reflexivity|]. simpl.
    change (Tracker.state_of (Tracker.increment_frame (tracker s)) u)
      with (Tracker.state_of (tracker s) u).
    split; [exact Hthr|]. split; [exact Hst|]. split; [exact Hc0|lia].
  - injection Hstep as <-. split; [reflexivity|]. simpl.
    unfold Tracker.state_of. simpl. rewrite lookup_empty. simpl.
    split; [reflexivity|]. split; [reflexivity|]. split; lia.
Qed.

Lemma run_below_threshold (fuel : nat) (events : list Event) : forall s s',
  below_threshold s (face_sightings u events) ->
  run float_repr fuel s events = Some s' ->
  seen_stable_and_live float_repr fuel s events u = false.
Proof.
  induction events as [|e events IH]; intros s s' Hbelow Hrun; [reflexivity|].
  simpl in Hrun |- *.
  destruct (step float_repr fuel s e) as [s1|] eqn:Estep; [|discriminate].
  assert (Hk : face_sightings u (e :: events)
               = (face_sightings u events + if is_face_of u e then 1 else 0)%nat).
  { unfold face_sightings. simpl. destruct (is_face_of u e); simpl; lia. }
  rewrite Hk in Hbelow.
  destruct (step_below_threshold fuel s e s1 _ Hbelow Estep) as (Hhere & Hnext).
  rewrite Hhere. simpl. exact (IH s1 s' Hnext Hrun).
Qed.

(** X24.  From the start of a session, an identity that is matched in
    fewer than five processed frames in all is never found stable, so
    nothing is recorded for it: its attendance rows, its user row and its
    blocks are unchanged at the end of the run, however the sightings are
    spread over frames, misses and further session starts. *)
Theorem too_few_sightings_record_nothing
        (fuel : nat) (events : list Event) (s0 s : State) :
  tracker s0 = Tracker.init ->
  (face_sightings u events < 5)%nat ->
  run float_repr fuel s0 events = Some s ->
  seen_stable_and_live float_repr fuel s0 events u = false
  /\ (forall date, rows_for u date (db s) = rows_for u date (db s0))
  /\ get_user_info (db s) u = get_user_info (db s0) u
  /\ (forall date, blocks_for u date (blockchain s) = blocks_for u date (blockchain s0)).
Proof.
  intros Hinit Hfew Hrun.
  assert (Hseen : seen_stable_and_live float_repr fuel s0 events u = false).
  { apply (run_below_threshold fuel events s0 s); [|exact Hrun].
    rewrite Hinit. unfold Tracker.state_of. simpl. rewrite lookup_empty. simpl.
    split; [reflexivity|]. split; [reflexivity|]. split; lia. }
  split; [exact Hseen|]. exact (run_untouched fuel events s0 s Hrun Hseen).
Qed.

(** *** Scores that stay low *)

(** Anti-spoofing is on and the identity's window holds low scores only. *)
Local Abbreviation low_window s :=
  (enable_antispoofing (config s) = true
   /\ forall x, In x (Tracker.window_of (tracker s) u) -> (x < 0.7)%Q).

Lemma mean_of_low_scores (w : list Q) :
  (forall x, In x w -> (x < 0.7)%Q) -> Py.Qleb 0.7 (Tracker.mean w) = false.
Proof.
  intros Hall. unfold Py.Qleb. destruct (Qle_bool 0.7 (Tracker.mean w)) eqn:E; [|reflexivity].
  apply Qle_bool_iff in E. destruct w as [|a w].
  - vm_compute in E. exfalso. apply E. reflexivity.
  - assert (Hne : a :: w <> []) by discriminate.
    pose proof (average_below (a :: w) 0.7 Hne Hall) as Hlt.
    unfold Tracker.mean in E. lra.
Qed.

Lemma window_of_insert (tr : Tracker.AttendanceTracker) (h : gmap string (list Q))
      (uid : string) (w : list Q) :
  Tracker.liveness_history tr = <[uid := w]> h ->
  Tracker.window_of tr u
  = if String.eqb uid u then w
    else match h !! u with Some x => x | None => [] end.
Proof.
  intros Hh. unfold Tracker.window_of. rewrite Hh.
  destruct (String.eqb_spec uid u) as [->|Hne].
  - rewrite lookup_insert_eq. reflexivity.
  - rewrite lookup_insert_ne by exact Hne. reflexivity.
Qed.

Lemma step_low_window (fuel : nat) s e s' :
  low_window s ->
  match e with
  | FaceSeen f => face_user_id f = u -> (face_liveness_raw f < 0.7)%Q
  | _ => True
  end ->
  step float_repr fuel s e = Some s' ->
  stable_and_live_here u s e = false /\ low_window s'.
Proof.
  intros (Hanti & Hlow) Hscore Hstep.
  destruct e as [f|uid| |]; simpl in Hstep.
  - unfold process_face in Hstep.
    destruct (observe_tracker s f) as (_ & _ & _ & _ & _ & Hon & _).
    cbv zeta in Hon. destruct (Hon Hanti) as (Hlh & Hlive).
    destruct (observe_unchanged s f) as (_ & _ & Hcfg).
    pose proof (window_of_insert _ _ _ _ Hlh) as Hwin.
    fold (Tracker.window_of (tracker s) u) in Hwin.
    assert (Hnext : stable_and_live_here u s (FaceSeen f) = false
                    /\ low_window (o_state (observe s f))).
    { simpl. rewrite Hcfg, Hwin.
      destruct (String.eqb_spec (face_user_id f) u) as [Heq|Hne].
      - assert (Hw : forall x,
                   In x (Py.deque_append (Tracker.liveness_window (tracker s))
                           (Tracker.window_of (tracker s) (face_user_id f))
                           (face_liveness_raw f)) -> (x < 0.7)%Q).
        { intros x Hx. apply deque_append_In in Hx. destruct Hx as [Hx| ->].
          - apply Hlow. rewrite <- Heq. exact Hx.
          - exact (Hscore Heq). }
        rewrite Hlive, (mean_of_low_scores _ Hw), andb_false_r.
        split; [reflexivity|]. split; [exact Hanti|exact Hw].
      - simpl. split; [reflexivity|]. split; [exact Hanti|exact Hlow]. }
    destruct Hnext as (Hhere & Hnext). split; [exact Hhere|].
    destruct (marking_due (observe s f) f).
    + destruct (mark_effect fuel _ f s' Hstep) as (Hcfg' & _ & Hlh' & _).
      cbv zeta in Hcfg', Hlh'.
      unfold Tracker.window_of in *. rewrite Hcfg', Hlh'. exact Hnext.
    + injection Hstep as <-. exact Hnext.
  - injection Hstep as <-. split; [reflexivity|]. simpl. split; [exact Hanti|exact Hlow].
  - injection Hstep as <-. split; [reflexivity|]. simpl. split; [exact Hanti|exact Hlow].
  - injection Hstep as <-. split; [reflexivity|]. simpl. split; [exact Hanti|].
    unfold Tracker.window_of. simpl. rewrite lookup_empty. intros x [].
Qed.

Lemma run_low_window (fuel : nat) (events : list Event) : forall s s',
  low_window s ->
  scores_below 0.7 u events ->
  run float_repr fuel s events = Some s' ->
  seen_stable_and_live float_repr fuel s events u = false.
Proof.
  induction events as [|e events IH]; intros s s' Hlow Hscores Hrun; [reflexivity|].
  simpl in Hrun |- *.
  destruct (step float_repr fuel s e) as [s1|] eqn:Estep; [|discriminate].
  unfold scores_below in Hscores. apply List.Forall_cons_iff in Hscores.
  destruct Hscores as (He & Hscores).
  destruct (step_low_window fuel s e s1 Hlow He Estep) as (Hhere & Hnext).
  rewrite Hhere. simpl. exact (IH s1 s' Hnext Hscores Hrun).
Qed.

(** X25.  With anti-spoofing on, an identity whose raw liveness score is
    below 0.7 at every sighting is never found live, however often it is
    seen: starting with no score at 0.7 or above in its window, nothing
    is recorded for it along the run. *)
Theorem low_scores_record_nothing
        (fuel : nat) (events : list Event) (s0 s : State) :
  enable_antispoofing (config s0) = true ->
  (forall x, In x (Tracker.window_of (tracker s0) u) -> (x < 0.7)%Q) ->
  scores_below 0.7 u events ->
  run float_repr fuel s0 events = Some s ->
  seen_stable_and_live float_repr fuel s0 events u = false
  /\ (forall date, rows_for u date (db s) = rows_for u date (db s0))
  /\ get_user_info (db s) u = get_user_info (db s0) u
  /\ (forall date, blocks_for u date (blockchain s) = blocks_for u date (blockchain s0)).
Proof.
  intros Hanti Hlow Hscores Hrun.
  assert (Hseen : seen_stable_and_live float_repr fuel s0 events u = false)
    by (apply (run_low_window fuel events s0 s); auto).
  split; [exact Hseen|]. exact (run_untouched fuel events s0 s Hrun Hseen).
Qed.

(** *** The row and its block *)

(** [mark] is [mark_at] with one reading of the clock. *)
Lemma mark_is_mark_at (fuel : nat) o f :
  mark float_repr fuel o f
  = mark_at float_repr fuel o f (emotion_step_of f) (face_now f) (face_now f) (face_now f).
Proof.
  unfold mark, mark_at, emotion_step_of. destruct (face_emotion f); reflexivity.
Qed.

(** X26.  When the marking branch runs for an identity that has no row
    for the day that [mark_attendance] reads off the clock, it writes
    exactly one row, dated and timed by that reading.  With the ledger
    enabled and holding a genesis block, exactly one block is appended;
    the row stores the hash of that block, which is the block's own
    digest and under which [get_block_by_hash] finds a block; the block
    is stamped with [add_block]'s reading of the clock and its payload
    with the loop's, and the payload names the same identity, liveness
    score, emotion and engagement as the row; and the identity joins
    [recognized_today].  The three readings need not agree: the payload
    can carry one day and the row the next.  With the ledger disabled
    the chain is untouched and the row stores ['N/A']; with an empty
    ledger no block is added and the row, written all the same, stores
    no hash. *)
Theorem marked_row_points_to_its_block (fuel : nat) o f (emotion_step : EmotionStep)
        (payload_now block_now row_now : Py.Clock) s' :
  mark_at float_repr fuel o f emotion_step payload_now block_now row_now = Some s' ->
  let s := o_state o in
  rows_for (face_user_id f) (Py.date row_now) (db s) = 0%nat ->
  exists row emotion engagement,
    attendance (db s') = attendance (db s) ++ [row]
    /\ a_user_id row = face_user_id f
    /\ a_date row = Py.date row_now /\ a_time row = Py.time row_now
    /\ a_timestamp row = Py.strftime_seconds row_now
    /\ a_liveness_score row = o_liveness_score o
    /\ a_emotion row = emotion /\ a_engagement_score row = engagement
    /\ face_user_id f ∈ Tracker.recognized_today (tracker s')
    /\ (enable_blockchain (config s) = true -> blockchain s <> [] ->
        exists nb,
          blockchain s' = blockchain s ++ [nb]
          /\ a_blockchain_hash row = Some (Ledger.hash nb)
          /\ Ledger.hash nb = Ledger.calculate_hash nb
          /\ (exists b, Ledger.get_block_by_hash (blockchain s') (Ledger.hash nb) = Some b
                        /\ Ledger.hash b = Ledger.hash nb)
          /\ Ledger.timestamp nb = Py.str_of_datetime block_now
          /\ Ledger.data nb
             = attendance_data float_repr (face_user_id f) (face_name f) (o_regno o)
                               payload_now (o_liveness_score o) (face_confidence f)
                               emotion engagement)
    /\ (enable_blockchain (config s) = true -> blockchain s = [] ->
        blockchain s' = [] /\ a_blockchain_hash row = None)
    /\ (enable_blockchain (config s) = false ->
        blockchain s' = blockchain s /\ a_blockchain_hash row = Some "N/A"%string).
Proof.
  intros Hmark s Hrows. unfold mark_at in Hmark. fold s in Hmark.
  set (triple := if enable_emotion (config s) then _ else _) in Hmark.
  destruct triple as [[det emotion] engagement].
  set (payload := attendance_data float_repr _ _ _ _ _ _ _ _) in Hmark.
  destruct (if enable_blockchain (config s) then _ else _)
    as [[chain bh]|] eqn:Eadd; [|discriminate].
  assert (Hunmarked : already_marked (db s) (face_user_id f) (Py.date row_now) = false).
  { rewrite already_marked_rows, Hrows. reflexivity. }
  unfold mark_attendance in Hmark. rewrite Hunmarked in Hmark.
  injection Hmark as <-. cbn [db blockchain tracker].
  unfold write_mark, update_user_statistics, insert_attendance. cbn [attendance].
  eexists _, emotion, engagement.
  split; [reflexivity|]. do 7 (split; [reflexivity|]).
  split; [cbn [Tracker.recognized_today Tracker.set_recognized_today]; set_solver|].
  cbn [a_blockchain_hash].
  split; [|split].
  - intros Hbc Hne. rewrite Hbc in Eadd.
    destruct (add_block_inv _ _ _ _ _ _ Eadd)
      as [(Hnil & _)|(latest & nb & Hl & Hm & -> & ->)]; [contradiction|].
    destruct (mine_block_inv _ _ _ _ Hm) as (_ & _ & Hts & Hd & _ & _ & Hh).
    exists nb. split; [reflexivity|]. split; [reflexivity|].
    split; [exact (Hh eq_refl)|]. split; [|split; [exact Hts|exact Hd]].
    unfold Ledger.get_block_by_hash. rewrite find_snoc.
    destruct (List.find _ (blockchain s)) as [b|] eqn:Hf.
    + exists b. split; [reflexivity|]. apply find_some in Hf.
      apply String.eqb_eq, Hf.
    + rewrite String.eqb_refl. eauto.
  - intros Hbc Hnil. rewrite Hbc, Hnil in Eadd. simpl in Eadd.
    injection Eadd as <- <-. auto.
  - intros Hbc. rewrite Hbc in Eadd. injection Eadd as <- <-. auto.
Qed.

End AppMore.

(* ===================================================================== *)
(** ** The worked session, continued                                      *)
(* ===================================================================== *)

Section WorkedSessionMore.
Import Ledger Database App.

(** Alice is seen in four processed frames of a new session. *)
(** The example session on 2025-01-01 ends with one row and one block for
    Alice, however often she is found; in the session that runs past
    midnight, nothing is written for her on 2025-01-02. *)
Lemma at_most_once_attendance_witness :
  (exists s, run example_float_repr 10 example_start example_events = Some s
             /\ rows_for "alice" "2025-01-01" (db s) = 1%nat
             /\ blocks_for "alice" "2025-01-01" (blockchain s) = 1%nat)
  /\ rows_for "alice" "2025-01-02" (db after_night) = 0%nat
  /\ blocks_for "alice" "2025-01-02" (blockchain after_night)
     = blocks_for "alice" "2025-01-02" (blockchain at_midnight).
Proof.
  assert (Hday : forall date face n,
             Py.date (face_now face) = date ->
             App.same_day date (concat (repeat [FrameRead; FrameRead; FaceSeen face] n))).
  { intros date face n Hd. unfold App.same_day. induction n as [|n IH]; simpl.
    - apply List.Forall_nil.
    - repeat (apply List.Forall_cons; [first [left; reflexivity
                                            | right; simpl; rewrite Hd; reflexivity]|]).
      exact IH. }
  split.
  - destruct example_run_ends as (s & Hrun & _). exists s. split; [exact Hrun|].
    destruct (at_most_once_attendance example_float_repr "alice" "2025-01-01"
                ltac:(discriminate) ltac:(discriminate)
                10 example_events example_start s) as (_ & _ & Hone & _).
    + reflexivity.
    + discriminate.
    + unfold example_events. apply Forall_app. split; [apply Hday; reflexivity|].
      apply List.Forall_cons; [left; reflexivity|]. apply Hday. reflexivity.
    + vm_compute. lia.
    + exact Hrun.
    + destruct Hone as [H1 Hb].
      * simpl. intros Hin. exfalso. exact (not_elem_of_empty _ Hin).
      * vm_compute. reflexivity.
      * split; [exact H1|]. rewrite Hb by (vm_compute; reflexivity).
        vm_compute. reflexivity.
  - destruct (at_most_once_attendance example_float_repr "alice" "2025-01-02"
                ltac:(discriminate) ltac:(discriminate)
                10 night_events at_midnight after_night) as (_ & _ & _ & Hstale).
    + vm_compute. reflexivity.
    + vm_compute. discriminate.
    + apply Hday. reflexivity.
    + vm_compute. lia.
    + exact night_run.
    + apply Hstale.
      * apply (bool_decide_unpack _). vm_compute. exact I.
      * vm_compute. reflexivity.
      * vm_compute. reflexivity.
Defined.

Lemma four_sightings_run_ends :
  exists s, run example_float_repr 10 example_start
                (concat (repeat [FrameRead; FrameRead; FaceSeen alice] 4)) = Some s.
Proof.
  destruct (run example_float_repr 10 example_start
                (concat (repeat [FrameRead; FrameRead; FaceSeen alice] 4))) as [s|] eqn:E;
    [eauto|exfalso].
  assert (H : match run example_float_repr 10 example_start
                        (concat (repeat [FrameRead; FrameRead; FaceSeen alice] 4)) with
              | Some _ => true
              | None => false
              end = true) by (vm_compute; reflexivity).
  rewrite E in H. discriminate.
Qed.

Lemma nothing_recorded_unless_stable_and_live_witness :
  exists s, run example_float_repr 10 example_start
                (concat (repeat [FrameRead; FrameRead; FaceSeen alice] 4)) = Some s
            /\ rows_for "alice" "2025-01-01" (db s)
               = rows_for "alice" "2025-01-01" (db example_start).
Proof.
  destruct four_sightings_run_ends as (s & Hrun). exists s. split; [exact Hrun|].
  destruct (nothing_recorded_unless_stable_and_live
              example_float_repr "alice" 10
              (concat (repeat [FrameRead; FrameRead; FaceSeen alice] 4))
              example_start s Hrun) as (H & _).
  - vm_compute. reflexivity.
  - apply H.
Defined.

Lemma too_few_sightings_record_nothing_witness :
  exists s, run example_float_repr 10 example_start
                (concat (repeat [FrameRead; FrameRead; FaceSeen alice] 4)) = Some s
            /\ get_user_info (db s) "alice" = get_user_info (db example_start) "alice".
Proof.
  destruct four_sightings_run_ends as (s & Hrun). exists s. split; [exact Hrun|].
  destruct (too_few_sightings_record_nothing
              example_float_repr "alice" 10
              (concat (repeat [FrameRead; FrameRead; FaceSeen alice] 4))
              example_start s eq_refl) as (_ & _ & H & _).
  - vm_compute. lia.
  - exact Hrun.
  - exact H.
Defined.

(** A print of Alice is held up in seven processed frames: every raw
    score is 0.3. *)
Lemma print_run_ends :
  exists s, run example_float_repr 10 example_start
                (concat (repeat [FrameRead;
                                 FaceSeen (mkFace "alice" "Alice" 62.5 0.3
                                                  (Some "Neutral"%string) [1; 2; 3]
                                                  example_now)] 7)) = Some s.
Proof.
  destruct (run example_float_repr 10 example_start _) as [s|] eqn:E; [eauto|exfalso].
  assert (H : match run example_float_repr 10 example_start
                        (concat (repeat [FrameRead;
                                         FaceSeen (mkFace "alice" "Alice" 62.5 0.3
                                                          (Some "Neutral"%string) [1; 2; 3]
                                                          example_now)] 7)) with
              | Some _ => true
              | None => false
              end = true) by (vm_compute; reflexivity).
  rewrite E in H. discriminate.
Qed.

Lemma low_scores_record_nothing_witness :
  exists s, run example_float_repr 10 example_start
                (concat (repeat [FrameRead;
                                 FaceSeen (mkFace "alice" "Alice" 62.5 0.3
                                                  (Some "Neutral"%string) [1; 2; 3]
                                                  example_now)] 7)) = Some s
            /\ rows_for "alice" "2025-01-01" (db s)
               = rows_for "alice" "2025-01-01" (db example_start).
Proof.
  destruct print_run_ends as (s & Hrun). exists s. split; [exact Hrun|].
  destruct (low_scores_record_nothing
              example_float_repr "alice" 10
              (concat (repeat [FrameRead;
                               FaceSeen (mkFace "alice" "Alice" 62.5 0.3
                                                (Some "Neutral"%string) [1; 2; 3]
                                                example_now)] 7))
              example_start s) as (_ & H & _).
  - reflexivity.
  - vm_compute. intros x [].
  - unfold scores_below. simpl.
    repeat (apply List.Forall_cons; [first [exact I | intros _; reflexivity]|]).
    apply List.Forall_nil.
  - exact Hrun.
  - apply H.
Defined.

Lemma late_mark_ends :
  match mark_at example_float_repr 10 (observe before_fifth alice_late) alice_late
                (Classified "Neutral") late_payload_now late_block_now late_row_now with
  | Some _ => true
  | None => false
  end = true.
Proof. vm_compute. reflexivity. Qed.

(** Alice's fifth sighting falls a moment before midnight.  The payload is
    stamped 2025-01-01, the block and the row 2025-01-02; the row carries
    the hash of the block. *)
Lemma marked_row_points_to_its_block_witness :
  exists s' row nb,
    mark_at example_float_repr 10 (observe before_fifth alice_late) alice_late
            (Classified "Neutral") late_payload_now late_block_now late_row_now = Some s'
    /\ attendance (db s') = attendance (db before_fifth) ++ [row]
    /\ a_user_id row = "alice"%string
    /\ a_date row = "2025-01-02"%string
    /\ blockchain s' = [Ledger.example_genesis; nb]
    /\ a_blockchain_hash row = Some (Ledger.hash nb)
    /\ Ledger.timestamp nb = "2025-01-02 00:00:00.000185"%string
    /\ json_get "timestamp" (match Ledger.data nb with
                             | Json.JObj items => items
                             | _ => []
                             end)
       = Some (Json.JStr "2025-01-01T23:59:59.999990").
Proof.
  pose proof late_mark_ends as Hends.
  destruct (mark_at example_float_repr 10 (observe before_fifth alice_late) alice_late
                    (Classified "Neutral") late_payload_now late_block_now late_row_now)
    as [s'|] eqn:E; [|discriminate Hends].
  destruct (marked_row_points_to_its_block example_float_repr 10 _ alice_late _ _ _ _ s' E)
    as (row & emotion & engagement & H1 & H2 & H3 & _ & _ & _ & _ & _ & _ & Hledger & _).
  { vm_compute. reflexivity. }
  destruct (Hledger eq_refl) as (nb & Hc & Hh & _ & _ & Hts & Hd).
  { vm_compute. discriminate. }
  exists s', row, nb.
  split; [reflexivity|]. split; [exact H1|]. split; [exact H2|]. split; [exact H3|].
  split; [exact Hc|]. split; [exact Hh|]. split; [exact Hts|].
  rewrite Hd. reflexivity.
Defined.

End WorkedSessionMore.
